(** * Drag-to-reschedule engine: [useDragMoveEvent]

    A shallow embedding of [src/hooks/useDragMoveEvent.tsx], of what
    [src/components/DraggableCalendarEvent.tsx] and [RecurringEventDialog]
    hand to the hook and show of its dates, together with the part of the
    ECMAScript [Number], [String] and [Date] semantics they rely on.

    Conventions of the model.
    - An ECMAScript Number is a [number]: an exact rational, one of the two
      infinities, or NaN.  Doubles are idealised as exact rationals (no
      rounding error) and the two zeros are identified.
    - The time value of a [Date] is an integer number of milliseconds or
      NaN ([None]), as in the language specification.
    - The zone of a [Host] has a fixed offset from UTC, and what is proved
      of local hours, minutes and calendar days over a [Host] is proved of
      such zones only.  [DaylightSaving] has the date methods and [onMove]
      over an offset that depends on the instant, for what a clock change
      breaks.
    - Refs and React state cells are the fields of one [State] record; every
      listener runs to completion on the cells of the latest render.
    - The registration of the listeners on the node held by [dragRef] is
      left out. *)

From Stdlib Require Import ZArith QArith Qround Qabs Lia List String Ascii Bool.
Import ListNotations.

Open Scope Z_scope.

(** ** ECMAScript numbers *)

Inductive number : Type :=
| Num (q : Q)
| PosInf
| NegInf
| NaN.

Definition ofZ (z : Z) : number := Num (inject_Z z).

Definition finite (n : number) : option Q :=
  match n with
  | Num q => Some q
  | _ => None
  end.

(** [Number.isNaN] on a value that is a Number. *)
Definition isNaN (n : number) : bool :=
  match n with
  | NaN => true
  | _ => false
  end.

Definition neg (n : number) : number :=
  match n with
  | Num q => Num (- q)
  | PosInf => NegInf
  | NegInf => PosInf
  | NaN => NaN
  end.

(** [a + b] *)
Definition add (a b : number) : number :=
  match a, b with
  | NaN, _ | _, NaN => NaN
  | Num p, Num q => Num (p + q)
  | PosInf, NegInf | NegInf, PosInf => NaN
  | PosInf, _ | _, PosInf => PosInf
  | NegInf, _ | _, NegInf => NegInf
  end.

(** [a - b] *)
Definition sub (a b : number) : number := add a (neg b).

Definition Qsign (q : Q) : comparison := (Qnum q ?= 0)%Z.

(** [a / b]; a zero divisor is taken as [+0]. *)
Definition div (a b : number) : number :=
  match a, b with
  | NaN, _ | _, NaN => NaN
  | Num p, Num q =>
      match Qsign q with
      | Eq =>
          match Qsign p with
          | Eq => NaN
          | Gt => PosInf
          | Lt => NegInf
          end
      | _ => Num (p / q)
      end
  | Num _, _ => Num 0
  | PosInf, Num q => match Qsign q with Lt => NegInf | _ => PosInf end
  | NegInf, Num q => match Qsign q with Lt => PosInf | _ => NegInf end
  | _, _ => NaN
  end.

(** [Math.round]: the nearest integer, a tie going towards [+Infinity]. *)
Definition Math_round (n : number) : number :=
  match n with
  | Num q => ofZ (Qfloor (q + (1 # 2)))
  | _ => n
  end.

(** [ToIntegerOrInfinity] on a finite value: truncation towards zero. *)
Definition truncate (q : Q) : Z :=
  if Qle_bool 0 q then Qfloor q else Qceiling q.

(** [a === b] on Numbers: NaN differs from everything, itself included. *)
Definition strictEq (a b : number) : bool :=
  match a, b with
  | Num p, Num q => Qeq_bool p q
  | PosInf, PosInf | NegInf, NegInf => true
  | _, _ => false
  end.

(** ** ECMAScript strings: [split] and [Number(string)] *)

Open Scope string_scope.
Open Scope Z_scope.

(** [s.split(sep)] for a one-character separator. *)
Fixpoint split (sep : ascii) (s : string) : list string :=
  match s with
  | EmptyString => [EmptyString]
  | String c r =>
      if Ascii.eqb c sep then EmptyString :: split sep r
      else
        match split sep r with
        | h :: t => String c h :: t
        | [] => [String c EmptyString]
        end
  end.

(** White space of [StringToNumber], for code units below 256:
    TAB, LF, VT, FF, CR, SP and NBSP. *)
Definition isWhiteSpace (c : ascii) : bool :=
  let n := N_of_ascii c in
  ((9 <=? n) && (n <=? 13) || (n =? 32) || (n =? 160))%N.

Fixpoint trimStart (s : string) : string :=
  match s with
  | String c r => if isWhiteSpace c then trimStart r else s
  | EmptyString => s
  end.

Fixpoint reverse (acc s : string) : string :=
  match s with
  | EmptyString => acc
  | String c r => reverse (String c acc) r
  end.

Definition trim (s : string) : string :=
  reverse "" (trimStart (reverse "" (trimStart s))).

(** The value of a digit in the given radix. *)
Definition digit (radix : Z) (c : ascii) : option Z :=
  let n := Z.of_N (N_of_ascii c) in
  let v :=
    if (48 <=? n) && (n <=? 57) then n - 48
    else if (97 <=? n) && (n <=? 102) then n - 87
    else if (65 <=? n) && (n <=? 70) then n - 55
    else radix in
  if v <? radix then Some v else None.

(** Leading digits of [s]: their value, their count and the rest. *)
Fixpoint digits (radix : Z) (s : string) (acc : Z) (n : nat)
  : Z * nat * string :=
  match s with
  | String c r =>
      match digit radix c with
      | Some d => digits radix r (radix * acc + d) (S n)
      | None => (acc, n, s)
      end
  | EmptyString => (acc, n, s)
  end.

Definition pow10 (n : Z) : Q :=
  if 0 <=? n then inject_Z (10 ^ n) else / inject_Z (10 ^ (- n)).

(** [ExponentPart_opt] followed by the end of the string. *)
Definition exponent (q : Q) (s : string) : number :=
  match s with
  | EmptyString => Num q
  | String c r =>
      if Ascii.eqb c "e" || Ascii.eqb c "E" then
        let '(sign, r) :=
          match r with
          | String "+" r' => (1, r')
          | String "-" r' => (-1, r')
          | _ => (1, r)
          end in
        match digits 10 r 0 0 with
        | (_, O, _) => NaN
        | (e, _, EmptyString) => Num (q * pow10 (sign * e))
        | _ => NaN
        end
      else NaN
  end.

(** [StrUnsignedDecimalLiteral]. *)
Definition unsignedDecimal (s : string) : number :=
  if String.eqb s "Infinity" then PosInf
  else
    let '(i, ni, r) := digits 10 s 0 0 in
    match r with
    | String "." r' =>
        let '(f, nf, r'') := digits 10 r' 0 0 in
        match ni, nf with
        | O, O => NaN
        | _, _ =>
            exponent (inject_Z i + inject_Z f * pow10 (- Z.of_nat nf)) r''
        end
    | _ =>
        match ni with
        | O => NaN
        | _ => exponent (inject_Z i) r
        end
    end.

(** [0x], [0o] and [0b] literals. *)
Definition nonDecimal (radix : Z) (s : string) : number :=
  match digits radix s 0 0 with
  | (_, O, _) => NaN
  | (v, _, EmptyString) => ofZ v
  | _ => NaN
  end.

(** [Number(s)] for a string [s] ([StringToNumber]). *)
Definition Number (s : string) : number :=
  match trim s with
  | EmptyString => ofZ 0
  | String "+" r => unsignedDecimal r
  | String "-" r => neg (unsignedDecimal r)
  | String "0" (String c r) as t =>
      if Ascii.eqb c "x" || Ascii.eqb c "X" then nonDecimal 16 r
      else if Ascii.eqb c "o" || Ascii.eqb c "O" then nonDecimal 8 r
      else if Ascii.eqb c "b" || Ascii.eqb c "B" then nonDecimal 2 r
      else unsignedDecimal t
  | t => unsignedDecimal t
  end.

(** ** ECMAScript dates *)

Definition msPerSecond : Z := 1000.
Definition msPerMinute : Z := 60000.
Definition msPerHour : Z := 3600000.
Definition msPerDay : Z := 86400000.

Definition Day (t : Z) : Z := t / msPerDay.
Definition TimeWithinDay (t : Z) : Z := t mod msPerDay.

Definition DaysInYear (y : Z) : Z :=
  if negb (y mod 4 =? 0) then 365
  else if negb (y mod 100 =? 0) then 366
  else if negb (y mod 400 =? 0) then 365
  else 366.

Definition DayFromYear (y : Z) : Z :=
  365 * (y - 1970) + (y - 1969) / 4 - (y - 1901) / 100 + (y - 1601) / 400.

Definition TimeFromYear (y : Z) : Z := msPerDay * DayFromYear y.

(** The year of day number [d]: an estimate from the mean length of a year,
    corrected by at most one. *)
Definition YearFromDay (d : Z) : Z :=
  let y := 1970 + (d * 400) / 146097 in
  if d <? DayFromYear y then y - 1
  else if DayFromYear (y + 1) <=? d then y + 1
  else y.

(** The largest [y] with [TimeFromYear y <= t] (see [YearFromTime_spec]). *)
Definition YearFromTime (t : Z) : Z := YearFromDay (Day t).

Definition InLeapYear (t : Z) : Z :=
  if DaysInYear (YearFromTime t) =? 366 then 1 else 0.

Definition DayWithinYear (t : Z) : Z := Day t - DayFromYear (YearFromTime t).

Definition MonthFromTime (t : Z) : Z :=
  let d := DayWithinYear t in
  let leap := InLeapYear t in
  if d <? 31 then 0
  else if d <? 59 + leap then 1
  else if d <? 90 + leap then 2
  else if d <? 120 + leap then 3
  else if d <? 151 + leap then 4
  else if d <? 181 + leap then 5
  else if d <? 212 + leap then 6
  else if d <? 243 + leap then 7
  else if d <? 273 + leap then 8
  else if d <? 304 + leap then 9
  else if d <? 334 + leap then 10
  else 11.

Definition DateFromTime (t : Z) : Z :=
  let d := DayWithinYear t in
  let leap := InLeapYear t in
  match MonthFromTime t with
  | 0 => d + 1
  | 1 => d - 30
  | 2 => d - 58 - leap
  | 3 => d - 89 - leap
  | 4 => d - 119 - leap
  | 5 => d - 150 - leap
  | 6 => d - 180 - leap
  | 7 => d - 211 - leap
  | 8 => d - 242 - leap
  | 9 => d - 272 - leap
  | 10 => d - 303 - leap
  | _ => d - 333 - leap
  end.

Definition HourFromTime (t : Z) : Z := (t / msPerHour) mod 24.
Definition MinFromTime (t : Z) : Z := (t / msPerMinute) mod 60.
Definition SecFromTime (t : Z) : Z := (t / msPerSecond) mod 60.
Definition msFromTime (t : Z) : Z := t mod msPerSecond.

(** [MakeTime (hour, min, sec, ms)] *)
Definition MakeTime (hour min sec ms : number) : number :=
  match finite hour, finite min, finite sec, finite ms with
  | Some h, Some m, Some s, Some milli =>
      ofZ (truncate h * msPerHour + truncate m * msPerMinute
           + truncate s * msPerSecond + truncate milli)
  | _, _, _, _ => NaN
  end.

(** Days from the start of its year to the first of month [mn] (0..11). *)
Definition DaysBeforeMonth (ym mn : Z) : Z :=
  let leap := if DaysInYear ym =? 366 then 1 else 0 in
  match mn with
  | 0 => 0
  | 1 => 31
  | 2 => 59 + leap
  | 3 => 90 + leap
  | 4 => 120 + leap
  | 5 => 151 + leap
  | 6 => 181 + leap
  | 7 => 212 + leap
  | 8 => 243 + leap
  | 9 => 273 + leap
  | 10 => 304 + leap
  | _ => 334 + leap
  end.

(** [MakeDay (year, month, date)]: the day number of the first of the month
    [ym]/[mn], plus [dt - 1]. *)
Definition MakeDay (year month date : number) : number :=
  match finite year, finite month, finite date with
  | Some y, Some m, Some dt =>
      let ym := truncate y + truncate m / 12 in
      let mn := truncate m mod 12 in
      ofZ (DayFromYear ym + DaysBeforeMonth ym mn + truncate dt - 1)
  | _, _, _ => NaN
  end.

(** [MakeDate (day, time)] *)
Definition MakeDate (day time : number) : number :=
  match finite day, finite time with
  | Some d, Some t => Num (d * inject_Z msPerDay + t)
  | _, _ => NaN
  end.

(** A time value: an integral number of milliseconds, or NaN. *)
Definition timeValue : Type := option Z.

Definition maxTime : Z := 8640000000000000.

(** [TimeClip (time)] *)
Definition TimeClip (time : number) : timeValue :=
  match finite time with
  | Some q =>
      if Qle_bool (Qabs q) (inject_Z maxTime) then Some (truncate q)
      else None
  | None => None
  end.

(** A [Date] object: its [[DateValue]] slot. *)
Record Date : Type := mkDate { DateValue : timeValue }.

(** An element: its [data-calendar-date] attribute and its parent. *)
#[warnings="-register-all"]
Inductive Element : Type :=
| mkElement (dataCalendarDate : option string) (parentElement : option Element).

(** The host: the offset of its time zone in milliseconds, its [Date.parse]
    and [document.elementFromPoint] of its document, if it has one. *)
Record Host : Type := {
  LocalTZA : Z;
  Date_parse : string -> number;
  document : option (number -> number -> option Element)
}.

Section DateMethods.
Variable host : Host.

Definition LocalTime (t : Z) : Z := t + LocalTZA host.
Definition UTC (t : number) : number := sub t (ofZ (LocalTZA host)).

Definition getTime (d : Date) : number :=
  match DateValue d with
  | Some t => ofZ t
  | None => NaN
  end.

(** Reading a local-time field of a date; NaN on an invalid date. *)
Definition localField (f : Z -> Z) (d : Date) : number :=
  match DateValue d with
  | Some t => ofZ (f (LocalTime t))
  | None => NaN
  end.

Definition getFullYear : Date -> number := localField YearFromTime.
Definition getMonth : Date -> number := localField MonthFromTime.
Definition getDate : Date -> number := localField DateFromTime.
Definition getHours : Date -> number := localField HourFromTime.
Definition getMinutes : Date -> number := localField MinFromTime.

(** [d.setMinutes(min)]: the date after the call. *)
Definition setMinutes (d : Date) (min : number) : Date :=
  match DateValue d with
  | None => d
  | Some t =>
      let t := LocalTime t in
      let date :=
        MakeDate (ofZ (Day t))
          (MakeTime (ofZ (HourFromTime t)) min (ofZ (SecFromTime t))
             (ofZ (msFromTime t))) in
      mkDate (TimeClip (UTC date))
  end.

(** [d.setDate(date)]: the date after the call. *)
Definition setDate (d : Date) (date : number) : Date :=
  match DateValue d with
  | None => d
  | Some t =>
      let t := LocalTime t in
      let newDate :=
        MakeDate
          (MakeDay (ofZ (YearFromTime t)) (ofZ (MonthFromTime t)) date)
          (ofZ (TimeWithinDay t)) in
      mkDate (TimeClip (UTC newDate))
  end.

(** [d.setFullYear(year, month, date)]: the date after the call.  An
    invalid date is restarted from local time [+0]. *)
Definition setFullYear (d : Date) (year month date : number) : Date :=
  let t :=
    match DateValue d with
    | None => 0
    | Some t => LocalTime t
    end in
  let newDate :=
    MakeDate (MakeDay year month date) (ofZ (TimeWithinDay t)) in
  mkDate (TimeClip (UTC newDate)).

(** [new Date(year, month, date, hours, minutes, seconds, ms)] *)
Definition newDateFields (year month date hours minutes seconds ms : number)
  : Date :=
  let yr :=
    match year with
    | Num q =>
        let yi := truncate q in
        if (0 <=? yi) && (yi <=? 99) then ofZ (1900 + yi) else year
    | _ => year
    end in
  let finalDate :=
    MakeDate (MakeDay yr month date) (MakeTime hours minutes seconds ms) in
  mkDate (TimeClip (UTC finalDate)).
End DateMethods.

(** ** The input adapter of [DraggableCalendarEvent] *)

Definition undefinable : Type := option number.

(** [ToNumber] of a Number or [undefined]. *)
Definition ToNumber (v : undefinable) : number :=
  match v with
  | Some n => n
  | None => NaN
  end.

(** [Number.isNaN (v)]: false on [undefined]. *)
Definition Number_isNaN (v : undefinable) : bool :=
  match v with
  | Some n => isNaN n
  | None => false
  end.

(** [toDate (date, time)] *)
Definition toDate (host : Host) (date time : string) : Date :=
  let ymd := map Number (split "-" date) in
  let year := nth_error ymd 0 in
  let month := nth_error ymd 1 in
  let day := nth_error ymd 2 in
  let hm := map Number (split ":" time) in
  let hours := nth_error hm 0 in
  let minutes := nth_error hm 1 in
  newDateFields host (ToNumber year) (sub (ToNumber month) (ofZ 1))
    (ToNumber day) (ToNumber hours) (ToNumber minutes) (ofZ 0) (ofZ 0).

(** ** The hook *)

Inductive DateLike : Type :=
| OfString (s : string)
| OfNumber (n : number)
| OfDate (d : Date).

Record EventLike : Type := { start : DateLike; end_ : DateLike }.

(** An identifier of the callback a caller supplies. *)
Definition DragEndCallback : Type := nat.

Module Options.
Record t : Type := {
  lockTime : option bool;
  pxPerDay : option number;
  pxPerMinute : option number
}.
Definition empty : t :=
  {| lockTime := None; pxPerDay := None; pxPerMinute := None |}.
End Options.

(** What one render closes over, the event apart. *)
Record Props : Type := {
  onDragEnd : option DragEndCallback;
  options : Options.t
}.

Definition lockTime (p : Props) : bool :=
  match Options.lockTime (options p) with
  | Some b => b
  | None => false
  end.

Definition pxPerDay (p : Props) : number :=
  match Options.pxPerDay (options p) with
  | Some n => n
  | None => ofZ 40
  end.

Definition pxPerMinute (p : Props) : number :=
  match Options.pxPerMinute (options p) with
  | Some n => n
  | None => ofZ 1
  end.

(** What a [MouseEvent] and a [Touch] have in common. *)
Record Pointer : Type := { clientX : number; clientY : number }.

(** A [TouchEvent] of a touch start or move: [touches] is never empty. *)
Record TouchEvent : Type := { touches : Pointer * list Pointer }.

Record Pos : Type := { x : number; y : number }.

Definition getPos (e : Pointer) : Pos := {| x := clientX e; y := clientY e |}.

(** The refs and the state cells of the hook. *)
Record State : Type := {
  draggingRef : bool;
  startPosRef : option Pos;
  originalStartRef : option Date;
  originalEndRef : option Date;
  isDragging : bool;
  previewStart : option Date;
  previewEnd : option Date
}.

Definition initial : State := {|
  draggingRef := false;
  startPosRef := None;
  originalStartRef := None;
  originalEndRef := None;
  isDragging := false;
  previewStart := None;
  previewEnd := None
|}.

Inductive Error : Type := TypeError.

Inductive outcome (A : Type) : Type :=
| Returns (a : A)
| Throws (e : Error).
Arguments Returns {A} a.
Arguments Throws {A} e.

Inductive Effect : Type :=
| preventDefault
| Call (f : DragEndCallback) (newStart newEnd : Date).

(** [el.closest('[data-calendar-date]')] *)
Fixpoint closest (el : Element) : option Element :=
  match el with
  | mkElement (Some _) _ => Some el
  | mkElement None (Some parent) => closest parent
  | mkElement None None => None
  end.

(** [el.getAttribute('data-calendar-date')] *)
Definition getAttribute (el : Element) : option string :=
  match el with
  | mkElement a _ => a
  end.

(** Truthiness of a string that may be [null] or [undefined]. *)
Definition truthy (s : option string) : bool :=
  match s with
  | Some (String _ _) => true
  | _ => false
  end.

Section Hook.
Variable host : Host.

(** [new Date(value)] *)
Definition newDate (value : DateLike) : Date :=
  match value with
  | OfDate d => mkDate (DateValue d)
  | OfNumber n => mkDate (TimeClip n)
  | OfString s => mkDate (TimeClip (Date_parse host s))
  end.

(** The effect on [event] (lines 54 to 65): the originals follow the event
    and the preview is cleared. *)
Definition bindEvent (event : option EventLike) (s : State) : State :=
  {| draggingRef := draggingRef s;
     startPosRef := startPosRef s;
     originalStartRef :=
       match event with
       | Some ev => Some (newDate (start ev))
       | None => None
       end;
     originalEndRef :=
       match event with
       | Some ev => Some (newDate (end_ ev))
       | None => None
       end;
     isDragging := isDragging s;
     previewStart := None;
     previewEnd := None |}.

(** [dateAttr] (lines 90 to 95): the value of [data-calendar-date] on the
    nearest marked ancestor of the element under the point, if any. *)
Definition dateAttr (clientX clientY : number) : option string :=
  match document host with
  | None => None
  | Some elementFromPoint =>
      match elementFromPoint clientX clientY with
      | None => None
      | Some hoveredElement =>
          match closest hoveredElement with
          | Some zone => getAttribute zone
          | None => None
          end
      end
  end.

Section Render.
Variable props : Props.

(** Lines 82 and 83. *)
Definition dayOffset (deltaY : number) : number :=
  Math_round (div deltaY (pxPerDay props)).

Definition minuteOffset (deltaX : number) : number :=
  if lockTime props then ofZ 0
  else Math_round (div deltaX (pxPerMinute props)).

(** [newStart] after the minute step (lines 85 to 88). *)
Definition shiftMinutes (originalStart : Date) (deltaX : number) : Date :=
  let newStart := mkDate (TimeClip (getTime originalStart)) in
  if negb (lockTime props) then
    setMinutes host newStart
      (add (getMinutes host newStart) (minuteOffset deltaX))
  else newStart.

(** [newStart] after the date step (lines 97 to 104): the marker's date when
    its three fields convert, nothing when they do not, the day offset when
    there is no marker value. *)
Definition placeDate (newStart : Date) (attr : option string)
    (deltaY : number) : Date :=
  match attr with
  | Some (String _ _ as value) =>
      let parts := map Number (split "-" value) in
      let year := nth_error parts 0 in
      let month := nth_error parts 1 in
      let day := nth_error parts 2 in
      if negb (Number_isNaN year) && negb (Number_isNaN month)
         && negb (Number_isNaN day)
      then
        setFullYear host newStart (ToNumber year)
          (sub (ToNumber month) (ofZ 1)) (ToNumber day)
      else newStart
  | _ => setDate host newStart (add (getDate host newStart) (dayOffset deltaY))
  end.

(** [onMove] (lines 77 to 111).  Reading [start.x] throws when the anchor
    is null. *)
Definition onMove (s : State) (clientX clientY : number) : outcome State :=
  match draggingRef s, originalStartRef s, originalEndRef s with
  | true, Some originalStart, Some originalEnd =>
      match startPosRef s with
      | None => Throws TypeError
      | Some start =>
          let deltaX := sub clientX (x start) in
          let deltaY := sub clientY (y start) in
          let newStart := shiftMinutes originalStart deltaX in
          let newStart :=
            placeDate newStart (dateAttr clientX clientY) deltaY in
          let duration :=
            sub (getTime originalEnd) (getTime originalStart) in
          let newEnd :=
            mkDate (TimeClip (add (getTime newStart) duration)) in
          Returns
            {| draggingRef := draggingRef s;
               startPosRef := startPosRef s;
               originalStartRef := originalStartRef s;
               originalEndRef := originalEndRef s;
               isDragging := isDragging s;
               previewStart := Some newStart;
               previewEnd := Some newEnd |}
      end
  | _, _, _ => Returns s
  end.

(** The listeners (lines 113 to 161), each with the effects it has on its
    event and on the caller. *)
Definition handleMouseDown (s : State) (e : Pointer)
  : State * list Effect :=
  match originalStartRef s with
  | None => (s, [])
  | Some _ =>
      ({| draggingRef := true;
          startPosRef := Some (getPos e);
          originalStartRef := originalStartRef s;
          originalEndRef := originalEndRef s;
          isDragging := true;
          previewStart := previewStart s;
          previewEnd := previewEnd s |},
       [preventDefault])
  end.

Definition handleTouchStart (s : State) (e : TouchEvent)
  : State * list Effect :=
  match originalStartRef s with
  | None => (s, [])
  | Some _ =>
      let t := fst (touches e) in
      ({| draggingRef := true;
          startPosRef := Some (getPos t);
          originalStartRef := originalStartRef s;
          originalEndRef := originalEndRef s;
          isDragging := true;
          previewStart := previewStart s;
          previewEnd := previewEnd s |},
       [preventDefault])
  end.

Definition handleMouseMove (s : State) (e : Pointer)
  : outcome (State * list Effect) :=
  if negb (draggingRef s) then Returns (s, [])
  else
    match onMove s (clientX e) (clientY e) with
    | Returns s' => Returns (s', [preventDefault])
    | Throws err => Throws err
    end.

Definition handleTouchMove (s : State) (e : TouchEvent)
  : outcome (State * list Effect) :=
  if negb (draggingRef s) then Returns (s, [])
  else
    let t := fst (touches e) in
    match onMove s (clientX t) (clientY t) with
    | Returns s' => Returns (s', [preventDefault])
    | Throws err => Throws err
    end.

Definition endDrag (s : State) : State * list Effect :=
  if negb (draggingRef s) then (s, [])
  else
    let finalStart := previewStart s in
    let finalEnd := previewEnd s in
    ({| draggingRef := false;
        startPosRef := None;
        originalStartRef := originalStartRef s;
        originalEndRef := originalEndRef s;
        isDragging := false;
        previewStart := None;
        previewEnd := None |},
     match finalStart, finalEnd, onDragEnd props with
     | Some newStart, Some newEnd, Some f => [Call f newStart newEnd]
     | _, _, _ => []
     end).

Definition handleMouseUp (s : State) : State * list Effect := endDrag s.
Definition handleTouchEnd (s : State) : State * list Effect := endDrag s.
Definition handleTouchCancel (s : State) : State * list Effect := endDrag s.
End Render.

(** What can happen to a mounted hook: its [event] changes, or one of
    the seven listeners fires. *)
Inductive Input : Type :=
| rebind (event : option EventLike)
| mousedown (e : Pointer)
| touchstart (e : TouchEvent)
| mousemove (e : Pointer)
| touchmove (e : TouchEvent)
| mouseup
| touchend
| touchcancel.

Definition step (props : Props) (i : Input) (s : State)
  : outcome (State * list Effect) :=
  match i with
  | rebind event => Returns (bindEvent event s, [])
  | mousedown e => Returns (handleMouseDown s e)
  | touchstart e => Returns (handleTouchStart s e)
  | mousemove e => handleMouseMove props s e
  | touchmove e => handleTouchMove props s e
  | mouseup => Returns (handleMouseUp props s)
  | touchend => Returns (handleTouchEnd props s)
  | touchcancel => Returns (handleTouchCancel props s)
  end.

(** A sequence of inputs, each handled by the listeners of the render
    whose props it comes with; the effects are collected in order. *)
Fixpoint run (inputs : list (Props * Input)) (s : State)
  : outcome (State * list Effect) :=
  match inputs with
  | [] => Returns (s, [])
  | (props, i) :: rest =>
      match step props i s with
      | Returns (s', effects) =>
          match run rest s' with
          | Returns (s'', effects') => Returns (s'', (effects ++ effects')%list)
          | Throws err => Throws err
          end
      | Throws err => Throws err
      end
  end.
End Hook.

(** ** Notions used in the statements *)

(** [n] is the integer [z]. *)
Definition isInt (n : number) (z : Z) : Prop :=
  match n with
  | Num q => q == inject_Z z
  | _ => False
  end.

(** [TimeClip] on an integer. *)
Definition clip (z : Z) : timeValue :=
  if Z.abs z <=? maxTime then Some z else None.

(** A time value in the range of dates. *)
Definition inRange (t : Z) : Prop := Z.abs t <= maxTime.

(** The length of month [mn] (0..11) of year [ym]. *)
Definition DaysInMonth (ym mn : Z) : Z :=
  let leap := if DaysInYear ym =? 366 then 1 else 0 in
  match mn with
  | 1 => 28 + leap
  | 3 | 5 | 8 | 10 => 30
  | _ => 31
  end.

(** The candidate start a move computes (lines 85 to 104 of the hook). *)
Definition candidateStart (host : Host) (props : Props) (originalStart : Date)
    (start : Pos) (clientX clientY : number) : Date :=
  placeDate host props
    (shiftMinutes host props originalStart (sub clientX (x start)))
    (dateAttr host clientX clientY) (sub clientY (y start)).

(** The preview fields are both null or both set. *)
Definition paired (s : State) : Prop :=
  (previewStart s = None /\ previewEnd s = None) \/
  (exists a b, previewStart s = Some a /\ previewEnd s = Some b).

(** What holds of the cells between two inputs. *)
Definition consistent (s : State) : Prop :=
  isDragging s = draggingRef s /\
  (draggingRef s = true -> startPosRef s <> None) /\
  (draggingRef s = false ->
   startPosRef s = None /\ previewStart s = None /\ previewEnd s = None) /\
  paired s.

Definition isMove (i : Input) : bool :=
  match i with
  | mousemove _ | touchmove _ => true
  | _ => false
  end.

(** The hour and the minute of [d] are those of [original]. *)
Definition sameTimeOfDay (host : Host) (original d : Date) : Prop :=
  getMinutes host d = getMinutes host original /\
  getHours host d = getHours host original.

(** The three listeners of a release. *)
Definition releases : list (Props -> State -> State * list Effect) :=
  [handleMouseUp; handleTouchEnd; handleTouchCancel].

(** The scenario of the specification: an event on 10 June 2024 from
    09:00 to 10:00, pressed at (100, 100). *)
Module Scenario.
(** A host in a fixed-offset zone (UTC+9) without drop zones. *)
Definition seoul : Host :=
  {| LocalTZA := 32400000; Date_parse := fun _ => NaN; document := None |}.

(** The same host with every point inside a cell marked [value]. *)
Definition calendar (value : string) : Host :=
  {| LocalTZA := 32400000;
     Date_parse := fun _ => NaN;
     document :=
       Some (fun _ _ => Some (mkElement None (Some (mkElement (Some value) None)))) |}.

Definition event : EventLike :=
  {| start := OfDate (toDate seoul "2024-06-10" "09:00");
     end_ := OfDate (toDate seoul "2024-06-10" "10:00") |}.

Definition defaults : Props :=
  {| onDragEnd := Some 0%nat; options := Options.empty |}.

Definition locked : Props :=
  {| onDragEnd := Some 0%nat;
     options :=
       {| Options.lockTime := Some true;
          Options.pxPerDay := None;
          Options.pxPerMinute := None |} |}.

Definition at_ (a b : Z) : Pointer := {| clientX := ofZ a; clientY := ofZ b |}.

(** The event bound and pressed at (100, 100). *)
Definition pressed : State :=
  {| draggingRef := true;
     startPosRef := Some {| x := ofZ 100; y := ofZ 100 |};
     originalStartRef := Some (mkDate (Some 1717977600000));
     originalEndRef := Some (mkDate (Some 1717981200000));
     isDragging := true;
     previewStart := None;
     previewEnd := None |}.

(** Then moved to (100, 140): one day down. *)
Definition moved : State :=
  {| draggingRef := true;
     startPosRef := Some {| x := ofZ 100; y := ofZ 100 |};
     originalStartRef := Some (mkDate (Some 1717977600000));
     originalEndRef := Some (mkDate (Some 1717981200000));
     isDragging := true;
     previewStart := Some (mkDate (Some 1718064000000));
     previewEnd := Some (mkDate (Some 1718067600000)) |}.
End Scenario.

(** ** Notions used in the further properties *)

Definition isRebind (i : Input) : bool :=
  match i with
  | rebind _ => true
  | _ => false
  end.

(** A pointer-down or a touch-start. *)
Definition isPress (i : Input) : bool :=
  match i with
  | mousedown _ | touchstart _ => true
  | _ => false
  end.

(** A pointer-up, a touch-end or a touch-cancel. *)
Definition isRelease (i : Input) : bool :=
  match i with
  | mouseup | touchend | touchcancel => true
  | _ => false
  end.

Definition isCall (e : Effect) : bool :=
  match e with
  | Call _ _ _ => true
  | preventDefault => false
  end.

(** The state a run ends in, if it does not throw. *)
Definition stateOf (o : outcome (State * list Effect)) : option State :=
  match o with
  | Returns (s, _) => Some s
  | Throws _ => None
  end.

(** How often the callback was called. *)
Definition calls (effects : list Effect) : nat :=
  List.length (filter isCall effects).

(** How many of the inputs satisfy [p]. *)
Definition count (p : Input -> bool) (inputs : list (Props * Input)) : nat :=
  List.length (filter (fun pi => p (snd pi)) inputs).

Definition active (s : State) : nat := if draggingRef s then 1%nat else 0%nat.

(** ** The effect on the cursor (lines 183 to 194 of the hook) *)

(** One run of the effect on a body whose cursor is [cursor]: the cursor it
    leaves, and [prev], which its cleanup will write back. *)
Definition cursorEffect (isDragging : bool) (cursor : string) : string * string :=
  let prev :=
    match cursor with
    | EmptyString => ""
    | _ => cursor
    end in
  (if isDragging then "grabbing" else prev, prev).

(** A mounted hook on a page: its cells, the cursor of the body, and the
    [prev] held by the cleanup of the effect that ran last. *)
Record Page : Type := {
  hookState : State;
  bodyCursor : string;
  cleanupPrev : string
}.

(** Mounting on a body whose cursor is [cursor]: the effect runs once. *)
Definition mount (cursor : string) : Page :=
  let '(c, prev) := cursorEffect (isDragging initial) cursor in
  {| hookState := initial; bodyCursor := c; cleanupPrev := prev |}.

(** An input on a page: when it changes [isDragging], the cleanup of the
    last run writes its [prev] back and the effect runs again. *)
Definition pageStep (host : Host) (props : Props) (i : Input) (pg : Page)
  : outcome (Page * list Effect) :=
  match step host props i (hookState pg) with
  | Returns (s', effects) =>
      if Bool.eqb (isDragging s') (isDragging (hookState pg)) then
        Returns ({| hookState := s';
                    bodyCursor := bodyCursor pg;
                    cleanupPrev := cleanupPrev pg |}, effects)
      else
        let '(c, prev) := cursorEffect (isDragging s') (cleanupPrev pg) in
        Returns ({| hookState := s'; bodyCursor := c; cleanupPrev := prev |},
                 effects)
  | Throws err => Throws err
  end.

Fixpoint pageRun (host : Host) (inputs : list (Props * Input)) (pg : Page)
  : outcome (Page * list Effect) :=
  match inputs with
  | [] => Returns (pg, [])
  | (props, i) :: rest =>
      match pageStep host props i pg with
      | Returns (pg', effects) =>
          match pageRun host rest pg' with
          | Returns (pg'', effects') => Returns (pg'', (effects ++ effects')%list)
          | Throws err => Throws err
          end
      | Throws err => Throws err
      end
  end.

(** The cursor of the body after the hook is unmounted. *)
Definition unmount (pg : Page) : string := cleanupPrev pg.

(** ** [DraggableCalendarEvent] *)

(** The fields of an event the component reads. *)
Module CalendarEvent.
Record t : Type := {
  date : string;
  startTime : string;
  endTime : string
}.
End CalendarEvent.

(** [eventLike] (lines 38 to 44 of the component). *)
Definition eventLike (host : Host) (event : CalendarEvent.t) : EventLike :=
  {| start := OfDate (toDate host (CalendarEvent.date event)
                        (CalendarEvent.startTime event));
     end_ := OfDate (toDate host (CalendarEvent.date event)
                       (CalendarEvent.endTime event)) |}.

(** What the component hands to the hook beside [eventLike] (lines 46 to
    54): the callback, if any, which passes the event along, and
    [lockTime], which is true when the prop is left out. *)
Definition componentProps (onDragComplete : option DragEndCallback)
    (lockTimeProp : option bool) : Props :=
  {| onDragEnd := onDragComplete;
     options :=
       {| Options.lockTime :=
            Some match lockTimeProp with
                 | Some b => b
                 | None => true
                 end;
          Options.pxPerDay := None;
          Options.pxPerMinute := None |} |}.

(** The first three fields of a date string and the first two of a time
    string are the integers given. *)
Definition parsesTo (sep : ascii) (s : string) (fields : list Z) : Prop :=
  Forall2 (fun n z => isInt n z)
    (firstn (List.length fields) (map Number (split sep s))) fields.

(** A calendar date and a time of day. *)
Definition isDate (Y M D : Z) : Prop :=
  100 <= Y <= 270000 /\ 1 <= M <= 12 /\ 1 <= D <= DaysInMonth Y (M - 1).

Definition isTime (h m : Z) : Prop := 0 <= h <= 23 /\ 0 <= m <= 59.

(** The time value of a local date and time of day. *)
Definition localInstant (host : Host) (Y M D h m : Z) : Z :=
  (DayFromYear Y + DaysBeforeMonth Y (M - 1) + D - 1) * msPerDay
  + (h * msPerHour + m * msPerMinute) - LocalTZA host.

(** ** [RecurringEventDialog]: [formatDateTime] *)

Definition digitChar (d : Z) : ascii := ascii_of_N (Z.to_N (48 + d)).

(** The decimal digits of [n >= 0], the first one first, in front of [acc]. *)
Fixpoint decimal (fuel : nat) (n : Z) (acc : string) : string :=
  match fuel with
  | O => acc
  | S fuel' =>
      let acc' := String (digitChar (n mod 10)) acc in
      if n <? 10 then acc' else decimal fuel' (n / 10) acc'
  end.

Definition integerToString (n : Z) : string :=
  decimal (S (Z.to_nat (Z.log2 n))) n "".

(** The digits of a fraction [0 <= r < 1], [fuel] of them at most. *)
Fixpoint fractionDigits (fuel : nat) (r : Q) : string :=
  match fuel with
  | O => ""
  | S fuel' =>
      if Qeq_bool r 0 then ""
      else
        let d := Qfloor (inject_Z 10 * r) in
        String (digitChar d)
          (fractionDigits fuel' (inject_Z 10 * r - inject_Z d))
  end.

(** [String (n)] and [`${n}`].  Exact on what the getters of a date
    return: [NaN] and the integers below 10^21, written with their decimal
    digits; exact on the infinities too.  Of a value with a fraction the
    integer part and the first digits of the fraction are written, which
    leaves out the exponent forms and the choice of the shortest digits; no
    statement below applies [ToString] there. *)
Definition ToString (n : number) : string :=
  match n with
  | NaN => "NaN"
  | PosInf => "Infinity"
  | NegInf => "-Infinity"
  | Num q =>
      let a := Qabs q in
      let i := Qfloor a in
      (if Qle_bool 0 q then "" else "-")
      ++ integerToString i
      ++ (if Qeq_bool a (inject_Z i) then ""
          else String "." (fractionDigits 17 (a - inject_Z i)))
  end.

(** The first [n] characters of [pad] repeated, [rest] being what is left
    of the copy at hand. *)
Fixpoint fill (n : nat) (pad rest : string) : string :=
  match n with
  | O => ""
  | S n' =>
      match rest with
      | String c r => String c (fill n' pad r)
      | EmptyString =>
          match pad with
          | String c r => String c (fill n' pad r)
          | EmptyString => ""
          end
      end
  end.

(** [s.padStart (maxLength, fillString)] *)
Definition padStart (s : string) (maxLength : nat) (fillString : string)
  : string :=
  let len := String.length s in
  if (maxLength <=? len)%nat then s
  else
    match fillString with
    | EmptyString => s
    | _ => fill (maxLength - len) fillString fillString ++ s
    end.

(** [formatDateTime] (lines 79 to 86 of the dialog). *)
Definition formatDateTime (host : Host) (d : option Date) : string :=
  match d with
  | Some d =>
      ToString (getFullYear host d) ++ "-"
      ++ padStart (ToString (add (getMonth host d) (ofZ 1))) 2 "0" ++ "-"
      ++ padStart (ToString (getDate host d)) 2 "0" ++ " "
      ++ padStart (ToString (getHours host d)) 2 "0" ++ ":"
      ++ padStart (ToString (getMinutes host d)) 2 "0"
  | None => ""
  end.

(** The date and the time of an event as the application writes them. *)
Definition dateString (Y M D : Z) : string :=
  ToString (ofZ Y) ++ "-" ++ padStart (ToString (ofZ M)) 2 "0" ++ "-"
  ++ padStart (ToString (ofZ D)) 2 "0".

Definition timeString (h m : Z) : string :=
  padStart (ToString (ofZ h)) 2 "0" ++ ":" ++ padStart (ToString (ofZ m)) 2 "0".

(** Every character of [s] satisfies [p]. *)
Fixpoint allChars (p : ascii -> bool) (s : string) : bool :=
  match s with
  | EmptyString => true
  | String c r => p c && allChars p r
  end.

Definition isDigitChar (c : ascii) : bool :=
  match digit 10 c with
  | Some _ => true
  | None => false
  end.

(** ** [RecurringEventDialog]: the hook under the dialog *)

(** The event handed to the dialog, as an object that may or may not have
    the keys [start] and [end]. *)
Record DialogEvent : Type := {
  startKey : option DateLike;
  endKey : option DateLike
}.

(** [eventLike] (lines 66 to 71 of the dialog): an object made anew by
    every render when the event has both keys, null otherwise. *)
Definition dialogEventLike (event : option DialogEvent) : option EventLike :=
  match event with
  | Some ev =>
      match startKey ev, endKey ev with
      | Some a, Some b => Some {| start := a; end_ := b |}
      | _, _ => None
      end
  | None => None
  end.

(** The hook is called with the callback and no options (line 73). *)
Definition dialogProps (onDragEnd : option DragEndCallback) : Props :=
  {| onDragEnd := onDragEnd; options := Options.empty |}.

(** The effect on [event] after a render of the dialog: [eventLike] being a
    new object each time, the effect runs after every render; a null
    [eventLike] is the same as before and the effect does not run again. *)
Definition dialogEffect (host : Host) (event : option DialogEvent) (s : State)
  : State :=
  match dialogEventLike event with
  | Some el => bindEvent host (Some el) s
  | None => s
  end.

(** The dialog once mounted: the effect has run on the first render. *)
Definition dialogMount (host : Host) (event : option DialogEvent) : State :=
  bindEvent host (dialogEventLike event) initial.

(** A listener fires in the dialog, then the renders it causes settle. *)
Definition dialogStep (host : Host) (event : option DialogEvent)
    (onDragEnd : option DragEndCallback) (i : Input) (s : State)
  : outcome (State * list Effect) :=
  match step host (dialogProps onDragEnd) i s with
  | Returns (s', effects) => Returns (dialogEffect host event s', effects)
  | Throws err => Throws err
  end.

Fixpoint dialogRun (host : Host) (event : option DialogEvent)
    (onDragEnd : option DragEndCallback) (inputs : list Input) (s : State)
  : outcome (State * list Effect) :=
  match inputs with
  | [] => Returns (s, [])
  | i :: rest =>
      match dialogStep host event onDragEnd i s with
      | Returns (s', effects) =>
          match dialogRun host event onDragEnd rest s' with
          | Returns (s'', effects') => Returns (s'', (effects ++ effects')%list)
          | Throws err => Throws err
          end
      | Throws err => Throws err
      end
  end.

(** Between two inputs of the dialog: the cells are consistent and the
    preview is null. *)
Definition settled (s : State) : Prop :=
  consistent s /\ previewStart s = None /\ previewEnd s = None.

(** The pointer input a touch input stands for: the one at its first
    touch. *)
Definition mouseOf (i : Input) : Input :=
  match i with
  | touchstart e => mousedown (fst (touches e))
  | touchmove e => mousemove (fst (touches e))
  | touchend | touchcancel => mouseup
  | _ => i
  end.

(** ** Dates in a zone with daylight saving

    [LocalTZA (t, isUTC)] of the language specification is the offset of the
    zone at the instant [t] when [isUTC] is true and at the local time [t]
    when it is false; a local time that a clock change skips or repeats is
    read with the offset before the change.  The date methods the hook calls
    and [onMove] are given here once more over such an offset, word for word
    but for [LocalTime] and [UTC].  With the constant offset of a [Host]
    they are the definitions above: see [fixed_onMove] and the lemmas before
    it. *)
Module DaylightSaving.
Definition Zone : Type := Z -> bool -> Z.

(** The zone of a host with a fixed offset. *)
Definition fixed (host : Host) : Zone := fun _ _ => LocalTZA host.

Section DateMethods.
Variable zone : Zone.

(** [LocalTime (t)] is [t + LocalTZA (t, true)]. *)
Definition LocalTime (t : Z) : Z := t + zone t true.

(** [UTC (t)] is [t - LocalTZA (t, false)]; taking an offset from an
    infinity or from NaN leaves it as it is. *)
Definition UTC (t : number) : number :=
  match finite t with
  | Some q => sub t (ofZ (zone (truncate q) false))
  | None => t
  end.

Definition localField (f : Z -> Z) (d : Date) : number :=
  match DateValue d with
  | Some t => ofZ (f (LocalTime t))
  | None => NaN
  end.

Definition getFullYear : Date -> number := localField YearFromTime.
Definition getMonth : Date -> number := localField MonthFromTime.
Definition getDate : Date -> number := localField DateFromTime.
Definition getHours : Date -> number := localField HourFromTime.
Definition getMinutes : Date -> number := localField MinFromTime.

Definition setMinutes (d : Date) (min : number) : Date :=
  match DateValue d with
  | None => d
  | Some t =>
      let t := LocalTime t in
      let date :=
        MakeDate (ofZ (Day t))
          (MakeTime (ofZ (HourFromTime t)) min (ofZ (SecFromTime t))
             (ofZ (msFromTime t))) in
      mkDate (TimeClip (UTC date))
  end.

Definition setDate (d : Date) (date : number) : Date :=
  match DateValue d with
  | None => d
  | Some t =>
      let t := LocalTime t in
      let newDate :=
        MakeDate
          (MakeDay (ofZ (YearFromTime t)) (ofZ (MonthFromTime t)) date)
          (ofZ (TimeWithinDay t)) in
      mkDate (TimeClip (UTC newDate))
  end.

Definition setFullYear (d : Date) (year month date : number) : Date :=
  let t :=
    match DateValue d with
    | None => 0
    | Some t => LocalTime t
    end in
  let newDate :=
    MakeDate (MakeDay year month date) (ofZ (TimeWithinDay t)) in
  mkDate (TimeClip (UTC newDate)).
End DateMethods.

Section Hook.
Variable zone : Zone.
(** The host's document; its [LocalTZA] is not read, [zone] is. *)
Variable host : Host.
Variable props : Props.

(** Lines 85 to 88. *)
Definition shiftMinutes (originalStart : Date) (deltaX : number) : Date :=
  let newStart := mkDate (TimeClip (getTime originalStart)) in
  if negb (lockTime props) then
    setMinutes zone newStart
      (add (getMinutes zone newStart) (minuteOffset props deltaX))
  else newStart.

(** Lines 97 to 104. *)
Definition placeDate (newStart : Date) (attr : option string)
    (deltaY : number) : Date :=
  match attr with
  | Some (String _ _ as value) =>
      let parts := map Number (split "-" value) in
      let year := nth_error parts 0 in
      let month := nth_error parts 1 in
      let day := nth_error parts 2 in
      if negb (Number_isNaN year) && negb (Number_isNaN month)
         && negb (Number_isNaN day)
      then
        setFullYear zone newStart (ToNumber year)
          (sub (ToNumber month) (ofZ 1)) (ToNumber day)
      else newStart
  | _ =>
      setDate zone newStart
        (add (getDate zone newStart) (dayOffset props deltaY))
  end.

(** [onMove] (lines 77 to 111). *)
Definition onMove (s : State) (clientX clientY : number) : outcome State :=
  match draggingRef s, originalStartRef s, originalEndRef s with
  | true, Some originalStart, Some originalEnd =>
      match startPosRef s with
      | None => Throws TypeError
      | Some start =>
          let deltaX := sub clientX (x start) in
          let deltaY := sub clientY (y start) in
          let newStart := shiftMinutes originalStart deltaX in
          let newStart :=
            placeDate newStart (dateAttr host clientX clientY) deltaY in
          let duration :=
            sub (getTime originalEnd) (getTime originalStart) in
          let newEnd :=
            mkDate (TimeClip (add (getTime newStart) duration)) in
          Returns
            {| draggingRef := draggingRef s;
               startPosRef := startPosRef s;
               originalStartRef := originalStartRef s;
               originalEndRef := originalEndRef s;
               isDragging := isDragging s;
               previewStart := Some newStart;
               previewEnd := Some newEnd |}
      end
  | _, _, _ => Returns s
  end.
End Hook.

(** New York with its daylight saving time of 2024: UTC-4 from 10 March,
    07:00 UTC, to 3 November, 06:00 UTC, and UTC-5 otherwise.  On 10 March
    the local times from 02:00 to 03:00 do not exist and are read at UTC-5;
    on 3 November those from 01:00 to 02:00 come twice and are read at
    UTC-4. *)
Definition newYork : Zone := fun t isUTC =>
  if isUTC then
    if (1710054000000 <=? t) && (t <? 1730613600000)
    then -4 * msPerHour else -5 * msPerHour
  else
    if (1710039600000 <=? t) && (t <? 1730599200000)
    then -4 * msPerHour else -5 * msPerHour.

(** A host there, without drop zones. *)
Definition manhattan : Host :=
  {| LocalTZA := -5 * msPerHour;
     Date_parse := fun _ => NaN;
     document := None |}.

(** An event on 9 March 2024 from 02:30 to 03:30 in New York, pressed at
    (100, 100). *)
Definition pressed : State :=
  {| draggingRef := true;
     startPosRef := Some {| x := ofZ 100; y := ofZ 100 |};
     originalStartRef := Some (mkDate (Some 1709969400000));
     originalEndRef := Some (mkDate (Some 1709973000000));
     isDragging := true;
     previewStart := None;
     previewEnd := None |}.
End DaylightSaving.

(** * Proofs *)

(** ** Numbers that are integers *)

Create HintDb ints discriminated.

Lemma isInt_ofZ z : isInt (ofZ z) z.
Proof. simpl. reflexivity. Qed.

Lemma isInt_add a b x y : isInt a x -> isInt b y -> isInt (add a b) (x + y).
Proof.
  destruct a, b; simpl; try tauto.
  intros -> ->. now rewrite inject_Z_plus.
Qed.

Lemma isInt_sub a b x y : isInt a x -> isInt b y -> isInt (sub a b) (x - y).
Proof.
  destruct a, b; simpl; try tauto.
  intros -> ->. unfold Z.sub. now rewrite inject_Z_plus, inject_Z_opp.
Qed.

#[export] Hint Resolve isInt_ofZ isInt_add isInt_sub : ints.

Lemma truncate_int q z : q == inject_Z z -> truncate q = z.
Proof.
  intros H. unfold truncate.
  destruct (Qle_bool 0 q); rewrite H.
  - apply Qfloor_Z.
  - apply Qceiling_Z.
Qed.

Lemma TimeClip_int n z : isInt n z -> TimeClip n = clip z.
Proof.
  destruct n; simpl; try tauto. intros H.
  unfold TimeClip, clip. cbn [finite].
  rewrite (truncate_int _ _ H).
  replace (Qle_bool (Qabs q) (inject_Z maxTime)) with (Z.abs z <=? maxTime); auto.
  apply eq_true_iff_eq. rewrite Qle_bool_iff, Z.leb_le, H.
  rewrite Qabs_Qle_condition, Z.abs_le, <- inject_Z_opp, <- !Zle_Qle. tauto.
Qed.

Lemma TimeClip_None n : finite n = None -> TimeClip n = None.
Proof. unfold TimeClip. now intros ->. Qed.

Lemma MakeDay_int yn mn dn y m dt :
  isInt yn y -> isInt mn m -> isInt dn dt ->
  MakeDay yn mn dn =
  ofZ (DayFromYear (y + m / 12) + DaysBeforeMonth (y + m / 12) (m mod 12)
       + dt - 1).
Proof.
  destruct yn, mn, dn; simpl; try tauto. intros Hy Hm Hd.
  unfold MakeDay. cbn [finite].
  now rewrite (truncate_int _ _ Hy), (truncate_int _ _ Hm), (truncate_int _ _ Hd).
Qed.

Lemma MakeTime_int hn mn sn msn h m s ms :
  isInt hn h -> isInt mn m -> isInt sn s -> isInt msn ms ->
  MakeTime hn mn sn msn =
  ofZ (h * msPerHour + m * msPerMinute + s * msPerSecond + ms).
Proof.
  destruct hn, mn, sn, msn; simpl; try tauto. intros Hh Hm Hs Hms.
  unfold MakeTime. cbn [finite].
  now rewrite (truncate_int _ _ Hh), (truncate_int _ _ Hm),
    (truncate_int _ _ Hs), (truncate_int _ _ Hms).
Qed.

Lemma MakeDate_int dn tn d t :
  isInt dn d -> isInt tn t -> isInt (MakeDate dn tn) (d * msPerDay + t).
Proof.
  destruct dn, tn; simpl; try tauto. intros -> ->.
  now rewrite inject_Z_plus, inject_Z_mult.
Qed.

#[export] Hint Resolve MakeDate_int : ints.

Lemma clip_Some z u : clip z = Some u -> u = z /\ Z.abs z <= maxTime.
Proof.
  unfold clip. destruct (Z.leb_spec (Z.abs z) maxTime); intros [=]. auto.
Qed.

Lemma clip_in_range z : Z.abs z <= maxTime -> clip z = Some z.
Proof. unfold clip. intros H. apply Z.leb_le in H. now rewrite H. Qed.

(** ** The calendar *)

Lemma DayFromYear_succ y : DayFromYear (y + 1) = DayFromYear y + DaysInYear y.
Proof.
  unfold DayFromYear, DaysInYear.
  destruct (Z.eqb_spec (y mod 4) 0), (Z.eqb_spec (y mod 100) 0),
    (Z.eqb_spec (y mod 400) 0); cbn [negb];
    Z.to_euclidean_division_equations; lia.
Qed.

Lemma DayFromYear_mono a b : a <= b -> DayFromYear a <= DayFromYear b.
Proof. unfold DayFromYear. Z.to_euclidean_division_equations; lia. Qed.

Lemma DaysInYear_cases y : DaysInYear y = 365 \/ DaysInYear y = 366.
Proof.
  unfold DaysInYear.
  destruct (y mod 4 =? 0), (y mod 100 =? 0), (y mod 400 =? 0); cbn; auto.
Qed.

Lemma YearFromDay_bounds d :
  DayFromYear (YearFromDay d) <= d < DayFromYear (YearFromDay d + 1).
Proof.
  unfold YearFromDay.
  set (y := 1970 + d * 400 / 146097).
  destruct (Z.ltb_spec d (DayFromYear y)).
  - replace (y - 1 + 1) with y by lia. split; [|lia].
    unfold DayFromYear in *. subst y. Z.to_euclidean_division_equations; lia.
  - destruct (Z.leb_spec (DayFromYear (y + 1)) d).
    + split; [lia|].
      unfold DayFromYear in *. subst y. Z.to_euclidean_division_equations; lia.
    + lia.
Qed.

Lemma YearFromDay_unique d y :
  DayFromYear y <= d < DayFromYear (y + 1) -> YearFromDay d = y.
Proof.
  intros Hy. pose proof (YearFromDay_bounds d) as Hd.
  destruct (Z.lt_trichotomy (YearFromDay d) y) as [Hlt | [Heq | Hgt]]; auto.
  - pose proof (DayFromYear_mono (YearFromDay d + 1) y). lia.
  - pose proof (DayFromYear_mono (y + 1) (YearFromDay d)). lia.
Qed.

(** [YearFromTime t] is the largest [y] with [TimeFromYear y <= t]. *)
Lemma YearFromTime_spec t :
  TimeFromYear (YearFromTime t) <= t /\
  forall y, TimeFromYear y <= t -> y <= YearFromTime t.
Proof.
  unfold TimeFromYear, YearFromTime.
  pose proof (YearFromDay_bounds (Day t)) as [Hlo Hhi].
  unfold Day, msPerDay in *. split.
  - Z.to_euclidean_division_equations; lia.
  - intros y Hy.
    destruct (Z.le_gt_cases y (YearFromDay (t / 86400000))) as [|Hgt]; auto.
    pose proof (DayFromYear_mono (YearFromDay (t / 86400000) + 1) y).
    Z.to_euclidean_division_equations; lia.
Qed.

Lemma Day_compose D w :
  0 <= w < msPerDay ->
  Day (D * msPerDay + w) = D /\ TimeWithinDay (D * msPerDay + w) = w.
Proof.
  unfold Day, TimeWithinDay, msPerDay. intros H.
  Z.to_euclidean_division_equations; lia.
Qed.

Lemma TimeWithinDay_bounds t : 0 <= TimeWithinDay t < msPerDay.
Proof. unfold TimeWithinDay, msPerDay. apply Z.mod_pos_bound. lia. Qed.

Lemma HourFromTime_compose D t :
  HourFromTime (D * msPerDay + TimeWithinDay t) = HourFromTime t.
Proof.
  unfold HourFromTime, TimeWithinDay, msPerDay, msPerHour.
  Z.to_euclidean_division_equations; lia.
Qed.

Lemma MinFromTime_compose D t :
  MinFromTime (D * msPerDay + TimeWithinDay t) = MinFromTime t.
Proof.
  unfold MinFromTime, TimeWithinDay, msPerDay, msPerMinute.
  Z.to_euclidean_division_equations; lia.
Qed.

(** Case analysis on a month number known to lie in 0..11. *)
Ltac month_cases m :=
  let Hc := fresh "Hc" in
  assert (m = 0 \/ m = 1 \/ m = 2 \/ m = 3 \/ m = 4 \/ m = 5 \/ m = 6 \/
          m = 7 \/ m = 8 \/ m = 9 \/ m = 10 \/ m = 11) as Hc by lia;
  repeat (destruct Hc as [-> | Hc]); try subst m.

(** The fields of a time in the month [mn] of year [ym]. *)
Lemma fields_of_day ym mn dt w :
  0 <= mn <= 11 -> 1 <= dt <= DaysInMonth ym mn -> 0 <= w < msPerDay ->
  let t := (DayFromYear ym + DaysBeforeMonth ym mn + dt - 1) * msPerDay + w in
  YearFromTime t = ym /\ MonthFromTime t = mn /\ DateFromTime t = dt.
Proof.
  intros Hmn Hdt Hw t.
  destruct (Day_compose (DayFromYear ym + DaysBeforeMonth ym mn + dt - 1) w Hw)
    as [HD _]. fold t in HD.
  assert (Hy : YearFromTime t = ym).
  { unfold YearFromTime. rewrite HD. apply YearFromDay_unique.
    rewrite DayFromYear_succ.
    revert Hdt. unfold DaysInMonth, DaysBeforeMonth.
    destruct (DaysInYear_cases ym) as [-> | ->]; cbn [Z.eqb Pos.eqb];
      month_cases mn; cbn; lia. }
  assert (Hm : MonthFromTime t = mn /\ DateFromTime t = dt).
  { unfold DateFromTime, MonthFromTime, DayWithinYear, InLeapYear.
    rewrite Hy, HD.
    revert Hdt. unfold DaysInMonth, DaysBeforeMonth.
    destruct (DaysInYear_cases ym) as [-> | ->]; cbn [Z.eqb Pos.eqb];
      month_cases mn; cbn [Z.eqb Pos.eqb];
      intros Hdt;
      repeat match goal with
        | |- context [?a <? ?b] => destruct (Z.ltb_spec a b); try lia
        end; split; lia. }
  tauto.
Qed.

(** A time is its day and its clock fields put together. *)
Lemma clock_fields t :
  Day t * msPerDay + (HourFromTime t * msPerHour + MinFromTime t * msPerMinute
                      + SecFromTime t * msPerSecond + msFromTime t) = t.
Proof.
  unfold Day, HourFromTime, MinFromTime, SecFromTime, msFromTime,
    msPerDay, msPerHour, msPerMinute, msPerSecond.
  Z.to_euclidean_division_equations; lia.
Qed.

Lemma MonthFromTime_range t : 0 <= MonthFromTime t <= 11.
Proof.
  unfold MonthFromTime.
  repeat match goal with
    | |- context [if ?b then _ else _] => destruct b
    end; lia.
Qed.

(** A day number is its year, month and date put together. *)
Lemma calendar_fields t :
  DayFromYear (YearFromTime t)
  + DaysBeforeMonth (YearFromTime t) (MonthFromTime t)
  + DateFromTime t - 1 = Day t.
Proof.
  unfold DateFromTime, MonthFromTime, DaysBeforeMonth, DayWithinYear, InLeapYear.
  destruct (DaysInYear (YearFromTime t) =? 366);
    repeat match goal with
      | |- context [if ?a <? ?b then _ else _] => destruct (a <? b)
      end; lia.
Qed.

(** ** Date methods *)

Lemma MakeDay_cases yn mn dn :
  (exists D, MakeDay yn mn dn = ofZ D) \/ MakeDay yn mn dn = NaN.
Proof.
  unfold MakeDay.
  destruct (finite yn), (finite mn), (finite dn); eauto.
Qed.

Section DateFacts.
Variable host : Host.

Lemma UTC_int n z : isInt n z -> isInt (UTC host n) (z - LocalTZA host).
Proof. unfold UTC. auto with ints. Qed.

(** The time value [MakeDate], [UTC] and [TimeClip] make of a day number
    and a time within the day. *)
Lemma clip_local D w :
  TimeClip (UTC host (MakeDate (ofZ D) (ofZ w))) =
  clip (D * msPerDay + w - LocalTZA host).
Proof. apply TimeClip_int, UTC_int. auto with ints. Qed.

Lemma setDate_Some d n u :
  DateValue (setDate host d n) = Some u ->
  exists t D,
    DateValue d = Some t /\
    u = D * msPerDay + TimeWithinDay (LocalTime host t) - LocalTZA host.
Proof.
  unfold setDate. destruct (DateValue d) as [t|] eqn:Ht.
  - cbn [DateValue].
    destruct (MakeDay_cases (ofZ (YearFromTime (LocalTime host t)))
                (ofZ (MonthFromTime (LocalTime host t))) n) as [[D ->] | ->].
    + rewrite clip_local. intros H. apply clip_Some in H as [-> _]. eauto.
    + discriminate.
  - congruence.
Qed.

Lemma setFullYear_Some d yn mn dn u :
  DateValue (setFullYear host d yn mn dn) = Some u ->
  exists D,
    u = D * msPerDay
        + TimeWithinDay
            match DateValue d with
            | None => 0
            | Some t => LocalTime host t
            end
        - LocalTZA host.
Proof.
  unfold setFullYear. cbn [DateValue].
  destruct (MakeDay_cases yn mn dn) as [[D ->] | ->].
  - rewrite clip_local. intros H. apply clip_Some in H as [-> _]. eauto.
  - discriminate.
Qed.

(** The hour and the minute of a date placed on another day. *)
Lemma time_of_day_kept t u D :
  u = D * msPerDay + TimeWithinDay (LocalTime host t) - LocalTZA host ->
  getHours host (mkDate (Some u)) = getHours host (mkDate (Some t)) /\
  getMinutes host (mkDate (Some u)) = getMinutes host (mkDate (Some t)).
Proof.
  intros ->. unfold getHours, getMinutes, localField. cbn [DateValue].
  replace (LocalTime host
             (D * msPerDay + TimeWithinDay (LocalTime host t) - LocalTZA host))
    with (D * msPerDay + TimeWithinDay (LocalTime host t))
    by (unfold LocalTime; lia).
  now rewrite HourFromTime_compose, MinFromTime_compose.
Qed.

(** [setFullYear] to a calendar date gives a date with these fields. *)
Lemma setFullYear_fields d yn mn dn y m dt :
  Z.abs (LocalTZA host) <= msPerDay ->
  isInt yn y -> isInt mn m -> isInt dn dt ->
  -270000 <= y <= 270000 -> 0 <= m <= 11 -> 1 <= dt <= DaysInMonth y m ->
  let d' := setFullYear host d yn mn dn in
  getFullYear host d' = ofZ y /\
  getMonth host d' = ofZ m /\
  getDate host d' = ofZ dt.
Proof.
  intros Hz Hy Hm Hd Hyr Hmr Hdr d'.
  set (w := TimeWithinDay
              match DateValue d with
              | None => 0
              | Some t => LocalTime host t
              end).
  assert (Hw : 0 <= w < msPerDay) by apply TimeWithinDay_bounds.
  set (D := DayFromYear y + DaysBeforeMonth y m + dt - 1).
  assert (E : d' = mkDate (Some (D * msPerDay + w - LocalTZA host))).
  { unfold d', setFullYear. fold w.
    rewrite (MakeDay_int _ _ _ _ _ _ Hy Hm Hd).
    replace (m / 12) with 0 by (Z.to_euclidean_division_equations; lia).
    replace (m mod 12) with m by (Z.to_euclidean_division_equations; lia).
    rewrite Z.add_0_r. fold D. rewrite clip_local, clip_in_range; auto.
    assert (DayFromYear (-270000) <= DayFromYear y <= DayFromYear 270000)
      by (split; apply DayFromYear_mono; lia).
    assert (0 <= DaysBeforeMonth y m <= 335).
    { unfold DaysBeforeMonth.
      destruct (DaysInYear y =? 366); month_cases m; cbn; lia. }
    assert (DaysInMonth y m <= 31).
    { unfold DaysInMonth.
      destruct (DaysInYear y =? 366); month_cases m; cbn; lia. }
    let lo := eval vm_compute in (DayFromYear (-270000)) in
    change (DayFromYear (-270000)) with lo in *.
    let hi := eval vm_compute in (DayFromYear 270000) in
    change (DayFromYear 270000) with hi in *.
    unfold D, maxTime, msPerDay in *. lia. }
  rewrite E. unfold getFullYear, getMonth, getDate, localField. cbn [DateValue].
  replace (LocalTime host (D * msPerDay + w - LocalTZA host))
    with (D * msPerDay + w) by (unfold LocalTime; lia).
  pose proof (fields_of_day y m dt w Hmr Hdr Hw) as H. cbv zeta in H.
  fold D in H. destruct H as (-> & -> & ->). auto.
Qed.

(** Adding [k] to the minutes, or to the date, of a valid date. *)
Lemma setMinutes_shift t k :
  setMinutes host (mkDate (Some t))
    (add (getMinutes host (mkDate (Some t))) (ofZ k))
  = mkDate (clip (t + k * msPerMinute)).
Proof.
  unfold setMinutes, getMinutes, localField. cbn [DateValue].
  set (tl := LocalTime host t).
  rewrite (MakeTime_int _ _ _ _ (HourFromTime tl) (MinFromTime tl + k)
             (SecFromTime tl) (msFromTime tl)) by auto with ints.
  rewrite clip_local. do 2 f_equal.
  pose proof (clock_fields tl). unfold tl, LocalTime in *. lia.
Qed.

Lemma setDate_shift t k :
  setDate host (mkDate (Some t)) (add (getDate host (mkDate (Some t))) (ofZ k))
  = mkDate (clip (t + k * msPerDay)).
Proof.
  unfold setDate, getDate, localField. cbn [DateValue].
  set (tl := LocalTime host t).
  rewrite (MakeDay_int _ _ _ (YearFromTime tl) (MonthFromTime tl)
             (DateFromTime tl + k)) by auto with ints.
  pose proof (MonthFromTime_range tl) as Hm.
  replace (MonthFromTime tl / 12) with 0
    by (Z.to_euclidean_division_equations; lia).
  replace (MonthFromTime tl mod 12) with (MonthFromTime tl)
    by (Z.to_euclidean_division_equations; lia).
  rewrite Z.add_0_r, clip_local. do 2 f_equal.
  pose proof (calendar_fields tl) as Hc.
  assert (Ht : tl = Day tl * msPerDay + TimeWithinDay tl).
  { unfold Day, TimeWithinDay, msPerDay.
    Z.to_euclidean_division_equations; lia. }
  unfold tl, LocalTime in *. lia.
Qed.
End DateFacts.

Section HookFacts.
Variable host : Host.

Lemma consistent_initial : consistent initial.
Proof. unfold consistent, paired. cbn. intuition congruence. Qed.

Lemma onMove_returns props s cx cy :
  consistent s -> exists s', onMove host props s cx cy = Returns s'.
Proof.
  intros (_ & Ha & _). unfold onMove.
  destruct (draggingRef s); eauto.
  destruct (originalStartRef s), (originalEndRef s); eauto.
  destruct (startPosRef s); eauto. now destruct Ha.
Qed.

Lemma onMove_consistent props s cx cy s' :
  consistent s -> onMove host props s cx cy = Returns s' -> consistent s'.
Proof.
  intros Hs. unfold onMove.
  destruct (draggingRef s) eqn:Hd; [|now intros [= <-]].
  destruct (originalStartRef s); [|now intros [= <-]].
  destruct (originalEndRef s); [|now intros [= <-]].
  destruct (startPosRef s) eqn:Hp; [|discriminate].
  intros [= <-]. destruct Hs as (H1 & H2 & H3 & H4).
  rewrite Hd, Hp in *.
  unfold consistent, paired. cbn.
  repeat split; try congruence; eauto.
Qed.

Lemma step_consistent props i s s' effects :
  consistent s -> step host props i s = Returns (s', effects) -> consistent s'.
Proof.
  intros Hs. destruct i; cbn [step].
  - intros H. inversion H; subst. destruct Hs as (H1 & H2 & H3 & H4).
    unfold consistent, paired, bindEvent. cbn. intuition.
  - unfold handleMouseDown.
    destruct (originalStartRef s); intros H; inversion H; subst; auto.
    destruct Hs as (H1 & H2 & H3 & H4).
    unfold consistent, paired. cbn. intuition congruence.
  - unfold handleTouchStart.
    destruct (originalStartRef s); intros H; inversion H; subst; auto.
    destruct Hs as (H1 & H2 & H3 & H4).
    unfold consistent, paired. cbn. intuition congruence.
  - unfold handleMouseMove. destruct (draggingRef s); cbn [negb].
    + destruct (onMove host props s (clientX e) (clientY e)) eqn:E;
        [|discriminate].
      intros H; inversion H; subst. eapply onMove_consistent; eauto.
    + intros H; inversion H; subst; auto.
  - unfold handleTouchMove. destruct (draggingRef s); cbn [negb].
    + destruct (onMove host props s _ _) eqn:E; [|discriminate].
      intros H; inversion H; subst. eapply onMove_consistent; eauto.
    + intros H; inversion H; subst; auto.
  - unfold handleMouseUp, endDrag.
    destruct (draggingRef s); cbn [negb]; intros H; inversion H; subst; auto.
    unfold consistent, paired. cbn. intuition congruence.
  - unfold handleTouchEnd, endDrag.
    destruct (draggingRef s); cbn [negb]; intros H; inversion H; subst; auto.
    unfold consistent, paired. cbn. intuition congruence.
  - unfold handleTouchCancel, endDrag.
    destruct (draggingRef s); cbn [negb]; intros H; inversion H; subst; auto.
    unfold consistent, paired. cbn. intuition congruence.
Qed.

(** No listener throws on a consistent state. *)
Lemma step_returns props i s :
  consistent s -> exists s' effects, step host props i s = Returns (s', effects).
Proof.
  intros Hs. destruct i; cbn [step];
    try (eexists (fst _), (snd _); rewrite <- surjective_pairing; reflexivity).
  - unfold handleMouseMove. destruct (draggingRef s); cbn [negb]; eauto.
    destruct (onMove_returns props s (clientX e) (clientY e) Hs) as [s' ->].
    eauto.
  - unfold handleTouchMove. destruct (draggingRef s); cbn [negb]; eauto.
    destruct (onMove_returns props s (clientX (fst (touches e)))
                (clientY (fst (touches e))) Hs) as [s' ->].
    eauto.
Qed.

Lemma run_consistent inputs : forall s,
  consistent s ->
  exists s' effects,
    run host inputs s = Returns (s', effects) /\ consistent s'.
Proof.
  induction inputs as [|[props i] rest IH]; intros s Hs; cbn [run].
  - eauto.
  - destruct (step_returns props i s Hs) as (s1 & e1 & E1). rewrite E1.
    destruct (IH s1 (step_consistent _ _ _ _ _ Hs E1)) as (s2 & e2 & E2 & H2).
    rewrite E2. eauto.
Qed.

Lemma reachable_consistent inputs s effects :
  run host inputs initial = Returns (s, effects) -> consistent s.
Proof.
  intros H.
  destruct (run_consistent inputs initial consistent_initial)
    as (s' & e' & E & Hc).
  congruence.
Qed.
End HookFacts.

Lemma ofZ_inj a b : ofZ a = ofZ b -> a = b.
Proof. unfold ofZ, inject_Z. congruence. Qed.

Lemma strictEq_int a b z : isInt a z -> isInt b z -> strictEq a b = true.
Proof.
  destruct a, b; simpl; try tauto. intros -> ->. now apply Qeq_bool_iff.
Qed.

Lemma getTime_valid t : getTime (mkDate (Some t)) = ofZ t.
Proof. reflexivity. Qed.

Section MoveFacts.
Variable host : Host.
Variable props : Props.

(** What a move publishes while a session is active. *)
Lemma onMove_preview s cx cy s' os oe :
  onMove host props s cx cy = Returns s' ->
  draggingRef s = true ->
  originalStartRef s = Some os ->
  originalEndRef s = Some oe ->
  exists start,
    startPosRef s = Some start /\
    let newStart := candidateStart host props os start cx cy in
    previewStart s' = Some newStart /\
    previewEnd s' =
      Some (mkDate (TimeClip (add (getTime newStart)
                                (sub (getTime oe) (getTime os))))) /\
    draggingRef s' = true /\
    startPosRef s' = startPosRef s /\
    originalStartRef s' = Some os /\
    originalEndRef s' = Some oe.
Proof.
  unfold onMove. intros H Hd Hs He. rewrite Hd, Hs, He in H.
  destruct (startPosRef s) as [start|] eqn:Hp; [|discriminate].
  inversion H; subst; clear H. exists start. cbn. auto 10.
Qed.

End MoveFacts.

Section LockedFacts.
Variable host : Host.
Variable props : Props.
Hypothesis locked : lockTime props = true.

Lemma shiftMinutes_locked t deltaX :
  inRange t ->
  shiftMinutes host props (mkDate (Some t)) deltaX = mkDate (Some t).
Proof.
  intros Ht. unfold shiftMinutes. rewrite locked. cbn [negb].
  now rewrite getTime_valid, (TimeClip_int _ _ (isInt_ofZ t)), clip_in_range.
Qed.

Lemma placeDate_time t attr deltaY u :
  DateValue (placeDate host props (mkDate (Some t)) attr deltaY) = Some u ->
  sameTimeOfDay host (mkDate (Some t)) (mkDate (Some u)).
Proof.
  unfold placeDate, sameTimeOfDay.
  destruct attr as [[|c value]|].
  - intros H. apply setDate_Some in H as (t' & D & [= <-] & ->).
    now destruct (time_of_day_kept host t _ D eq_refl).
  - destruct (_ && _).
    + intros H. apply setFullYear_Some in H as (D & ->).
      now destruct (time_of_day_kept host t _ D eq_refl).
    + intros [= ->]. auto.
  - intros H. apply setDate_Some in H as (t' & D & [= <-] & ->).
    now destruct (time_of_day_kept host t _ D eq_refl).
Qed.

Lemma locked_move_time i s s' effects t :
  isMove i = true ->
  step host props i s = Returns (s', effects) ->
  originalStartRef s = Some (mkDate (Some t)) ->
  inRange t ->
  (forall ps u, previewStart s = Some ps -> DateValue ps = Some u ->
                sameTimeOfDay host (mkDate (Some t)) ps) ->
  originalStartRef s' = Some (mkDate (Some t)) /\
  (forall ps u, previewStart s' = Some ps -> DateValue ps = Some u ->
                sameTimeOfDay host (mkDate (Some t)) ps).
Proof.
  intros Hi Hstep Hos Ht Hold.
  assert (Hmove : forall cx cy s1,
             onMove host props s cx cy = Returns s1 ->
             originalStartRef s1 = Some (mkDate (Some t)) /\
             (forall ps u, previewStart s1 = Some ps -> DateValue ps = Some u ->
                           sameTimeOfDay host (mkDate (Some t)) ps)).
  { intros cx cy s1 Hm.
    destruct (draggingRef s) eqn:Hd, (originalEndRef s) as [oe|] eqn:He;
      try (unfold onMove in Hm; rewrite Hd, ?Hos, ?He in Hm;
           inversion Hm; subst; now auto).
    destruct (onMove_preview _ _ _ _ _ _ _ _ Hm Hd Hos He)
      as (start & _ & Hps & _ & _ & _ & Hos' & _).
    split; auto. intros ps u Hps' Hu. cbv zeta in Hps.
    rewrite Hps in Hps'. injection Hps' as <-.
    unfold candidateStart in Hu. rewrite shiftMinutes_locked in Hu by auto.
    destruct (candidateStart host props (mkDate (Some t)) start cx cy)
      as [v] eqn:E.
    unfold candidateStart in E. rewrite shiftMinutes_locked in E by auto.
    rewrite E in Hu. cbn [DateValue] in Hu. subst v.
    apply (placeDate_time t (dateAttr host cx cy) (sub cy (y start)) u).
    now rewrite E. }
  destruct i; try discriminate; cbn [step] in Hstep.
  - unfold handleMouseMove in Hstep.
    destruct (draggingRef s); cbn [negb] in Hstep.
    + destruct (onMove host props s (clientX e) (clientY e)) eqn:E;
        [|discriminate].
      inversion Hstep; subst. eauto.
    + inversion Hstep; subst. auto.
  - unfold handleTouchMove in Hstep.
    destruct (draggingRef s); cbn [negb] in Hstep.
    + destruct (onMove host props s _ _) eqn:E; [|discriminate].
      inversion Hstep; subst. eauto.
    + inversion Hstep; subst. auto.
Qed.
End LockedFacts.



(** ** A zone with a fixed offset among the zones with daylight saving *)

Section FixedZone.
Variable host : Host.

Lemma fixed_UTC t :
  DaylightSaving.UTC (DaylightSaving.fixed host) t = UTC host t.
Proof. destruct t; reflexivity. Qed.

Lemma fixed_localField f d :
  DaylightSaving.localField (DaylightSaving.fixed host) f d
  = localField host f d.
Proof. reflexivity. Qed.

Lemma fixed_setMinutes d min :
  DaylightSaving.setMinutes (DaylightSaving.fixed host) d min
  = setMinutes host d min.
Proof.
  unfold DaylightSaving.setMinutes, setMinutes.
  destruct (DateValue d); [|reflexivity].
  cbv zeta. now rewrite fixed_UTC.
Qed.

Lemma fixed_setDate d date :
  DaylightSaving.setDate (DaylightSaving.fixed host) d date
  = setDate host d date.
Proof.
  unfold DaylightSaving.setDate, setDate.
  destruct (DateValue d); [|reflexivity].
  cbv zeta. now rewrite fixed_UTC.
Qed.

Lemma fixed_setFullYear d year month date :
  DaylightSaving.setFullYear (DaylightSaving.fixed host) d year month date
  = setFullYear host d year month date.
Proof.
  unfold DaylightSaving.setFullYear, setFullYear.
  cbv zeta. now rewrite fixed_UTC.
Qed.

Lemma fixed_shiftMinutes props originalStart deltaX :
  DaylightSaving.shiftMinutes (DaylightSaving.fixed host) props
    originalStart deltaX
  = shiftMinutes host props originalStart deltaX.
Proof.
  unfold DaylightSaving.shiftMinutes, shiftMinutes.
  cbv zeta. now rewrite fixed_setMinutes.
Qed.

Lemma fixed_placeDate props newStart attr deltaY :
  DaylightSaving.placeDate (DaylightSaving.fixed host) props
    newStart attr deltaY
  = placeDate host props newStart attr deltaY.
Proof.
  unfold DaylightSaving.placeDate, placeDate.
  destruct attr as [[|c r]|]; cbv zeta;
    now rewrite ?fixed_setFullYear, ?fixed_setDate.
Qed.

(** In a zone with a fixed offset, [onMove] over the offset of the instant
    is [onMove] over the offset of the host. *)
Lemma fixed_onMove props s clientX clientY :
  DaylightSaving.onMove (DaylightSaving.fixed host) host props s
    clientX clientY
  = onMove host props s clientX clientY.
Proof.
  unfold DaylightSaving.onMove, onMove.
  destruct (draggingRef s), (originalStartRef s), (originalEndRef s),
    (startPosRef s); try reflexivity.
  cbv zeta. now rewrite fixed_shiftMinutes, fixed_placeDate.
Qed.
End FixedZone.


(** ** The scenarios of the specification *)

Example toDate_example :
  toDate Scenario.seoul "2024-06-10" "09:00" = mkDate (Some 1717977600000).
Proof. reflexivity. Qed.

Example scenario_pressed :
  run Scenario.seoul
    [(Scenario.defaults, rebind (Some Scenario.event));
     (Scenario.defaults, mousedown (Scenario.at_ 100 100))] initial
  = Returns (Scenario.pressed, [preventDefault]).
Proof. reflexivity. Qed.

(** Bound, pressed at (100, 100) and moved to (100, 140): one day later. *)
Example scenario_one_day_down :
  run Scenario.seoul
    [(Scenario.defaults, rebind (Some Scenario.event));
     (Scenario.defaults, mousedown (Scenario.at_ 100 100));
     (Scenario.defaults, mousemove (Scenario.at_ 100 140))] initial
  = Returns (Scenario.moved, [preventDefault; preventDefault]) /\
  previewStart Scenario.moved
  = Some (toDate Scenario.seoul "2024-06-11" "09:00") /\
  previewEnd Scenario.moved
  = Some (toDate Scenario.seoul "2024-06-11" "10:00").
Proof. repeat split. Qed.

(** Moved to (130, 100) instead, time not locked: thirty minutes later. *)
Example scenario_half_hour_right :
  exists s',
    onMove Scenario.seoul Scenario.defaults Scenario.pressed (ofZ 130) (ofZ 100)
    = Returns s' /\
    previewStart s' = Some (toDate Scenario.seoul "2024-06-10" "09:30") /\
    previewEnd s' = Some (toDate Scenario.seoul "2024-06-10" "10:30").
Proof. eexists. repeat split. Qed.

Section SnapFacts.
Variable host : Host.
Variable props : Props.

Lemma placeDate_snap newStart value year month day deltaY :
  value <> "" ->
  nth_error (map Number (split "-" value)) 0 = Some year ->
  nth_error (map Number (split "-" value)) 1 = Some month ->
  nth_error (map Number (split "-" value)) 2 = Some day ->
  isNaN year = false -> isNaN month = false -> isNaN day = false ->
  placeDate host props newStart (Some value) deltaY =
  setFullYear host newStart year (sub month (ofZ 1)) day.
Proof.
  intros Hv H0 H1 H2 Hy Hm Hd. unfold placeDate.
  destruct value as [|c r]; [congruence|].
  rewrite H0, H1, H2. cbn [Number_isNaN ToNumber].
  now rewrite Hy, Hm, Hd.
Qed.

Lemma placeDate_fallback newStart attr deltaY :
  truthy attr = false ->
  placeDate host props newStart attr deltaY =
  setDate host newStart (add (getDate host newStart) (dayOffset props deltaY)).
Proof. destruct attr as [[|c r]|]; cbn; congruence. Qed.

(** A marker whose first three fields do not all convert: the candidate
    start is left as the minute step made it. *)
Lemma placeDate_malformed newStart value deltaY :
  value <> "" ->
  let parts := map Number (split "-" value) in
  Number_isNaN (nth_error parts 0) || Number_isNaN (nth_error parts 1)
  || Number_isNaN (nth_error parts 2) = true ->
  placeDate host props newStart (Some value) deltaY = newStart.
Proof.
  intros Hv parts H. unfold placeDate.
  destruct value as [|c r]; [congruence|]. fold parts.
  destruct (Number_isNaN (nth_error parts 0)),
    (Number_isNaN (nth_error parts 1)),
    (Number_isNaN (nth_error parts 2)); cbn in *; congruence.
Qed.

Lemma onMove_active s cx cy os oe start :
  draggingRef s = true ->
  originalStartRef s = Some os ->
  originalEndRef s = Some oe ->
  startPosRef s = Some start ->
  exists s',
    onMove host props s cx cy = Returns s' /\
    previewStart s' = Some (candidateStart host props os start cx cy).
Proof.
  intros Hd Hs He Hp. unfold onMove. rewrite Hd, Hs, He, Hp.
  eexists. split; reflexivity.
Qed.
End SnapFacts.

Section ClosedForm.
Variable host : Host.
Variable props : Props.

Lemma shiftMinutes_shift t mo deltaX :
  inRange t ->
  minuteOffset props deltaX = ofZ mo ->
  shiftMinutes host props (mkDate (Some t)) deltaX
  = mkDate (clip (t + mo * msPerMinute)).
Proof.
  intros Ht Hmo. unfold shiftMinutes.
  rewrite getTime_valid, (TimeClip_int _ _ (isInt_ofZ t)), clip_in_range by exact Ht.
  destruct (lockTime props) eqn:Hl; cbn [negb].
  - unfold minuteOffset in Hmo. rewrite Hl in Hmo.
    apply ofZ_inj in Hmo. subst mo.
    rewrite Z.mul_0_l, Z.add_0_r. now rewrite clip_in_range.
  - rewrite Hmo. apply setMinutes_shift.
Qed.

(** A move with no marker under the pointer shifts both ends by the two
    offsets, as long as the shifted instants stay in the range of dates. *)
Lemma move_shifts_both s cx cy start t0 t1 mo k :
  draggingRef s = true ->
  originalStartRef s = Some (mkDate (Some t0)) ->
  originalEndRef s = Some (mkDate (Some t1)) ->
  startPosRef s = Some start ->
  truthy (dateAttr host cx cy) = false ->
  minuteOffset props (sub cx (x start)) = ofZ mo ->
  dayOffset props (sub cy (y start)) = ofZ k ->
  inRange t0 ->
  inRange (t0 + mo * msPerMinute) ->
  inRange (t0 + mo * msPerMinute + k * msPerDay) ->
  inRange (t1 + mo * msPerMinute + k * msPerDay) ->
  exists s',
    onMove host props s cx cy = Returns s' /\
    previewStart s' = Some (mkDate (Some (t0 + mo * msPerMinute + k * msPerDay))) /\
    previewEnd s' = Some (mkDate (Some (t1 + mo * msPerMinute + k * msPerDay))).
Proof.
  intros Hd Hs He Hp Hf Hmo Hk H0 H1 H2 H3.
  assert (E : candidateStart host props (mkDate (Some t0)) start cx cy
              = mkDate (Some (t0 + mo * msPerMinute + k * msPerDay))).
  { unfold candidateStart.
    rewrite (placeDate_fallback host props _ _ _ Hf).
    rewrite (shiftMinutes_shift t0 mo _ H0 Hmo), clip_in_range by exact H1.
    rewrite Hk, setDate_shift. now rewrite clip_in_range. }
  unfold onMove. rewrite Hd, Hs, He, Hp.
  eexists. split; [reflexivity|]. cbn [previewStart previewEnd].
  fold (candidateStart host props (mkDate (Some t0)) start cx cy).
  rewrite E. split; [reflexivity|]. do 2 f_equal.
  rewrite !getTime_valid.
  assert (Hi : isInt (add (ofZ (t0 + mo * msPerMinute + k * msPerDay))
                        (sub (ofZ t1) (ofZ t0)))
                 (t0 + mo * msPerMinute + k * msPerDay + (t1 - t0)))
    by auto with ints.
  rewrite (TimeClip_int _ _ Hi).
  replace (t0 + mo * msPerMinute + k * msPerDay + (t1 - t0))
    with (t1 + mo * msPerMinute + k * msPerDay) by lia.
  now apply clip_in_range.
Qed.
End ClosedForm.

(** C1. On a move of an active session with no snap target under the
    pointer, the published end is the published start plus the original
    duration in elapsed milliseconds.  Hence
    [previewEnd - previewStart === originalEnd - originalStart] whenever the
    published end is a valid date; and it is one, both ends being the
    original ones shifted by the minute and day offsets, as long as the
    shifted instants stay in the range of dates. *)
Theorem duration_preserved host props s cx cy s' os oe ps pe :
  draggingRef s = true ->
  originalStartRef s = Some os ->
  originalEndRef s = Some oe ->
  truthy (dateAttr host cx cy) = false ->
  onMove host props s cx cy = Returns s' ->
  previewStart s' = Some ps ->
  previewEnd s' = Some pe ->
  pe = mkDate (TimeClip (add (getTime ps) (sub (getTime oe) (getTime os)))) /\
  (DateValue pe <> None ->
   strictEq (sub (getTime pe) (getTime ps)) (sub (getTime oe) (getTime os))
   = true) /\
  (forall start t0 t1 mo k,
      startPosRef s = Some start ->
      os = mkDate (Some t0) ->
      oe = mkDate (Some t1) ->
      minuteOffset props (sub cx (x start)) = ofZ mo ->
      dayOffset props (sub cy (y start)) = ofZ k ->
      inRange t0 ->
      inRange (t0 + mo * msPerMinute) ->
      inRange (t0 + mo * msPerMinute + k * msPerDay) ->
      inRange (t1 + mo * msPerMinute + k * msPerDay) ->
      ps = mkDate (Some (t0 + mo * msPerMinute + k * msPerDay)) /\
      pe = mkDate (Some (t1 + mo * msPerMinute + k * msPerDay))).
Proof.
  intros Hd Hs He Hf Hm Hps Hpe.
  destruct (onMove_preview _ _ _ _ _ _ _ _ Hm Hd Hs He)
    as (start & Hp & Hps' & Hpe' & _).
  cbv zeta in Hps', Hpe'.
  rewrite Hps in Hps'. injection Hps' as Eps. rewrite <- Eps in Hpe'.
  rewrite Hpe in Hpe'. injection Hpe' as Hpe'.
  split; [exact Hpe'|]. split.
  - intros Hv. subst pe. cbn [DateValue] in Hv.
    destruct ps as [[a|]], oe as [[b|]], os as [[t0|]];
      unfold getTime in *; cbn [DateValue] in *;
      try (rewrite TimeClip_None in Hv; [congruence | reflexivity]).
    assert (Hi : isInt (add (ofZ a) (sub (ofZ b) (ofZ t0))) (a + (b - t0)))
      by auto with ints.
    rewrite (TimeClip_int _ _ Hi) in *.
    destruct (clip (a + (b - t0))) as [e|] eqn:Hc; [|congruence].
    apply clip_Some in Hc as [-> _].
    apply strictEq_int with (z := b - t0); auto with ints.
    replace (b - t0) with (a + (b - t0) - a) at 2 by lia. auto with ints.
  - intros start' t0 t1 mo k Hp' -> -> Hmo Hk H0 H1 H2 H3.
    destruct (move_shifts_both host props s cx cy start' t0 t1 mo k
                Hd Hs He Hp' Hf Hmo Hk H0 H1 H2 H3) as (s1 & Hm1 & Hps1 & Hpe1).
    assert (s1 = s') by congruence. subst s1. split; congruence.
Qed.

Lemma duration_preserved_witness :
  strictEq
    (sub (getTime (mkDate (Some 1718069400000)))
       (getTime (mkDate (Some 1718065800000))))
    (sub (getTime (mkDate (Some 1717981200000)))
       (getTime (mkDate (Some 1717977600000))))
  = true /\
  mkDate (Some 1718065800000)
  = mkDate (Some (1717977600000 + 30 * msPerMinute + 1 * msPerDay)) /\
  mkDate (Some 1718069400000)
  = mkDate (Some (1717981200000 + 30 * msPerMinute + 1 * msPerDay)).
Proof.
  destruct (duration_preserved Scenario.seoul Scenario.defaults
              Scenario.pressed (ofZ 130) (ofZ 140)
              {| draggingRef := true;
                 startPosRef := Some {| x := ofZ 100; y := ofZ 100 |};
                 originalStartRef := Some (mkDate (Some 1717977600000));
                 originalEndRef := Some (mkDate (Some 1717981200000));
                 isDragging := true;
                 previewStart := Some (mkDate (Some 1718065800000));
                 previewEnd := Some (mkDate (Some 1718069400000)) |}
              (mkDate (Some 1717977600000)) (mkDate (Some 1717981200000))
              (mkDate (Some 1718065800000)) (mkDate (Some 1718069400000))
              eq_refl eq_refl eq_refl eq_refl eq_refl eq_refl eq_refl)
    as (_ & Heq & Hshift).
  split.
  - apply Heq. discriminate.
  - apply (Hshift {| x := ofZ 100; y := ofZ 100 |} 1717977600000 1717981200000
             30 1);
      try reflexivity; unfold inRange, maxTime, msPerMinute, msPerDay; lia.
Defined.

(** C2. On a move of an active session: when the nearest marker under the
    pointer parses to a date, the candidate start is set to that year, month
    and day by [setFullYear] and the day offset is not used; when there is no
    marker (or an empty one), [dayOffset] days are added by [setDate].  Under
    a marker [2024-03-15] the published start is on 15 March 2024 whatever
    the anchor and the vertical delta. *)
Theorem snap_takes_precedence host props s cx cy os oe start :
  draggingRef s = true ->
  originalStartRef s = Some os ->
  originalEndRef s = Some oe ->
  startPosRef s = Some start ->
  exists s' ps,
    onMove host props s cx cy = Returns s' /\
    previewStart s' = Some ps /\
    let newStart := shiftMinutes host props os (sub cx (x start)) in
    (forall value year month day,
        dateAttr host cx cy = Some value -> value <> "" ->
        nth_error (map Number (split "-" value)) 0 = Some year ->
        nth_error (map Number (split "-" value)) 1 = Some month ->
        nth_error (map Number (split "-" value)) 2 = Some day ->
        isNaN year = false -> isNaN month = false -> isNaN day = false ->
        ps = setFullYear host newStart year (sub month (ofZ 1)) day /\
        forall Y M D,
          isInt year Y -> isInt month M -> isInt day D ->
          Z.abs (LocalTZA host) <= msPerDay ->
          -270000 <= Y <= 270000 -> 1 <= M <= 12 ->
          1 <= D <= DaysInMonth Y (M - 1) ->
          getFullYear host ps = ofZ Y /\
          getMonth host ps = ofZ (M - 1) /\
          getDate host ps = ofZ D) /\
    (truthy (dateAttr host cx cy) = false ->
     ps = setDate host newStart
            (add (getDate host newStart) (dayOffset props (sub cy (y start))))) /\
    (dateAttr host cx cy = Some "2024-03-15" ->
     Z.abs (LocalTZA host) <= msPerDay ->
     getFullYear host ps = ofZ 2024 /\
     getMonth host ps = ofZ (3 - 1) /\
     getDate host ps = ofZ 15).
Proof.
  intros Hd Hs He Hp.
  destruct (onMove_active host props s cx cy os oe start Hd Hs He Hp)
    as (s' & Hm & Hps).
  exists s', (candidateStart host props os start cx cy).
  split; [exact Hm|]. split; [exact Hps|]. cbv zeta.
  assert (Hsnap : forall value year month day,
             dateAttr host cx cy = Some value -> value <> "" ->
             nth_error (map Number (split "-" value)) 0 = Some year ->
             nth_error (map Number (split "-" value)) 1 = Some month ->
             nth_error (map Number (split "-" value)) 2 = Some day ->
             isNaN year = false -> isNaN month = false -> isNaN day = false ->
             candidateStart host props os start cx cy =
             setFullYear host (shiftMinutes host props os (sub cx (x start)))
               year (sub month (ofZ 1)) day).
  { intros value year month day Ha Hv H0 H1 H2 Hy Hmo Hda.
    unfold candidateStart. rewrite Ha. now apply placeDate_snap. }
  assert (Hfields : forall value year month day Y M D,
             dateAttr host cx cy = Some value -> value <> "" ->
             nth_error (map Number (split "-" value)) 0 = Some year ->
             nth_error (map Number (split "-" value)) 1 = Some month ->
             nth_error (map Number (split "-" value)) 2 = Some day ->
             isInt year Y -> isInt month M -> isInt day D ->
             Z.abs (LocalTZA host) <= msPerDay ->
             -270000 <= Y <= 270000 -> 1 <= M <= 12 ->
             1 <= D <= DaysInMonth Y (M - 1) ->
             getFullYear host (candidateStart host props os start cx cy) = ofZ Y /\
             getMonth host (candidateStart host props os start cx cy) = ofZ (M - 1) /\
             getDate host (candidateStart host props os start cx cy) = ofZ D).
  { intros value year month day Y M D Ha Hv H0 H1 H2 Hy Hmo Hda Hz HY HM HD.
    rewrite (Hsnap value year month day Ha Hv H0 H1 H2);
      try (destruct year, month, day; cbn in *; tauto).
    apply setFullYear_fields; auto with ints. lia. }
  split; [|split].
  - intros value year month day Ha Hv H0 H1 H2 Hy Hmo Hda. split.
    + now apply (Hsnap value).
    + intros Y M D. now apply (Hfields value).
  - intros Hf. unfold candidateStart. now apply placeDate_fallback.
  - intros Ha Hz.
    apply (Hfields "2024-03-15" (ofZ 2024) (ofZ 3) (ofZ 15) 2024 3 15);
      auto with ints; try reflexivity; try discriminate; try lia.
    cbn. lia.
Qed.

Lemma snap_takes_precedence_witness :
  (exists s' ps,
      onMove (Scenario.calendar "2024-03-15") Scenario.defaults Scenario.pressed
        (ofZ 130) (ofZ 180) = Returns s' /\
      previewStart s' = Some ps /\
      getFullYear (Scenario.calendar "2024-03-15") ps = ofZ 2024 /\
      getMonth (Scenario.calendar "2024-03-15") ps = ofZ (3 - 1) /\
      getDate (Scenario.calendar "2024-03-15") ps = ofZ 15) /\
  (exists s' ps,
      onMove Scenario.seoul Scenario.defaults Scenario.pressed
        (ofZ 100) (ofZ 140) = Returns s' /\
      previewStart s' = Some ps /\
      ps = mkDate (Some 1718064000000)).
Proof.
  split.
  - destruct (snap_takes_precedence (Scenario.calendar "2024-03-15")
                Scenario.defaults Scenario.pressed (ofZ 130) (ofZ 180)
                _ _ _ eq_refl eq_refl eq_refl eq_refl)
      as (s' & ps & Hm & Hps & _ & _ & Hdate).
    exists s', ps. repeat split; try assumption; apply Hdate;
      try reflexivity; cbn; unfold msPerDay; lia.
  - destruct (snap_takes_precedence Scenario.seoul
                Scenario.defaults Scenario.pressed (ofZ 100) (ofZ 140)
                _ _ _ eq_refl eq_refl eq_refl eq_refl)
      as (s' & ps & Hm & Hps & _ & Hfall & _).
    exists s', ps. repeat split; try assumption.
    rewrite (Hfall eq_refl). reflexivity.
Defined.




Lemma Math_round_Qeq q r : q == r -> Math_round (Num q) = Math_round (Num r).
Proof.
  intros H. cbn [Math_round].
  rewrite (Qfloor_comp (q + (1 # 2)) (r + (1 # 2))); [reflexivity|].
  now rewrite H.
Qed.

Lemma div_nonzero a p : ~ p == 0 -> div (Num a) (Num p) = Num (a / p).
Proof.
  intros Hp. unfold div, Qsign.
  destruct (Z.compare_spec (Qnum p) 0) as [E | _ | _]; auto.
  destruct Hp. unfold Qeq. cbn. lia.
Qed.

(** C7. [dayOffset] is [Math.round (deltaY / pxPerDay)], a tie going up:
    for a finite non-zero [pxPerDay], a vertical delta of [1.5 * pxPerDay]
    gives 2 days, [0.49 * pxPerDay] gives 0 and [-1.5 * pxPerDay] gives -1. *)
Theorem dayOffset_rounding props p :
  pxPerDay props = Num p ->
  ~ p == 0 ->
  (forall deltaY, dayOffset props deltaY = Math_round (div deltaY (Num p))) /\
  dayOffset props (Num ((3 # 2) * p)) = ofZ 2 /\
  dayOffset props (Num ((49 # 100) * p)) = ofZ 0 /\
  dayOffset props (Num (- (3 # 2) * p)) = ofZ (-1).
Proof.
  intros Hpx Hp. unfold dayOffset. rewrite Hpx.
  split; [reflexivity|].
  rewrite !div_nonzero by assumption.
  rewrite (Math_round_Qeq ((3 # 2) * p / p) (3 # 2)) by (apply Qdiv_mult_l; assumption).
  rewrite (Math_round_Qeq ((49 # 100) * p / p) (49 # 100)) by (apply Qdiv_mult_l; assumption).
  rewrite (Math_round_Qeq (- (3 # 2) * p / p) (- (3 # 2))) by (apply Qdiv_mult_l; assumption).
  repeat split; reflexivity.
Qed.

Lemma dayOffset_rounding_witness :
  dayOffset Scenario.defaults (Num ((3 # 2) * 40)) = ofZ 2 /\
  dayOffset Scenario.defaults (Num ((49 # 100) * 40)) = ofZ 0 /\
  dayOffset Scenario.defaults (Num (- (3 # 2) * 40)) = ofZ (-1).
Proof.
  apply (dayOffset_rounding Scenario.defaults 40).
  - reflexivity.
  - discriminate.
Defined.

(** C4. A release (pointer-up, touch-end or touch-cancel) after any history
    calls the supplied callback exactly once, with the preview pair, when
    both preview fields are set; it calls nothing when no session is active,
    when a preview field is null, or when no callback was supplied. *)
Theorem commit_on_release host inputs s effects props release :
  run host inputs initial = Returns (s, effects) ->
  In release releases ->
  (forall newStart newEnd f,
      previewStart s = Some newStart ->
      previewEnd s = Some newEnd ->
      onDragEnd props = Some f ->
      snd (release props s) = [Call f newStart newEnd]) /\
  (draggingRef s = false -> snd (release props s) = []) /\
  (previewStart s = None \/ previewEnd s = None ->
   snd (release props s) = []) /\
  (onDragEnd props = None -> snd (release props s) = []).
Proof.
  intros Hrun Hin.
  assert (E : release = endDrag).
  { destruct Hin as [<- | [<- | [<- | []]]]; reflexivity. }
  subst release.
  destruct (reachable_consistent host inputs s effects Hrun)
    as (_ & _ & Hidle & _).
  unfold endDrag. repeat split.
  - intros newStart newEnd f Hs He Hf.
    destruct (draggingRef s).
    + cbn. now rewrite Hs, He, Hf.
    + destruct (Hidle eq_refl) as (_ & Hn & _). congruence.
  - now intros ->.
  - destruct (draggingRef s); cbn; auto.
    intros [-> | ->]; auto. now destruct (previewStart s).
  - destruct (draggingRef s); cbn; auto.
    intros ->. now destruct (previewStart s), (previewEnd s).
Qed.

Lemma commit_on_release_witness :
  snd (handleMouseUp Scenario.defaults Scenario.moved)
  = [Call 0%nat (mkDate (Some 1718064000000)) (mkDate (Some 1718067600000))] /\
  snd (handleTouchEnd Scenario.defaults initial) = [].
Proof.
  split.
  - refine (proj1 (commit_on_release Scenario.seoul
                     [(Scenario.defaults, rebind (Some Scenario.event));
                      (Scenario.defaults, mousedown (Scenario.at_ 100 100));
                      (Scenario.defaults, mousemove (Scenario.at_ 100 140))]
                     Scenario.moved [preventDefault; preventDefault]
                     Scenario.defaults handleMouseUp eq_refl _)
                  _ _ _ eq_refl eq_refl eq_refl).
    simpl. auto.
  - refine (proj1 (proj2 (commit_on_release Scenario.seoul [] initial []
                            Scenario.defaults handleTouchEnd eq_refl _))
                  eq_refl).
    simpl. auto.
Defined.

(** C5. After any history, touch-cancel does what touch-end does: it calls
    the callback with the preview pair when there is one, and it leaves the
    dragging flags cleared, both preview fields null and the anchor null. *)
Theorem touch_cancel_as_touch_end host inputs s effects props :
  run host inputs initial = Returns (s, effects) ->
  handleTouchCancel props s = handleTouchEnd props s /\
  (forall newStart newEnd f,
      previewStart s = Some newStart ->
      previewEnd s = Some newEnd ->
      onDragEnd props = Some f ->
      snd (handleTouchCancel props s) = [Call f newStart newEnd]) /\
  draggingRef (fst (handleTouchCancel props s)) = false /\
  isDragging (fst (handleTouchCancel props s)) = false /\
  previewStart (fst (handleTouchCancel props s)) = None /\
  previewEnd (fst (handleTouchCancel props s)) = None /\
  startPosRef (fst (handleTouchCancel props s)) = None.
Proof.
  intros Hrun. split; [reflexivity|].
  destruct (reachable_consistent host inputs s effects Hrun)
    as (Hflag & _ & Hidle & _).
  unfold handleTouchCancel, endDrag.
  destruct (draggingRef s) eqn:Hd; cbn.
  - split; auto. intros newStart newEnd f -> -> ->. reflexivity.
  - destruct (Hidle eq_refl) as (Hp & Hs & He).
    split; [intros; congruence|]. rewrite Hflag, Hd. auto.
Qed.

Lemma touch_cancel_as_touch_end_witness :
  handleTouchCancel Scenario.defaults Scenario.moved
  = handleTouchEnd Scenario.defaults Scenario.moved /\
  snd (handleTouchCancel Scenario.defaults Scenario.moved)
  = [Call 0%nat (mkDate (Some 1718064000000)) (mkDate (Some 1718067600000))] /\
  startPosRef (fst (handleTouchCancel Scenario.defaults Scenario.moved)) = None.
Proof.
  destruct (touch_cancel_as_touch_end Scenario.seoul
              [(Scenario.defaults, rebind (Some Scenario.event));
               (Scenario.defaults, mousedown (Scenario.at_ 100 100));
               (Scenario.defaults, mousemove (Scenario.at_ 100 140))]
              Scenario.moved [preventDefault; preventDefault]
              Scenario.defaults eq_refl)
    as (Hsame & Hcall & _ & _ & _ & _ & Hanchor).
  split; [exact Hsame|]. split; [|exact Hanchor].
  exact (Hcall _ _ _ eq_refl eq_refl eq_refl).
Defined.

(** C8, as the code has it.  A release of an active session clears the
    dragging flags, both preview fields and the anchor, and keeps the
    originals: they belong to the bound event and stay until it changes. *)
Theorem release_clears_session props s :
  draggingRef s = true ->
  draggingRef (fst (endDrag props s)) = false /\
  isDragging (fst (endDrag props s)) = false /\
  previewStart (fst (endDrag props s)) = None /\
  previewEnd (fst (endDrag props s)) = None /\
  startPosRef (fst (endDrag props s)) = None /\
  originalStartRef (fst (endDrag props s)) = originalStartRef s /\
  originalEndRef (fst (endDrag props s)) = originalEndRef s.
Proof. intros Hd. unfold endDrag. rewrite Hd. cbn. auto 10. Qed.

Lemma release_clears_session_witness :
  startPosRef (fst (endDrag Scenario.defaults Scenario.moved)) = None /\
  originalStartRef (fst (endDrag Scenario.defaults Scenario.moved))
  = Some (mkDate (Some 1717977600000)).
Proof.
  destruct (release_clears_session Scenario.defaults Scenario.moved eq_refl)
    as (_ & _ & _ & _ & Hanchor & Hstart & _).
  split; [exact Hanchor | exact Hstart].
Defined.

(** C8 as stated fails: after press, move and release the original start
    and end are still set. *)
Lemma release_keeps_originals :
  exists s effects,
    run Scenario.seoul
      [(Scenario.defaults, rebind (Some Scenario.event));
       (Scenario.defaults, mousedown (Scenario.at_ 100 100));
       (Scenario.defaults, mousemove (Scenario.at_ 100 140));
       (Scenario.defaults, mouseup)] initial
    = Returns (s, effects) /\
    draggingRef s = false /\
    originalStartRef s <> None /\
    originalEndRef s <> None.
Proof.
  do 2 eexists. split; [reflexivity|]. cbn. repeat split; discriminate.
Qed.

(** C9, as the code has it.  The hook has one dragging flag and one anchor.
    A pointer-down or touch-start during an active session is not ignored
    when the originals are set: the anchor becomes the new pointer position,
    while the dragging flag, the originals and the preview stay as they
    were.  It is ignored only when no original start is set. *)
Theorem second_press_moves_anchor s :
  draggingRef s = true ->
  (forall os e,
      originalStartRef s = Some os ->
      let s' := fst (handleMouseDown s e) in
      startPosRef s' = Some (getPos e) /\
      draggingRef s' = true /\
      originalStartRef s' = originalStartRef s /\
      originalEndRef s' = originalEndRef s /\
      previewStart s' = previewStart s /\
      previewEnd s' = previewEnd s) /\
  (forall os e,
      originalStartRef s = Some os ->
      let s' := fst (handleTouchStart s e) in
      startPosRef s' = Some (getPos (fst (touches e))) /\
      draggingRef s' = true /\
      originalStartRef s' = originalStartRef s /\
      originalEndRef s' = originalEndRef s /\
      previewStart s' = previewStart s /\
      previewEnd s' = previewEnd s) /\
  (originalStartRef s = None ->
   forall e t, handleMouseDown s e = (s, []) /\ handleTouchStart s t = (s, [])).
Proof.
  intros _. unfold handleMouseDown, handleTouchStart.
  split; [|split].
  - intros os e ->. cbn. auto 10.
  - intros os e ->. cbn. auto 10.
  - intros ->. auto.
Qed.

Lemma second_press_moves_anchor_witness :
  startPosRef (fst (handleMouseDown Scenario.moved (Scenario.at_ 200 200)))
  = Some {| x := ofZ 200; y := ofZ 200 |} /\
  originalStartRef (fst (handleMouseDown Scenario.moved (Scenario.at_ 200 200)))
  = Some (mkDate (Some 1717977600000)).
Proof.
  destruct (proj1 (second_press_moves_anchor Scenario.moved eq_refl)
              (mkDate (Some 1717977600000)) (Scenario.at_ 200 200) eq_refl)
    as (Hanchor & _ & Hstart & _).
  split; [exact Hanchor | exact Hstart].
Defined.

(** C9 as stated fails: a second pointer-down at (200, 200) during the
    session anchored at (100, 100) replaces the anchor. *)
Lemma second_press_not_ignored :
  exists s effects,
    run Scenario.seoul
      [(Scenario.defaults, rebind (Some Scenario.event));
       (Scenario.defaults, mousedown (Scenario.at_ 100 100));
       (Scenario.defaults, mousedown (Scenario.at_ 200 200))] initial
    = Returns (s, effects) /\
    startPosRef Scenario.pressed = Some {| x := ofZ 100; y := ofZ 100 |} /\
    startPosRef s = Some {| x := ofZ 200; y := ofZ 200 |} /\
    startPosRef s <> startPosRef Scenario.pressed.
Proof.
  do 2 eexists. split; [reflexivity|]. cbn. repeat split. discriminate.
Qed.

(** C10. No history of inputs throws, and after it the preview fields are
    both null or both set; each single operation leaves both fields as they
    were, or sets both, or clears both. *)
Theorem preview_paired host inputs :
  (exists s effects,
      run host inputs initial = Returns (s, effects) /\ paired s) /\
  (forall props i s s' effects,
      step host props i s = Returns (s', effects) ->
      (previewStart s' = previewStart s /\ previewEnd s' = previewEnd s) \/
      (previewStart s' = None /\ previewEnd s' = None) \/
      (exists a b, previewStart s' = Some a /\ previewEnd s' = Some b)).
Proof.
  split.
  - destruct (run_consistent host inputs initial consistent_initial)
      as (s & effects & Hrun & _ & _ & _ & Hp).
    eauto.
  - intros props i s s' effects Hstep.
    assert (Hmove : forall cx cy s1,
               onMove host props s cx cy = Returns s1 ->
               (previewStart s1 = previewStart s /\ previewEnd s1 = previewEnd s) \/
               (previewStart s1 = None /\ previewEnd s1 = None) \/
               (exists a b, previewStart s1 = Some a /\ previewEnd s1 = Some b)).
    { intros cx cy s1. unfold onMove.
      destruct (draggingRef s), (originalStartRef s), (originalEndRef s);
        try (intros H; inversion H; subst; now auto).
      destruct (startPosRef s); [|discriminate].
      intros H; inversion H; subst. cbn. eauto 6. }
    destruct i; cbn [step] in Hstep.
    + inversion Hstep; subst. cbn. auto.
    + unfold handleMouseDown in Hstep.
      destruct (originalStartRef s); inversion Hstep; subst; cbn; auto.
    + unfold handleTouchStart in Hstep.
      destruct (originalStartRef s); inversion Hstep; subst; cbn; auto.
    + unfold handleMouseMove in Hstep.
      destruct (draggingRef s); cbn [negb] in Hstep.
      * destruct (onMove host props s _ _) eqn:E; [|discriminate].
        inversion Hstep; subst. eauto.
      * inversion Hstep; subst. auto.
    + unfold handleTouchMove in Hstep.
      destruct (draggingRef s); cbn [negb] in Hstep.
      * destruct (onMove host props s _ _) eqn:E; [|discriminate].
        inversion Hstep; subst. eauto.
      * inversion Hstep; subst. auto.
    + unfold handleMouseUp, endDrag in Hstep.
      destruct (draggingRef s); inversion Hstep; subst; cbn; auto.
    + unfold handleTouchEnd, endDrag in Hstep.
      destruct (draggingRef s); inversion Hstep; subst; cbn; auto.
    + unfold handleTouchCancel, endDrag in Hstep.
      destruct (draggingRef s); inversion Hstep; subst; cbn; auto.
Qed.

Lemma preview_paired_witness :
  (previewStart Scenario.moved = previewStart Scenario.pressed /\
   previewEnd Scenario.moved = previewEnd Scenario.pressed) \/
  (previewStart Scenario.moved = None /\ previewEnd Scenario.moved = None) \/
  (exists a b,
      previewStart Scenario.moved = Some a /\ previewEnd Scenario.moved = Some b).
Proof.
  exact (proj2 (preview_paired Scenario.seoul [])
           Scenario.defaults (mousemove (Scenario.at_ 100 140))
           Scenario.pressed Scenario.moved [preventDefault] eq_refl).
Defined.

(** ** A hook bound to no event *)

Section Unbound.
Variable host : Host.

Lemma unbound_step props i s :
  isRebind i = false ->
  originalStartRef s = None ->
  draggingRef s = false ->
  step host props i s = Returns (s, []).
Proof.
  intros Hi Hs Hd. destruct i; try discriminate; cbn [step].
  - unfold handleMouseDown. now rewrite Hs.
  - unfold handleTouchStart. now rewrite Hs.
  - unfold handleMouseMove. now rewrite Hd.
  - unfold handleTouchMove. now rewrite Hd.
  - unfold handleMouseUp, endDrag. now rewrite Hd.
  - unfold handleTouchEnd, endDrag. now rewrite Hd.
  - unfold handleTouchCancel, endDrag. now rewrite Hd.
Qed.
End Unbound.

(** X1. While no original start is set and no session is active, every
    listener returns at once: any sequence of presses, moves and releases
    leaves every cell as it was and has no effect at all, not even
    [preventDefault]. *)
Theorem unbound_is_inert host inputs s :
  Forall (fun pi => isRebind (snd pi) = false) inputs ->
  originalStartRef s = None ->
  draggingRef s = false ->
  run host inputs s = Returns (s, []).
Proof.
  intros Hall Hs Hd. induction Hall as [|[props i] rest Hi _ IH]; cbn [run].
  - reflexivity.
  - cbn [snd] in Hi. rewrite (unbound_step host props i s Hi Hs Hd), IH.
    reflexivity.
Qed.

Lemma unbound_is_inert_witness :
  run Scenario.seoul
    [(Scenario.defaults, rebind None);
     (Scenario.defaults, mousedown (Scenario.at_ 100 100));
     (Scenario.defaults, mousemove (Scenario.at_ 100 140));
     (Scenario.defaults, touchend)] initial
  = Returns (initial, []).
Proof.
  exact (unbound_is_inert Scenario.seoul
           [(Scenario.defaults, mousedown (Scenario.at_ 100 100));
            (Scenario.defaults, mousemove (Scenario.at_ 100 140));
            (Scenario.defaults, touchend)] initial
           ltac:(repeat constructor) eq_refl eq_refl).
Defined.
(** ** Moves are recomputed from the originals *)

Section Replay.
Variable host : Host.

(** A move reads the dragging flag, the anchor and the originals only, and
    leaves them as they are. *)
Lemma onMove_after_onMove props props' s cx cy cx' cy' :
  match onMove host props s cx cy with
  | Returns s1 => onMove host props' s1 cx' cy' = onMove host props' s cx' cy'
  | Throws _ => onMove host props' s cx' cy' = Throws TypeError
  end.
Proof.
  unfold onMove.
  destruct (draggingRef s) eqn:Hd, (originalStartRef s) eqn:Hs,
    (originalEndRef s) eqn:He;
    try (rewrite ?Hd, ?Hs, ?He; reflexivity).
  destruct (startPosRef s) eqn:Hp; [|reflexivity].
  reflexivity.
Qed.

Lemma move_after_move props props' i i' s :
  isMove i = true -> isMove i' = true ->
  match step host props i s with
  | Returns (s1, _) =>
      stateOf (step host props' i' s1) = stateOf (step host props' i' s)
  | Throws _ => stateOf (step host props' i' s) = None
  end.
Proof.
  intros Hi Hi'.
  assert (Hdrag : forall cx cy s1,
             onMove host props s cx cy = Returns s1 ->
             draggingRef s1 = draggingRef s).
  { intros cx cy s1 H.
    destruct (draggingRef s) eqn:Hd.
    - destruct (originalStartRef s) as [os|] eqn:Hs;
        [|unfold onMove in H; rewrite Hd, Hs in H; inversion H; now subst].
      destruct (originalEndRef s) as [oe|] eqn:He;
        [|unfold onMove in H; rewrite Hd, Hs, He in H; inversion H; now subst].
      now destruct (onMove_preview host props s cx cy s1 os oe H Hd Hs He)
        as (_ & _ & _ & _ & -> & _).
    - unfold onMove in H. rewrite Hd in H. inversion H. now subst. }
  assert (Hgen : forall cx cy cx' cy',
             match
               (if negb (draggingRef s) then Returns (s, [])
                else
                  match onMove host props s cx cy with
                  | Returns s' => Returns (s', [preventDefault])
                  | Throws err => Throws err
                  end)
             with
             | Returns (s1, _) =>
                 stateOf
                   (if negb (draggingRef s1) then Returns (s1, [])
                    else
                      match onMove host props' s1 cx' cy' with
                      | Returns s' => Returns (s', [preventDefault])
                      | Throws err => Throws err
                      end)
                 = stateOf
                     (if negb (draggingRef s) then Returns (s, [])
                      else
                        match onMove host props' s cx' cy' with
                        | Returns s' => Returns (s', [preventDefault])
                        | Throws err => Throws err
                        end)
             | Throws _ =>
                 stateOf
                   (if negb (draggingRef s) then Returns (s, [])
                    else
                      match onMove host props' s cx' cy' with
                      | Returns s' => Returns (s', [preventDefault])
                      | Throws err => Throws err
                      end) = None
             end).
  { intros cx cy cx' cy'.
    pose proof (onMove_after_onMove props props' s cx cy cx' cy') as H.
    pose proof (Hdrag cx cy) as Hd.
    destruct (draggingRef s) eqn:E; cbn [negb].
    - destruct (onMove host props s cx cy) as [s1|] eqn:E1.
      + rewrite (Hd s1 eq_refl). cbn [negb]. now rewrite H.
      + now rewrite H.
    - rewrite E. reflexivity. }
  destruct i; try discriminate; destruct i'; try discriminate;
    cbn [step]; unfold handleMouseMove, handleTouchMove; apply Hgen.
Qed.
End Replay.

(** X2. Moves do not accumulate: after any sequence of moves, one more move
    ends in the state that this move alone would have given (or throws as it
    alone would).  The preview depends on the last pointer position only. *)
Theorem last_move_wins host moves : forall props i s,
  Forall (fun pi => isMove (snd pi) = true) moves ->
  isMove i = true ->
  stateOf (run host (moves ++ [(props, i)]) s)
  = stateOf (run host [(props, i)] s).
Proof.
  intros props i s Hall Hi. revert s.
  induction Hall as [|[props0 i0] rest Hi0 _ IH]; intros s.
  - reflexivity.
  - cbn [app]. cbn [snd] in Hi0.
    change (run host ((props0, i0) :: (rest ++ [(props, i)])%list) s)
      with (match step host props0 i0 s with
            | Returns (s', effects) =>
                match run host (rest ++ [(props, i)])%list s' with
                | Returns (s'', effects') => Returns (s'', (effects ++ effects')%list)
                | Throws err => Throws err
                end
            | Throws err => Throws err
            end).
    pose proof (move_after_move host props0 props i0 i s Hi0 Hi) as H.
    destruct (step host props0 i0 s) as [[s1 e1]|] eqn:E1.
    + specialize (IH s1).
      assert (Hs : forall o : outcome (State * list Effect),
                 stateOf match o with
                         | Returns (s'', effects') =>
                             Returns (s'', (e1 ++ effects')%list)
                         | Throws err => Throws err
                         end = stateOf o)
        by (intros [[? ?]|]; reflexivity).
      rewrite Hs, IH.
      cbn [run]. cbn [run] in H.
      destruct (step host props i s1) as [[? ?]|], (step host props i s) as [[? ?]|];
        cbn in *; congruence.
    + cbn [run]. destruct (step host props i s) as [[? ?]|]; cbn in *; congruence.
Qed.

Lemma last_move_wins_witness :
  stateOf
    (run Scenario.seoul
       [(Scenario.defaults, mousemove (Scenario.at_ 400 20));
        (Scenario.locked, mousemove (Scenario.at_ 7 300));
        (Scenario.defaults, mousemove (Scenario.at_ 100 140))] Scenario.pressed)
  = Some Scenario.moved.
Proof.
  exact (last_move_wins Scenario.seoul
           [(Scenario.defaults, mousemove (Scenario.at_ 400 20));
            (Scenario.locked, mousemove (Scenario.at_ 7 300))]
           Scenario.defaults (mousemove (Scenario.at_ 100 140)) Scenario.pressed
           ltac:(repeat constructor) eq_refl).
Defined.
(** ** Commits and presses *)

Section Counting.
Variable host : Host.

Lemma calls_app e1 e2 : calls (e1 ++ e2)%list = (calls e1 + calls e2)%nat.
Proof. unfold calls. now rewrite filter_app, List.length_app. Qed.

Lemma step_calls props i s s' effects :
  step host props i s = Returns (s', effects) ->
  (calls effects + active s' <= (if isPress i then 1 else 0) + active s)%nat /\
  (calls effects <= (if isRelease i then 1 else 0))%nat.
Proof.
  assert (Hmove : forall cx cy s1,
             onMove host props s cx cy = Returns s1 -> active s1 = active s).
  { intros cx cy s1. unfold onMove, active.
    destruct (draggingRef s) eqn:Hd; [|intros H; inversion H; subst; now rewrite Hd].
    destruct (originalStartRef s), (originalEndRef s);
      try (intros H; inversion H; subst; now rewrite Hd).
    destruct (startPosRef s); [|discriminate].
    intros H; inversion H; subst. reflexivity. }
  destruct i; cbn [step isPress isRelease].
  - intros H; inversion H; subst. unfold active, calls. cbn. lia.
  - unfold handleMouseDown, active, calls.
    destruct (originalStartRef s), (draggingRef s) eqn:Hd;
      intros H; inversion H; subst; cbn; rewrite ?Hd; lia.
  - unfold handleTouchStart, active, calls.
    destruct (originalStartRef s), (draggingRef s) eqn:Hd;
      intros H; inversion H; subst; cbn; rewrite ?Hd; lia.
  - unfold handleMouseMove.
    destruct (draggingRef s) eqn:Hd; cbn [negb].
    + destruct (onMove host props s _ _) as [s1|] eqn:E; [|discriminate].
      intros H; inversion H; subst. rewrite (Hmove _ _ _ E).
      unfold calls. cbn. lia.
    + intros H; inversion H; subst. unfold calls. cbn. lia.
  - unfold handleTouchMove.
    destruct (draggingRef s) eqn:Hd; cbn [negb].
    + destruct (onMove host props s _ _) as [s1|] eqn:E; [|discriminate].
      intros H; inversion H; subst. rewrite (Hmove _ _ _ E).
      unfold calls. cbn. lia.
    + intros H; inversion H; subst. unfold calls. cbn. lia.
  - unfold handleMouseUp, endDrag, active, calls.
    destruct (draggingRef s) eqn:Hd; cbn [negb];
      destruct (previewStart s), (previewEnd s), (onDragEnd props);
      intros H; inversion H; subst; cbn; rewrite ?Hd; lia.
  - unfold handleTouchEnd, endDrag, active, calls.
    destruct (draggingRef s) eqn:Hd; cbn [negb];
      destruct (previewStart s), (previewEnd s), (onDragEnd props);
      intros H; inversion H; subst; cbn; rewrite ?Hd; lia.
  - unfold handleTouchCancel, endDrag, active, calls.
    destruct (draggingRef s) eqn:Hd; cbn [negb];
      destruct (previewStart s), (previewEnd s), (onDragEnd props);
      intros H; inversion H; subst; cbn; rewrite ?Hd; lia.
Qed.

Lemma run_calls inputs : forall s s' effects,
  run host inputs s = Returns (s', effects) ->
  (calls effects + active s' <= count isPress inputs + active s)%nat /\
  (calls effects <= count isRelease inputs)%nat.
Proof.
  induction inputs as [|[props i] rest IH]; intros s s' effects H; cbn [run] in H.
  - inversion H; subst. unfold calls, count. cbn. lia.
  - destruct (step host props i s) as [[s1 e1]|] eqn:E1; [|discriminate].
    destruct (run host rest s1) as [[s2 e2]|] eqn:E2; [|discriminate].
    inversion H; subst.
    destruct (step_calls _ _ _ _ _ E1) as [H1 H1'].
    destruct (IH _ _ _ E2) as [H2 H2'].
    rewrite calls_app. unfold count in *. cbn [filter snd].
    destruct (isPress i), (isRelease i); cbn [List.length]; lia.
Qed.
End Counting.

(** X3. In every history of a hook the callback is called at most once per
    press (pointer-down or touch-start) and at most once per release: a
    release that follows a release, or a touch-end doubled by a pointer-up,
    commits nothing more. *)
Theorem one_commit_per_press host inputs s effects :
  run host inputs initial = Returns (s, effects) ->
  (calls effects <= count isPress inputs)%nat /\
  (calls effects <= count isRelease inputs)%nat.
Proof.
  intros H. destruct (run_calls host inputs initial s effects H) as [H1 H2].
  unfold active in H1. cbn [draggingRef initial] in H1.
  split; [|exact H2]. destruct (draggingRef s); lia.
Qed.

Lemma one_commit_per_press_witness :
  Nat.le
    (calls
       [preventDefault; preventDefault;
        Call 0%nat (mkDate (Some 1718064000000)) (mkDate (Some 1718067600000))])
    1%nat.
Proof.
  exact (proj1 (one_commit_per_press Scenario.seoul
                  [(Scenario.defaults, rebind (Some Scenario.event));
                   (Scenario.defaults, mousedown (Scenario.at_ 100 100));
                   (Scenario.defaults, mousemove (Scenario.at_ 100 140));
                   (Scenario.defaults, touchend);
                   (Scenario.defaults, mouseup)]
                  _ _ eq_refl)).
Defined.

(** X4. A press released without a move in between, on an idle hook after
    any history, commits nothing and leaves every cell as it was. *)
Theorem click_changes_nothing host history s effects0 props props' press release :
  run host history initial = Returns (s, effects0) ->
  draggingRef s = false ->
  isPress press = true ->
  isRelease release = true ->
  exists effects,
    run host [(props, press); (props', release)] s = Returns (s, effects) /\
    calls effects = 0%nat.
Proof.
  intros Hrun Hd Hp Hr.
  destruct (reachable_consistent host history s effects0 Hrun)
    as (Hflag & _ & Hidle & _).
  destruct (Hidle Hd) as (Ha & Hps & Hpe).
  assert (Hpress : exists p,
             step host props press s
             = Returns (match originalStartRef s with
                        | None => (s, [])
                        | Some _ =>
                            ({| draggingRef := true;
                                startPosRef := Some p;
                                originalStartRef := originalStartRef s;
                                originalEndRef := originalEndRef s;
                                isDragging := true;
                                previewStart := previewStart s;
                                previewEnd := previewEnd s |},
                             [preventDefault])
                        end)).
  { destruct press; try discriminate; cbn [step];
      unfold handleMouseDown, handleTouchStart;
      [exists (getPos e) | exists (getPos (fst (touches e)))];
      destruct (originalStartRef s); reflexivity. }
  destruct Hpress as [p Hpress].
  assert (Hrel : forall s1, step host props' release s1 = Returns (endDrag props' s1)).
  { intros s1. destruct release; try discriminate; reflexivity. }
  cbn [run]. rewrite Hpress.
  destruct (originalStartRef s) as [os|] eqn:Hos.
  - rewrite Hrel. unfold endDrag. cbn. rewrite Hps. cbn.
    exists [preventDefault]. split; [|reflexivity].
    do 2 f_equal. destruct s; cbn in *. subst. reflexivity.
  - rewrite Hrel. unfold endDrag. rewrite Hd. cbn.
    exists []. split; reflexivity.
Qed.

Lemma click_changes_nothing_witness :
  exists effects,
    run Scenario.seoul
      [(Scenario.defaults, touchstart {| touches := (Scenario.at_ 5 5, []) |});
       (Scenario.defaults, touchcancel)]
      (bindEvent Scenario.seoul (Some Scenario.event) initial)
    = Returns (bindEvent Scenario.seoul (Some Scenario.event) initial, effects) /\
    calls effects = 0%nat.
Proof.
  exact (click_changes_nothing Scenario.seoul
           [(Scenario.defaults, rebind (Some Scenario.event))]
           _ [] Scenario.defaults Scenario.defaults
           (touchstart {| touches := (Scenario.at_ 5 5, []) |}) touchcancel
           eq_refl eq_refl eq_refl eq_refl).
Defined.
(** ** The default mapping of pixels *)

(** Rounding the quotient of an integer by a positive integer. *)
Lemma round_div_int n z d :
  isInt n z -> 0 < d ->
  Math_round (div n (ofZ d)) = ofZ ((2 * z + d) / (2 * d)).
Proof.
  destruct n as [q| | |]; cbn [isInt]; try tauto. intros H Hd.
  destruct d as [|p|p]; try lia.
  unfold div, ofZ, Qsign. cbn [Qnum inject_Z Z.compare]. cbn [Math_round].
  unfold ofZ. do 2 f_equal.
  assert (E : q / inject_Z (Z.pos p) + (1 # 2) == (2 * z + Z.pos p) # (2 * p)).
  { rewrite H. unfold Qeq, Qdiv, Qmult, Qinv, Qplus, inject_Z.
    cbn [Qnum Qden]. rewrite !Pos2Z.inj_mul. ring. }
  rewrite (Qfloor_comp _ _ E). cbn [Qfloor]. now rewrite Pos2Z.inj_mul.
Qed.

(** X5. In a zone with a fixed offset, with the options left out (40px a
    day, 1px a minute, time not locked), whole-pixel positions and no marker
    under the pointer, a move publishes the originals shifted by the
    horizontal delta in minutes and by the vertical delta in days, rounded to
    the nearest multiple of 40px with a tie going down the screen, as long as
    the shifted instants are in the range of dates.  (Across a clock change
    a day is not 24 hours and the shift differs by the change.) *)
Theorem default_mapping host props s ax ay cx cy t0 t1 :
  options props = Options.empty ->
  draggingRef s = true ->
  originalStartRef s = Some (mkDate (Some t0)) ->
  originalEndRef s = Some (mkDate (Some t1)) ->
  startPosRef s = Some {| x := ofZ ax; y := ofZ ay |} ->
  truthy (dateAttr host (ofZ cx) (ofZ cy)) = false ->
  inRange t0 ->
  inRange (t0 + (cx - ax) * msPerMinute) ->
  inRange (t0 + (cx - ax) * msPerMinute + ((cy - ay + 20) / 40) * msPerDay) ->
  inRange (t1 + (cx - ax) * msPerMinute + ((cy - ay + 20) / 40) * msPerDay) ->
  exists s',
    onMove host props s (ofZ cx) (ofZ cy) = Returns s' /\
    previewStart s'
    = Some (mkDate (Some (t0 + (cx - ax) * msPerMinute
                          + ((cy - ay + 20) / 40) * msPerDay))) /\
    previewEnd s'
    = Some (mkDate (Some (t1 + (cx - ax) * msPerMinute
                          + ((cy - ay + 20) / 40) * msPerDay))).
Proof.
  intros Ho Hd Hs He Hp Hf H0 H1 H2 H3.
  apply (move_shifts_both host props s (ofZ cx) (ofZ cy)
           {| x := ofZ ax; y := ofZ ay |} t0 t1); auto.
  - unfold minuteOffset, lockTime, pxPerMinute. rewrite Ho. cbn [Options.lockTime Options.pxPerMinute Options.empty x].
    rewrite (round_div_int _ (cx - ax) 1) by (auto with ints; lia).
    f_equal. Z.to_euclidean_division_equations; lia.
  - unfold dayOffset, pxPerDay. rewrite Ho. cbn [Options.pxPerDay Options.empty y].
    rewrite (round_div_int _ (cy - ay) 40) by (auto with ints; lia).
    f_equal. Z.to_euclidean_division_equations; lia.
Qed.

Lemma default_mapping_witness :
  exists s',
    onMove Scenario.seoul Scenario.defaults Scenario.pressed (ofZ 130) (ofZ 119)
    = Returns s' /\
    previewStart s'
    = Some (mkDate (Some (1717977600000 + (130 - 100) * msPerMinute
                          + ((119 - 100 + 20) / 40) * msPerDay))) /\
    previewEnd s'
    = Some (mkDate (Some (1717981200000 + (130 - 100) * msPerMinute
                          + ((119 - 100 + 20) / 40) * msPerDay))).
Proof.
  apply (default_mapping Scenario.seoul Scenario.defaults Scenario.pressed
           100 100 130 119 1717977600000 1717981200000);
    try reflexivity; unfold inRange, maxTime; cbn; lia.
Defined.
(** ** Locked time: whole days *)

Section WholeDays.
Variable host : Host.
Variable props : Props.

Lemma local_day_split t :
  t = Day (LocalTime host t) * msPerDay
      + TimeWithinDay (LocalTime host t) - LocalTZA host.
Proof.
  unfold Day, TimeWithinDay, LocalTime, msPerDay.
  Z.to_euclidean_division_equations; lia.
Qed.

(** A valid date out of the date step differs from the date put in by a
    whole number of days. *)
Lemma placeDate_whole_days t attr deltaY u :
  DateValue (placeDate host props (mkDate (Some t)) attr deltaY) = Some u ->
  exists k, u = t + k * msPerDay.
Proof.
  pose proof (local_day_split t) as Ht.
  unfold placeDate. destruct attr as [[|c value]|].
  - intros H. apply setDate_Some in H as (t' & D & [= <-] & ->).
    exists (D - Day (LocalTime host t)). lia.
  - destruct (_ && _).
    + intros H. apply setFullYear_Some in H as (D & ->). cbn [DateValue].
      exists (D - Day (LocalTime host t)). lia.
    + intros [= ->]. exists 0. lia.
  - intros H. apply setDate_Some in H as (t' & D & [= <-] & ->).
    exists (D - Day (LocalTime host t)). lia.
Qed.
End WholeDays.

Lemma locked_shift host props s cx cy s' t0 t1 ps pe u v :
  lockTime props = true ->
  draggingRef s = true ->
  originalStartRef s = Some (mkDate (Some t0)) ->
  originalEndRef s = Some (mkDate (Some t1)) ->
  inRange t0 ->
  onMove host props s cx cy = Returns s' ->
  previewStart s' = Some ps ->
  previewEnd s' = Some pe ->
  DateValue ps = Some u ->
  DateValue pe = Some v ->
  exists k, u = t0 + k * msPerDay /\ v = t1 + k * msPerDay.
Proof.
  intros Hl Hd Hs He H0 Hm Hps Hpe Hu Hv.
  destruct (onMove_preview host props s cx cy s' _ _ Hm Hd Hs He)
    as (start & _ & Hps' & Hpe' & _).
  cbv zeta in Hps', Hpe'.
  rewrite Hps in Hps'. injection Hps' as Eps. rewrite <- Eps in Hpe'.
  rewrite Hpe in Hpe'. injection Hpe' as Epe.
  unfold candidateStart in Eps.
  rewrite (shiftMinutes_locked host props Hl t0 _ H0) in Eps.
  assert (Hk : exists k, u = t0 + k * msPerDay).
  { apply (placeDate_whole_days host props t0 (dateAttr host cx cy)
             (sub cy (y start))). now rewrite <- Eps. }
  destruct Hk as [k Hk]. exists k. split; [exact Hk|].
  destruct ps as [tv]. cbn [DateValue] in Hu. subst tv.
  rewrite Epe in Hv. cbn [DateValue] in Hv. rewrite !getTime_valid in Hv.
  change (TimeClip (add (ofZ u) (sub (ofZ t1) (ofZ t0))) = Some v) in Hv.
  assert (Hi : isInt (add (ofZ u) (sub (ofZ t1) (ofZ t0))) (u + (t1 - t0)))
    by auto with ints.
  rewrite (TimeClip_int _ _ Hi) in Hv. apply clip_Some in Hv as [-> _]. lia.
Qed.

(** X6. With [lockTime = true], whatever is under the pointer, a move that
    publishes valid dates publishes the original start and the original end
    both shifted by one and the same whole number of days. *)
Theorem locked_moves_whole_days host props s cx cy s' t0 t1 ps pe u v :
  lockTime props = true ->
  draggingRef s = true ->
  originalStartRef s = Some (mkDate (Some t0)) ->
  originalEndRef s = Some (mkDate (Some t1)) ->
  inRange t0 ->
  onMove host props s cx cy = Returns s' ->
  previewStart s' = Some ps ->
  previewEnd s' = Some pe ->
  DateValue ps = Some u ->
  DateValue pe = Some v ->
  exists k, u = t0 + k * msPerDay /\ v = t1 + k * msPerDay.
Proof.
  intros Hl Hd Hs He H0 Hm Hps Hpe Hu Hv.
  exact (locked_shift host props s cx cy s' t0 t1 ps pe u v
           Hl Hd Hs He H0 Hm Hps Hpe Hu Hv).
Qed.

Lemma locked_moves_whole_days_witness :
  exists k,
    1710460800000 = 1717977600000 + k * msPerDay /\
    1710464400000 = 1717981200000 + k * msPerDay.
Proof.
  refine (locked_moves_whole_days (Scenario.calendar "2024-03-15")
            Scenario.locked Scenario.pressed (ofZ 130) (ofZ 180)
            {| draggingRef := true;
               startPosRef := Some {| x := ofZ 100; y := ofZ 100 |};
               originalStartRef := Some (mkDate (Some 1717977600000));
               originalEndRef := Some (mkDate (Some 1717981200000));
               isDragging := true;
               previewStart := Some (mkDate (Some 1710460800000));
               previewEnd := Some (mkDate (Some 1710464400000)) |}
            1717977600000 1717981200000
            (mkDate (Some 1710460800000)) (mkDate (Some 1710464400000))
            1710460800000 1710464400000
            eq_refl eq_refl eq_refl eq_refl _ eq_refl eq_refl eq_refl eq_refl
            eq_refl).
  unfold inRange, maxTime. lia.
Defined.

(** ** Edge cases of the date step *)

Lemma setFullYear_NaN_date host d year month :
  setFullYear host d year month NaN = mkDate None.
Proof.
  unfold setFullYear, MakeDay. cbn [finite].
  now destruct (finite year), (finite month).
Qed.

(** X7. A marker value with fewer than three fields, none of them NaN,
    passes the guard, [Number.isNaN (undefined)] being false, and
    [setFullYear] is called with an undefined day: the move publishes two
    invalid dates. *)
Theorem short_marker_gives_invalid_dates host props s cx cy os oe start value :
  draggingRef s = true ->
  originalStartRef s = Some os ->
  originalEndRef s = Some oe ->
  startPosRef s = Some start ->
  dateAttr host cx cy = Some value ->
  value <> "" ->
  Number_isNaN (nth_error (map Number (split "-" value)) 0) = false ->
  Number_isNaN (nth_error (map Number (split "-" value)) 1) = false ->
  nth_error (map Number (split "-" value)) 2 = None ->
  exists s',
    onMove host props s cx cy = Returns s' /\
    previewStart s' = Some (mkDate None) /\
    previewEnd s' = Some (mkDate None).
Proof.
  intros Hd Hs He Hp Ha Hv H0 H1 H2.
  assert (E : candidateStart host props os start cx cy = mkDate None).
  { unfold candidateStart, placeDate. rewrite Ha.
    destruct value as [|c r]; [congruence|].
    rewrite H0, H1, H2. cbn [Number_isNaN negb andb ToNumber].
    apply setFullYear_NaN_date. }
  unfold onMove. rewrite Hd, Hs, He, Hp.
  eexists. split; [reflexivity|]. cbn [previewStart previewEnd].
  fold (candidateStart host props os start cx cy). rewrite E.
  split; reflexivity.
Qed.

Lemma short_marker_gives_invalid_dates_witness :
  exists s',
    onMove (Scenario.calendar "2024-03") Scenario.defaults Scenario.pressed
      (ofZ 100) (ofZ 140) = Returns s' /\
    previewStart s' = Some (mkDate None) /\
    previewEnd s' = Some (mkDate None).
Proof.
  refine (short_marker_gives_invalid_dates (Scenario.calendar "2024-03")
            Scenario.defaults Scenario.pressed (ofZ 100) (ofZ 140)
            _ _ _ "2024-03" eq_refl eq_refl eq_refl eq_refl eq_refl _
            eq_refl eq_refl eq_refl).
  discriminate.
Defined.
(** ** Values that are not finite *)

Lemma add_not_finite_r a b : finite b = None -> finite (add a b) = None.
Proof. destruct a, b; cbn; congruence. Qed.

Lemma sub_not_finite a b :
  finite a = None \/ finite b = None -> finite (sub a b) = None.
Proof. destruct a, b; cbn; intros [H | H]; congruence. Qed.

Lemma setDate_not_finite host d n :
  finite n = None -> setDate host d n = mkDate None.
Proof.
  intros Hn. unfold setDate. destruct d as [[t|]]; cbn [DateValue]; auto.
  unfold MakeDay. rewrite Hn. cbn [finite]. reflexivity.
Qed.

Lemma div_by_zero q p : p == 0 -> finite (Math_round (div (Num q) (Num p))) = None.
Proof.
  intros Hp. unfold div, Qsign.
  assert (E : Qnum p = 0) by (unfold Qeq in Hp; cbn in Hp; lia).
  rewrite E. cbn [Z.compare]. now destruct (Qnum q ?= 0).
Qed.

(** The end published with a duration that is not a number. *)
Lemma TimeClip_add_not_finite a b : finite b = None -> TimeClip (add a b) = None.
Proof. intros H. now apply TimeClip_None, add_not_finite_r. Qed.

(** X8. With [pxPerDay = 0] and no marker under the pointer, every move of
    an active session at a finite height publishes two invalid dates, and a
    release then hands these two invalid dates to the callback: a release
    tests the preview for null only. *)
Theorem zero_pxPerDay_commits_invalid_dates host props s cx cy os oe start p ay :
  pxPerDay props = Num p ->
  p == 0 ->
  draggingRef s = true ->
  originalStartRef s = Some os ->
  originalEndRef s = Some oe ->
  startPosRef s = Some start ->
  y start = Num ay ->
  truthy (dateAttr host cx (Num cy)) = false ->
  exists s',
    onMove host props s cx (Num cy) = Returns s' /\
    previewStart s' = Some (mkDate None) /\
    previewEnd s' = Some (mkDate None) /\
    forall props' f,
      onDragEnd props' = Some f ->
      snd (endDrag props' s') = [Call f (mkDate None) (mkDate None)].
Proof.
  intros Hpx Hp Hd Hs He Hpos Hy Hf.
  assert (E : candidateStart host props os start cx (Num cy) = mkDate None).
  { unfold candidateStart.
    rewrite (placeDate_fallback host props _ _ _ Hf).
    apply setDate_not_finite, add_not_finite_r.
    unfold dayOffset. rewrite Hpx, Hy. now apply div_by_zero. }
  unfold onMove. rewrite Hd, Hs, He, Hpos.
  eexists. split; [reflexivity|]. cbn [previewStart previewEnd].
  fold (candidateStart host props os start cx (Num cy)). rewrite E.
  repeat split.
  intros props' f Hcb. unfold endDrag. cbn. rewrite ?Hd, Hcb. reflexivity.
Qed.

Lemma zero_pxPerDay_commits_invalid_dates_witness :
  exists s',
    onMove Scenario.seoul
      {| onDragEnd := Some 0%nat;
         options := {| Options.lockTime := None;
                       Options.pxPerDay := Some (ofZ 0);
                       Options.pxPerMinute := None |} |}
      Scenario.pressed (ofZ 100) (Num 101) = Returns s' /\
    previewStart s' = Some (mkDate None) /\
    snd (endDrag Scenario.defaults s')
    = [Call 0%nat (mkDate None) (mkDate None)].
Proof.
  destruct (zero_pxPerDay_commits_invalid_dates Scenario.seoul
              {| onDragEnd := Some 0%nat;
                 options := {| Options.lockTime := None;
                               Options.pxPerDay := Some (ofZ 0);
                               Options.pxPerMinute := None |} |}
              Scenario.pressed (ofZ 100) 101 _ _ _ 0 100
              eq_refl eq_refl eq_refl eq_refl eq_refl eq_refl eq_refl eq_refl)
    as (s' & Hm & Hps & _ & Hcall).
  exists s'. split; [exact Hm|]. split; [exact Hps|].
  exact (Hcall Scenario.defaults 0%nat eq_refl).
Defined.

(** X9. An event whose start or end does not convert to a valid date is
    bound all the same, a [Date] object being truthy: a press starts a
    session, and every move publishes an invalid end, and an invalid start
    too when no marker is under the pointer. *)
Theorem invalid_event_is_dragged host props props' props'' ev e e' :
  DateValue (newDate host (start ev)) = None \/
  DateValue (newDate host (end_ ev)) = None ->
  exists s effects,
    run host
      [(props, rebind (Some ev)); (props', mousedown e); (props'', mousemove e')]
      initial
    = Returns (s, effects) /\
    draggingRef s = true /\
    previewEnd s = Some (mkDate None) /\
    (DateValue (newDate host (start ev)) = None ->
     truthy (dateAttr host (clientX e') (clientY e')) = false ->
     previewStart s = Some (mkDate None)).
Proof.
  intros Hinv. cbn [run step]. unfold handleMouseDown, bindEvent.
  cbn [originalStartRef]. unfold handleMouseMove. cbn [draggingRef negb].
  unfold onMove. cbn [draggingRef originalStartRef originalEndRef startPosRef].
  do 2 eexists. split; [reflexivity|]. cbn [draggingRef previewEnd previewStart].
  split; [reflexivity|]. split.
  - do 2 f_equal. apply TimeClip_add_not_finite, sub_not_finite.
    unfold getTime. destruct Hinv as [-> | ->]; auto.
  - intros Hs Hf.
    fold (candidateStart host props'' (newDate host (start ev)) (getPos e)
            (clientX e') (clientY e')).
    unfold candidateStart. rewrite (placeDate_fallback host props'' _ _ _ Hf).
    f_equal.
    assert (Hsm : DateValue (shiftMinutes host props'' (newDate host (start ev))
                               (sub (clientX e') (x (getPos e)))) = None).
    { unfold shiftMinutes, getTime. rewrite Hs. cbn [TimeClip finite].
      destruct (lockTime props''); reflexivity. }
    unfold setDate. rewrite Hsm.
    destruct (shiftMinutes _ _ _ _) as [tv]. cbn [DateValue] in Hsm. now subst.
Qed.

Lemma invalid_event_is_dragged_witness :
  exists s effects,
    run Scenario.seoul
      [(Scenario.defaults,
        rebind (Some {| start := OfString "soon"; end_ := OfNumber (ofZ 0) |}));
       (Scenario.defaults, mousedown (Scenario.at_ 100 100));
       (Scenario.defaults, mousemove (Scenario.at_ 100 140))]
      initial
    = Returns (s, effects) /\
    draggingRef s = true /\
    previewEnd s = Some (mkDate None).
Proof.
  destruct (invalid_event_is_dragged Scenario.seoul Scenario.defaults
              Scenario.defaults Scenario.defaults
              {| start := OfString "soon"; end_ := OfNumber (ofZ 0) |}
              (Scenario.at_ 100 100) (Scenario.at_ 100 140)
              (or_introl eq_refl))
    as (s & effects & Hrun & Hd & Hpe & _).
  exists s, effects. auto.
Defined.

(** X10. Re-binding the event during a session clears the preview and keeps
    the session and its anchor: a release right after it commits nothing,
    and the next move is computed from the new original start and the old
    anchor. *)
Theorem rebind_during_session host props ev s anchor cx cy :
  draggingRef s = true ->
  startPosRef s = Some anchor ->
  draggingRef (bindEvent host (Some ev) s) = true /\
  previewStart (bindEvent host (Some ev) s) = None /\
  previewEnd (bindEvent host (Some ev) s) = None /\
  snd (endDrag props (bindEvent host (Some ev) s)) = [] /\
  exists s',
    onMove host props (bindEvent host (Some ev) s) cx cy = Returns s' /\
    previewStart s'
    = Some (candidateStart host props (newDate host (start ev)) anchor cx cy).
Proof.
  intros Hd Hp. unfold bindEvent, endDrag, onMove. cbn.
  rewrite Hd, Hp. cbn. repeat split; eauto.
Qed.

Lemma rebind_during_session_witness :
  snd (endDrag Scenario.defaults
         (bindEvent Scenario.seoul (Some Scenario.event) Scenario.moved)) = [] /\
  exists s',
    onMove Scenario.seoul Scenario.defaults
      (bindEvent Scenario.seoul (Some Scenario.event) Scenario.moved)
      (ofZ 100) (ofZ 140) = Returns s' /\
    previewStart s'
    = Some (candidateStart Scenario.seoul Scenario.defaults
              (newDate Scenario.seoul (start Scenario.event))
              {| x := ofZ 100; y := ofZ 100 |} (ofZ 100) (ofZ 140)).
Proof.
  destruct (rebind_during_session Scenario.seoul Scenario.defaults
              Scenario.event Scenario.moved _ (ofZ 100) (ofZ 140)
              eq_refl eq_refl)
    as (_ & _ & _ & Hrel & Hmove).
  split; [exact Hrel | exact Hmove].
Defined.
(** ** The cursor of the body *)

Lemma cursorEffect_prev b c : snd (cursorEffect b c) = c.
Proof. unfold cursorEffect. now destruct c. Qed.

Lemma cursorEffect_cursor b c :
  fst (cursorEffect b c) = if b then "grabbing" else c.
Proof. unfold cursorEffect. now destruct b, c. Qed.

Lemma pageStep_cursor host props i pg pg' effects c0 :
  pageStep host props i pg = Returns (pg', effects) ->
  cleanupPrev pg = c0 ->
  bodyCursor pg = (if isDragging (hookState pg) then "grabbing" else c0) ->
  step host props i (hookState pg) = Returns (hookState pg', effects) /\
  cleanupPrev pg' = c0 /\
  bodyCursor pg' = (if isDragging (hookState pg') then "grabbing" else c0).
Proof.
  unfold pageStep. intros H Hp Hc.
  destruct (step host props i (hookState pg)) as [[s' e]|]; [|discriminate].
  destruct (Bool.eqb (isDragging s') (isDragging (hookState pg))) eqn:E.
  - inversion H; subst. cbn. apply Bool.eqb_prop in E. rewrite E. auto.
  - pose proof (cursorEffect_prev (isDragging s') (cleanupPrev pg)) as H1.
    pose proof (cursorEffect_cursor (isDragging s') (cleanupPrev pg)) as H2.
    destruct (cursorEffect (isDragging s') (cleanupPrev pg)) as [c prev].
    inversion H; subst. cbn in *. subst. auto.
Qed.

(** X11. With no other writer of the body's cursor, after any history of a
    hook mounted on a body whose cursor was [c0], the cursor is [grabbing]
    while [isDragging] is set and [c0] otherwise, and unmounting, even in the
    middle of a session, leaves the cursor at [c0]. *)
Theorem cursor_follows_dragging host c0 inputs : forall pg effects,
  pageRun host inputs (mount c0) = Returns (pg, effects) ->
  bodyCursor pg = (if isDragging (hookState pg) then "grabbing" else c0) /\
  unmount pg = c0 /\
  run host inputs initial = Returns (hookState pg, effects).
Proof.
  assert (Hgen : forall pg0 pg effects,
             cleanupPrev pg0 = c0 ->
             bodyCursor pg0
             = (if isDragging (hookState pg0) then "grabbing" else c0) ->
             pageRun host inputs pg0 = Returns (pg, effects) ->
             bodyCursor pg
             = (if isDragging (hookState pg) then "grabbing" else c0) /\
             cleanupPrev pg = c0 /\
             run host inputs (hookState pg0) = Returns (hookState pg, effects)).
  { induction inputs as [|[props i] rest IH]; intros pg0 pg effects Hp Hc H;
      cbn [pageRun] in H.
    - inversion H; subst. auto.
    - destruct (pageStep host props i pg0) as [[pg1 e1]|] eqn:E1; [|discriminate].
      destruct (pageRun host rest pg1) as [[pg2 e2]|] eqn:E2; [|discriminate].
      inversion H; subst.
      destruct (pageStep_cursor _ _ _ _ _ _ _ E1 eq_refl Hc) as (Hs & Hp1 & Hc1).
      destruct (IH pg1 pg e2 Hp1 Hc1 E2) as (Hc2 & Hp2 & Hr).
      cbn [run]. rewrite Hs, Hr. auto. }
  intros pg effects H.
  apply (Hgen (mount c0) pg effects); auto.
  - unfold mount. apply (cursorEffect_prev false c0).
  - unfold mount. apply (cursorEffect_cursor false c0).
Qed.

Lemma cursor_follows_dragging_witness :
  exists pg effects,
    pageRun Scenario.seoul
      [(Scenario.defaults, rebind (Some Scenario.event));
       (Scenario.defaults, mousedown (Scenario.at_ 100 100))] (mount "grab")
    = Returns (pg, effects) /\
    bodyCursor pg = "grabbing" /\
    unmount pg = "grab".
Proof.
  eexists _, _. split; [reflexivity|].
  destruct (cursor_follows_dragging Scenario.seoul "grab"
              [(Scenario.defaults, rebind (Some Scenario.event));
               (Scenario.defaults, mousedown (Scenario.at_ 100 100))]
              _ _ eq_refl) as (Hc & Hu & _).
  split; [exact Hc | exact Hu].
Defined.
(** ** [toDate] *)

Lemma parsesTo_3 sep s a b c :
  parsesTo sep s [a; b; c] ->
  exists na nb nc,
    nth_error (map Number (split sep s)) 0 = Some na /\
    nth_error (map Number (split sep s)) 1 = Some nb /\
    nth_error (map Number (split sep s)) 2 = Some nc /\
    isInt na a /\ isInt nb b /\ isInt nc c.
Proof.
  unfold parsesTo. cbn [List.length].
  destruct (map Number (split sep s)) as [|na [|nb [|nc l]]]; cbn [firstn];
    intros H; inversion H as [|? ? ? ? Ha H1]; subst;
    inversion H1 as [|? ? ? ? Hb H2]; subst;
    inversion H2 as [|? ? ? ? Hc H3]; subst.
  exists na, nb, nc. cbn. auto 10.
Qed.

Lemma parsesTo_2 sep s a b :
  parsesTo sep s [a; b] ->
  exists na nb,
    nth_error (map Number (split sep s)) 0 = Some na /\
    nth_error (map Number (split sep s)) 1 = Some nb /\
    isInt na a /\ isInt nb b.
Proof.
  unfold parsesTo. cbn [List.length].
  destruct (map Number (split sep s)) as [|na [|nb l]]; cbn [firstn];
    intros H; inversion H as [|? ? ? ? Ha H1]; subst;
    inversion H1 as [|? ? ? ? Hb H2]; subst.
  exists na, nb. cbn. auto 10.
Qed.

Section ToDate.
Variable host : Host.
Hypothesis zone : Z.abs (LocalTZA host) <= msPerDay.

Lemma localInstant_inRange Y M D h m :
  isDate Y M D -> isTime h m -> inRange (localInstant host Y M D h m).
Proof.
  intros (HY & HM & HD) (Hh & Hm). unfold inRange, localInstant.
  assert (DayFromYear (-270000) <= DayFromYear Y <= DayFromYear 270000)
    by (split; apply DayFromYear_mono; lia).
  remember (M - 1) as mn eqn:Emn.
  assert (Hmn : 0 <= mn <= 11) by lia.
  assert (0 <= DaysBeforeMonth Y mn <= 335).
  { clear Emn HD. unfold DaysBeforeMonth.
    destruct (DaysInYear Y =? 366); month_cases mn; cbn; lia. }
  assert (DaysInMonth Y mn <= 31).
  { clear Emn HD. unfold DaysInMonth.
    destruct (DaysInYear Y =? 366); month_cases mn; cbn; lia. }
  let lo := eval vm_compute in (DayFromYear (-270000)) in
  change (DayFromYear (-270000)) with lo in *.
  let hi := eval vm_compute in (DayFromYear 270000) in
  change (DayFromYear 270000) with hi in *.
  unfold maxTime, msPerDay, msPerHour, msPerMinute in *. lia.
Qed.

Lemma localInstant_fields Y M D h m :
  isDate Y M D -> isTime h m ->
  let d := mkDate (Some (localInstant host Y M D h m)) in
  getFullYear host d = ofZ Y /\
  getMonth host d = ofZ (M - 1) /\
  getDate host d = ofZ D /\
  getHours host d = ofZ h /\
  getMinutes host d = ofZ m.
Proof.
  intros (HY & HM & HD) (Hh & Hm) d.
  unfold d, getFullYear, getMonth, getDate, getHours, getMinutes, localField.
  cbn [DateValue].
  set (w := h * msPerHour + m * msPerMinute).
  assert (Hw : 0 <= w < msPerDay)
    by (unfold w, msPerDay, msPerHour, msPerMinute; lia).
  replace (LocalTime host (localInstant host Y M D h m))
    with ((DayFromYear Y + DaysBeforeMonth Y (M - 1) + D - 1) * msPerDay + w)
    by (unfold LocalTime, localInstant, w; lia).
  pose proof (fields_of_day Y (M - 1) D w ltac:(lia) HD Hw) as H.
  cbv zeta in H. destruct H as (-> & -> & ->).
  repeat split; f_equal.
  - unfold HourFromTime, w, msPerDay, msPerHour, msPerMinute.
    Z.to_euclidean_division_equations; lia.
  - unfold MinFromTime, w, msPerDay, msPerHour, msPerMinute.
    Z.to_euclidean_division_equations; lia.
Qed.

Lemma newDateFields_int yn mn dn hn min_n Y M D h m :
  isInt yn Y -> isInt mn (M - 1) -> isInt dn D -> isInt hn h -> isInt min_n m ->
  isDate Y M D -> isTime h m ->
  newDateFields host yn mn dn hn min_n (ofZ 0) (ofZ 0)
  = mkDate (Some (localInstant host Y M D h m)).
Proof.
  intros Hy Hmo Hd Hh Hmi Hdate Htime.
  pose proof (localInstant_inRange Y M D h m Hdate Htime) as Hr.
  destruct Hdate as (HY & HM & HD).
  unfold newDateFields.
  destruct yn as [q| | |]; cbn [isInt] in Hy; try tauto.
  cbv zeta. rewrite (truncate_int _ _ Hy).
  destruct (Z.leb_spec Y 99) as [|_]; [lia|]. rewrite Bool.andb_false_r.
  assert (Hy' : isInt (Num q) Y) by exact Hy.
  rewrite (MakeDay_int _ _ _ Y (M - 1) D Hy' Hmo Hd).
  rewrite (MakeTime_int _ _ _ _ h m 0 0 Hh Hmi (isInt_ofZ 0) (isInt_ofZ 0)).
  replace ((M - 1) / 12) with 0 by (Z.to_euclidean_division_equations; lia).
  replace ((M - 1) mod 12) with (M - 1)
    by (Z.to_euclidean_division_equations; lia).
  rewrite Z.add_0_r, clip_local.
  replace ((DayFromYear Y + DaysBeforeMonth Y (M - 1) + D - 1) * msPerDay
           + (h * msPerHour + m * msPerMinute + 0 * msPerSecond + 0)
           - LocalTZA host)
    with (localInstant host Y M D h m) by (unfold localInstant; lia).
  now rewrite clip_in_range.
Qed.

Lemma toDate_instant date time Y M D h m :
  parsesTo "-" date [Y; M; D] -> parsesTo ":" time [h; m] ->
  isDate Y M D -> isTime h m ->
  toDate host date time = mkDate (Some (localInstant host Y M D h m)).
Proof.
  intros Hd Ht Hdate Htime.
  destruct (parsesTo_3 _ _ _ _ _ Hd) as (ny & nm & nd & E0 & E1 & E2 & Iy & Im & Id).
  destruct (parsesTo_2 _ _ _ _ Ht) as (nh & nmi & F0 & F1 & Ih & Imi).
  unfold toDate. rewrite E0, E1, E2, F0, F1. cbn [ToNumber].
  apply newDateFields_int; auto with ints.
Qed.
End ToDate.

(** X12. When the first three '-'-separated fields of [date] convert to a
    calendar date of a year from 100 on and the first two ':'-separated fields
    of [time] to a time of day, [toDate] is the valid date whose local year,
    month, day, hour and minute are these (its seconds being 0), in a zone
    with a fixed offset. *)
Theorem toDate_fields host date time Y M D h m :
  Z.abs (LocalTZA host) <= msPerDay ->
  parsesTo "-" date [Y; M; D] ->
  parsesTo ":" time [h; m] ->
  isDate Y M D ->
  isTime h m ->
  toDate host date time = mkDate (Some (localInstant host Y M D h m)) /\
  getFullYear host (toDate host date time) = ofZ Y /\
  getMonth host (toDate host date time) = ofZ (M - 1) /\
  getDate host (toDate host date time) = ofZ D /\
  getHours host (toDate host date time) = ofZ h /\
  getMinutes host (toDate host date time) = ofZ m.
Proof.
  intros Hz Hd Ht Hdate Htime.
  rewrite (toDate_instant host Hz date time Y M D h m Hd Ht Hdate Htime).
  split; [reflexivity|].
  exact (localInstant_fields host Y M D h m Hdate Htime).
Qed.

Lemma toDate_fields_witness :
  toDate Scenario.seoul "2024-06-10" "09:00" = mkDate (Some 1717977600000) /\
  getHours Scenario.seoul (toDate Scenario.seoul "2024-06-10" "09:00") = ofZ 9.
Proof.
  destruct (toDate_fields Scenario.seoul "2024-06-10" "09:00" 2024 6 10 9 0)
    as (Hi & _ & _ & _ & Hh & _).
  - cbn. unfold msPerDay. lia.
  - repeat constructor.
  - repeat constructor.
  - unfold isDate. cbn. lia.
  - unfold isTime. lia.
  - split; [exact Hi | exact Hh].
Defined.
(** ** The component's event *)

Lemma whole_days_keep_time host t k :
  getHours host (mkDate (Some (t + k * msPerDay)))
  = getHours host (mkDate (Some t)) /\
  getMinutes host (mkDate (Some (t + k * msPerDay)))
  = getMinutes host (mkDate (Some t)).
Proof.
  unfold getHours, getMinutes, localField, LocalTime. cbn [DateValue].
  split; f_equal.
  - unfold HourFromTime, msPerDay, msPerHour.
    Z.to_euclidean_division_equations; lia.
  - unfold MinFromTime, msPerDay, msPerMinute.
    Z.to_euclidean_division_equations; lia.
Qed.

(** X13. In a zone with a fixed offset, for an event whose [date],
    [startTime] and [endTime] convert to a calendar date and two times of
    day, the originals the hook is bound to are apart by the difference of
    the two times of day: the duration a drag preserves is zero or negative
    when [endTime] is not after [startTime]. *)
Theorem eventLike_duration host event Y M D sh sm eh em :
  Z.abs (LocalTZA host) <= msPerDay ->
  parsesTo "-" (CalendarEvent.date event) [Y; M; D] ->
  parsesTo ":" (CalendarEvent.startTime event) [sh; sm] ->
  parsesTo ":" (CalendarEvent.endTime event) [eh; em] ->
  isDate Y M D -> isTime sh sm -> isTime eh em ->
  exists a b,
    originalStartRef (bindEvent host (Some (eventLike host event)) initial)
    = Some (mkDate (Some a)) /\
    originalEndRef (bindEvent host (Some (eventLike host event)) initial)
    = Some (mkDate (Some b)) /\
    b - a = ((eh * 60 + em) - (sh * 60 + sm)) * msPerMinute /\
    (a < b <-> sh * 60 + sm < eh * 60 + em).
Proof.
  intros Hz Hd Hs He Hdate Hst Het.
  exists (localInstant host Y M D sh sm), (localInstant host Y M D eh em).
  unfold bindEvent, eventLike. cbn [originalStartRef originalEndRef start end_ newDate].
  rewrite (toDate_instant host Hz _ _ Y M D sh sm Hd Hs Hdate Hst).
  rewrite (toDate_instant host Hz _ _ Y M D eh em Hd He Hdate Het).
  cbn [DateValue]. repeat split;
    unfold localInstant, msPerHour, msPerMinute in *; lia.
Qed.

Lemma eventLike_duration_witness :
  exists a b,
    originalStartRef
      (bindEvent Scenario.seoul
         (Some (eventLike Scenario.seoul
                  {| CalendarEvent.date := "2024-06-10";
                     CalendarEvent.startTime := "10:00";
                     CalendarEvent.endTime := "09:00" |})) initial)
    = Some (mkDate (Some a)) /\
    originalEndRef
      (bindEvent Scenario.seoul
         (Some (eventLike Scenario.seoul
                  {| CalendarEvent.date := "2024-06-10";
                     CalendarEvent.startTime := "10:00";
                     CalendarEvent.endTime := "09:00" |})) initial)
    = Some (mkDate (Some b)) /\
    b - a = ((9 * 60 + 0) - (10 * 60 + 0)) * msPerMinute.
Proof.
  destruct (eventLike_duration Scenario.seoul
              {| CalendarEvent.date := "2024-06-10";
                 CalendarEvent.startTime := "10:00";
                 CalendarEvent.endTime := "09:00" |} 2024 6 10 10 0 9 0)
    as (a & b & Ha & Hb & Hab & _).
  - cbn. unfold msPerDay. lia.
  - repeat constructor.
  - repeat constructor.
  - repeat constructor.
  - unfold isDate. cbn. lia.
  - unfold isTime. lia.
  - unfold isTime. lia.
  - exists a, b. auto.
Defined.

(** X14. The component locks the time unless told otherwise: in a zone
    with a fixed offset, with its [lockTime] prop left out, whatever the
    pointer does and whatever is under it, a move that publishes valid dates
    publishes a start and an end whose hours and minutes are those of the
    event's [startTime] and [endTime]. *)
Theorem component_keeps_times host event onDragComplete Y M D sh sm eh em
    s cx cy s' ps pe :
  Z.abs (LocalTZA host) <= msPerDay ->
  parsesTo "-" (CalendarEvent.date event) [Y; M; D] ->
  parsesTo ":" (CalendarEvent.startTime event) [sh; sm] ->
  parsesTo ":" (CalendarEvent.endTime event) [eh; em] ->
  isDate Y M D -> isTime sh sm -> isTime eh em ->
  draggingRef s = true ->
  originalStartRef s = Some (newDate host (start (eventLike host event))) ->
  originalEndRef s = Some (newDate host (end_ (eventLike host event))) ->
  onMove host (componentProps onDragComplete None) s cx cy = Returns s' ->
  previewStart s' = Some ps ->
  previewEnd s' = Some pe ->
  DateValue ps <> None ->
  DateValue pe <> None ->
  getHours host ps = ofZ sh /\ getMinutes host ps = ofZ sm /\
  getHours host pe = ofZ eh /\ getMinutes host pe = ofZ em.
Proof.
  intros Hz Hd Hs He Hdate Hst Het Hdrag Hos Hoe Hm Hps Hpe Hvs Hve.
  unfold eventLike in Hos, Hoe. cbn [start end_ newDate] in Hos, Hoe.
  rewrite (toDate_instant host Hz _ _ Y M D sh sm Hd Hs Hdate Hst) in Hos.
  rewrite (toDate_instant host Hz _ _ Y M D eh em Hd He Hdate Het) in Hoe.
  cbn [DateValue] in Hos, Hoe.
  destruct ps as [[u|]]; [|now destruct Hvs].
  destruct pe as [[v|]]; [|now destruct Hve].
  destruct (locked_shift host (componentProps onDragComplete None) s cx cy s'
              _ _ _ _ u v eq_refl Hdrag Hos Hoe
              (localInstant_inRange host Hz Y M D sh sm Hdate Hst)
              Hm Hps Hpe eq_refl eq_refl) as (k & -> & ->).
  destruct (whole_days_keep_time host (localInstant host Y M D sh sm) k) as [-> ->].
  destruct (whole_days_keep_time host (localInstant host Y M D eh em) k) as [-> ->].
  destruct (localInstant_fields host Y M D sh sm Hdate Hst) as (_ & _ & _ & Hh & Hmi).
  destruct (localInstant_fields host Y M D eh em Hdate Het) as (_ & _ & _ & Hh' & Hmi').
  auto.
Qed.

Lemma component_keeps_times_witness :
  getHours (Scenario.calendar "2024-03-15") (mkDate (Some 1710460800000)) = ofZ 9 /\
  getMinutes (Scenario.calendar "2024-03-15") (mkDate (Some 1710460800000)) = ofZ 0 /\
  getHours (Scenario.calendar "2024-03-15") (mkDate (Some 1710464400000)) = ofZ 10 /\
  getMinutes (Scenario.calendar "2024-03-15") (mkDate (Some 1710464400000)) = ofZ 0.
Proof.
  refine (component_keeps_times (Scenario.calendar "2024-03-15")
            {| CalendarEvent.date := "2024-06-10";
               CalendarEvent.startTime := "09:00";
               CalendarEvent.endTime := "10:00" |}
            None 2024 6 10 9 0 10 0
            Scenario.pressed (ofZ 130) (ofZ 180)
            {| draggingRef := true;
               startPosRef := Some {| x := ofZ 100; y := ofZ 100 |};
               originalStartRef := Some (mkDate (Some 1717977600000));
               originalEndRef := Some (mkDate (Some 1717981200000));
               isDragging := true;
               previewStart := Some (mkDate (Some 1710460800000));
               previewEnd := Some (mkDate (Some 1710464400000)) |}
            (mkDate (Some 1710460800000)) (mkDate (Some 1710464400000))
            _ _ _ _ _ _ _ eq_refl eq_refl eq_refl eq_refl eq_refl eq_refl _ _).
  - cbn. unfold msPerDay. lia.
  - repeat constructor.
  - repeat constructor.
  - repeat constructor.
  - unfold isDate. cbn. lia.
  - unfold isTime. lia.
  - unfold isTime. lia.
  - discriminate.
  - discriminate.
Defined.
(** ** Digits *)

Lemma digit_digitChar d : 0 <= d < 10 -> digit 10 (digitChar d) = Some d.
Proof.
  intros H.
  assert (d = 0 \/ d = 1 \/ d = 2 \/ d = 3 \/ d = 4 \/ d = 5 \/ d = 6 \/
          d = 7 \/ d = 8 \/ d = 9) as Hc by lia.
  repeat (destruct Hc as [-> | Hc]); try subst d; reflexivity.
Qed.

Lemma isDigitChar_cases c :
  isDigitChar c = true ->
  In c ["0"; "1"; "2"; "3"; "4"; "5"; "6"; "7"; "8"; "9"]%char.
Proof.
  destruct c as [[] [] [] [] [] [] [] []]; intros H;
    try discriminate H; cbn; auto 11.
Qed.

Lemma allChars_weaken (p q : ascii -> bool) s :
  (forall c, p c = true -> q c = true) ->
  allChars p s = true -> allChars q s = true.
Proof.
  intros Hpq. induction s as [|c r IH]; cbn; auto.
  intros H. apply andb_prop in H as [Hc Hr]. now rewrite (Hpq c Hc), IH.
Qed.

Lemma allChars_app p a b :
  allChars p (a ++ b) = allChars p a && allChars p b.
Proof.
  induction a as [|c r IH]; cbn; auto. now rewrite IH, Bool.andb_assoc.
Qed.

(** A digit is no white space, no sign, no separator and no letter. *)
Lemma digit_not_special c :
  isDigitChar c = true ->
  isWhiteSpace c = false /\
  Ascii.eqb c "-" = false /\ Ascii.eqb c ":" = false /\
  Ascii.eqb c "+" = false /\ Ascii.eqb c "I" = false /\
  (Ascii.eqb c "x" || Ascii.eqb c "X" || Ascii.eqb c "o" || Ascii.eqb c "O"
   || Ascii.eqb c "b" || Ascii.eqb c "B") = false.
Proof.
  intros H. apply isDigitChar_cases in H. cbn [In] in H.
  repeat (destruct H as [<- | H]); try contradiction; repeat split.
Qed.

(** ** [trim] and [split] on strings of digits *)

Lemma reverse_reverse s : forall acc, reverse "" (reverse acc s) = reverse s acc.
Proof.
  induction s as [|c r IH]; intros acc; cbn [reverse]; auto.
Qed.

Lemma allChars_reverse p s : forall acc,
  allChars p acc = true -> allChars p s = true ->
  allChars p (reverse acc s) = true.
Proof.
  induction s as [|c r IH]; intros acc Ha Hs; cbn [reverse]; auto.
  cbn in Hs. apply andb_prop in Hs as [Hc Hr].
  apply IH; auto. cbn. now rewrite Hc, Ha.
Qed.

Lemma trimStart_id s :
  allChars (fun c => negb (isWhiteSpace c)) s = true -> trimStart s = s.
Proof.
  destruct s as [|c r]; cbn; auto. intros H. apply andb_prop in H as [Hc _].
  apply Bool.negb_true_iff in Hc. now rewrite Hc.
Qed.

Lemma trim_id s :
  allChars (fun c => negb (isWhiteSpace c)) s = true -> trim s = s.
Proof.
  intros H. unfold trim. rewrite (trimStart_id s H).
  rewrite trimStart_id by (apply allChars_reverse; auto).
  now rewrite reverse_reverse.
Qed.

Lemma split_last sep a :
  allChars (fun c => negb (Ascii.eqb c sep)) a = true -> split sep a = [a].
Proof.
  induction a as [|c r IH]; cbn; auto. intros H.
  apply andb_prop in H as [Hc Hr]. apply Bool.negb_true_iff in Hc.
  now rewrite Hc, (IH Hr).
Qed.

Lemma split_first sep a b :
  allChars (fun c => negb (Ascii.eqb c sep)) a = true ->
  split sep (a ++ String sep b) = a :: split sep b.
Proof.
  induction a as [|c r IH]; cbn [append split allChars].
  - now rewrite Ascii.eqb_refl.
  - intros H. apply andb_prop in H as [Hc Hr]. apply Bool.negb_true_iff in Hc.
    now rewrite Hc, (IH Hr).
Qed.
(** ** [Number] of the digits of an integer *)

Lemma decimal_allDigits fuel : forall n acc,
  0 <= n ->
  allChars isDigitChar acc = true ->
  allChars isDigitChar (decimal fuel n acc) = true.
Proof.
  induction fuel as [|f IH]; intros n acc Hn Hacc; cbn [decimal]; auto.
  assert (Hd : allChars isDigitChar (String (digitChar (n mod 10)) acc) = true).
  { cbn [allChars]. unfold isDigitChar at 1.
    rewrite digit_digitChar by (apply Z.mod_pos_bound; lia). exact Hacc. }
  destruct (n <? 10); auto.
  apply IH; auto. apply Z.div_pos; lia.
Qed.

Lemma decimal_length fuel : forall n acc,
  (String.length acc <= String.length (decimal fuel n acc))%nat.
Proof.
  induction fuel as [|f IH]; intros n acc; cbn [decimal]; auto.
  destruct (n <? 10).
  - cbn. lia.
  - etransitivity; [|apply IH]. cbn. lia.
Qed.

Lemma decimal_S fuel n acc :
  decimal (S fuel) n acc
  = if n <? 10 then String (digitChar (n mod 10)) acc
    else decimal fuel (n / 10) (String (digitChar (n mod 10)) acc).
Proof. reflexivity. Qed.

(** Reading back the digits written by [decimal]. *)
Lemma digits_decimal fuel : forall n acc a k,
  0 <= n < 10 ^ Z.of_nat (S fuel) ->
  exists L,
    digits 10 (decimal (S fuel) n acc) a k
    = digits 10 acc (a * 10 ^ Z.of_nat (S L) + n) (k + S L)%nat.
Proof.
  induction fuel as [|f IH]; intros n acc a k Hn.
  - exists 0%nat. cbn [decimal]. change (10 ^ Z.of_nat 1) with 10 in *.
    destruct (Z.ltb_spec n 10); [|lia].
    cbn [digits]. rewrite digit_digitChar by (apply Z.mod_pos_bound; lia).
    rewrite Z.mod_small by lia. f_equal; lia.
  - rewrite decimal_S. destruct (Z.ltb_spec n 10) as [Hlt | Hge].
    + exists 0%nat. cbn [digits].
      rewrite digit_digitChar by (apply Z.mod_pos_bound; lia).
      rewrite Z.mod_small by lia. change (10 ^ Z.of_nat 1) with 10.
      f_equal; lia.
    + assert (Hdiv : 0 <= n / 10 < 10 ^ Z.of_nat (S f)).
      { replace (Z.of_nat (S (S f))) with (Z.of_nat (S f) + 1) in Hn by lia.
        rewrite Z.pow_add_r in Hn by lia. change (10 ^ 1) with 10 in Hn.
        split; [apply Z.div_pos; lia|].
        apply Z.div_lt_upper_bound; lia. }
      destruct (IH (n / 10) (String (digitChar (n mod 10)) acc) a k Hdiv)
        as [L HL].
      exists (S L). rewrite HL. cbn [digits].
      rewrite digit_digitChar by (apply Z.mod_pos_bound; lia).
      f_equal.
      * replace (Z.of_nat (S (S L))) with (Z.of_nat (S L) + 1) by lia.
        rewrite Z.pow_add_r by lia. change (10 ^ 1) with 10.
        pose proof (Z.div_mod n 10 ltac:(lia)). lia.
      * lia.
Qed.

Lemma integerToString_fuel n :
  0 <= n -> 0 <= n < 10 ^ Z.of_nat (S (Z.to_nat (Z.log2 n))).
Proof.
  intros Hn. split; [exact Hn|].
  rewrite Nat2Z.inj_succ, Z2Nat.id by apply Z.log2_nonneg.
  destruct (Z.eq_dec n 0) as [-> | Hne]; [reflexivity|].
  pose proof (Z.log2_spec n ltac:(lia)) as [_ H2].
  eapply Z.lt_le_trans; [exact H2|].
  apply Z.pow_le_mono_l. pose proof (Z.log2_nonneg n). lia.
Qed.

Lemma integerToString_digits n :
  0 <= n -> allChars isDigitChar (integerToString n) = true.
Proof. intros Hn. now apply decimal_allDigits. Qed.

Lemma digits_integerToString n a k :
  0 <= n ->
  exists L,
    digits 10 (integerToString n) a k
    = (a * 10 ^ Z.of_nat (S L) + n, (k + S L)%nat, "").
Proof.
  intros Hn.
  destruct (digits_decimal (Z.to_nat (Z.log2 n)) n "" a k
              (integerToString_fuel n Hn)) as [L HL].
  exists L. exact HL.
Qed.

Lemma unsignedDecimal_digits s v k :
  digits 10 s 0 0 = (v, S k, "") ->
  String.eqb s "Infinity" = false ->
  unsignedDecimal s = ofZ v.
Proof. intros Hd He. unfold unsignedDecimal. now rewrite He, Hd. Qed.

(** A string of digits is read as a decimal literal. *)
Lemma Number_digits c r :
  allChars isDigitChar (String c r) = true ->
  Number (String c r) = unsignedDecimal (String c r) /\
  String.eqb (String c r) "Infinity" = false.
Proof.
  intros H.
  assert (Ht : trim (String c r) = String c r).
  { apply trim_id. revert H. apply allChars_weaken.
    intros c0 Hc. now destruct (digit_not_special c0 Hc) as (-> & _). }
  unfold Number. rewrite Ht.
  cbn [allChars] in H. apply andb_prop in H as [Hc Hr].
  pose proof (isDigitChar_cases c Hc) as Hin. cbn [In] in Hin.
  destruct Hin as [<- | Hin].
  - split; [|reflexivity].
    destruct r as [|c2 r2]; [reflexivity|].
    cbn [allChars] in Hr. apply andb_prop in Hr as [Hc2 _].
    destruct (digit_not_special c2 Hc2) as (_ & _ & _ & _ & _ & Hx).
    apply Bool.orb_false_iff in Hx as [Hx HB].
    apply Bool.orb_false_iff in Hx as [Hx Hb].
    apply Bool.orb_false_iff in Hx as [Hx HO].
    apply Bool.orb_false_iff in Hx as [Hx Ho].
    apply Bool.orb_false_iff in Hx as [Hx HX].
    now rewrite Hx, HX, Ho, HO, Hb, HB.
  - repeat (destruct Hin as [<- | Hin]); try contradiction;
      split; reflexivity.
Qed.

(** [Number] reads back the digits of a non-negative integer, with or
    without zeros in front. *)
Lemma Number_integerToString n :
  0 <= n ->
  Number (integerToString n) = ofZ n /\
  Number (String "0" (integerToString n)) = ofZ n.
Proof.
  intros Hn.
  pose proof (integerToString_digits n Hn) as Hall.
  destruct (digits_integerToString n 0 0 Hn) as [L HL].
  destruct (digits_integerToString n 0 1 Hn) as [L' HL'].
  split.
  - destruct (integerToString n) as [|c r] eqn:E.
    + cbn in HL. discriminate.
    + destruct (Number_digits c r Hall) as [-> He].
      apply (unsignedDecimal_digits _ _ (0 + L)%nat); [|exact He].
      rewrite HL. replace (0 * 10 ^ Z.of_nat (S L) + n) with n by lia.
      reflexivity.
  - assert (Hall0 : allChars isDigitChar (String "0" (integerToString n)) = true)
      by (cbn [allChars]; now rewrite Hall).
    destruct (Number_digits _ _ Hall0) as [-> He].
    apply (unsignedDecimal_digits _ _ (1 + L')%nat); [|exact He].
    cbn [digits]. change (digit 10 "0") with (Some 0). cbv iota.
    change (10 * 0 + 0) with 0. rewrite HL'.
    replace (0 * 10 ^ Z.of_nat (S L') + n) with n by lia. reflexivity.
Qed.
(** ** [String] of an integer and [padStart] *)

Lemma append_empty s : s ++ "" = s.
Proof. induction s as [|c r IH]; cbn; now rewrite ?IH. Qed.

Lemma append_assoc' a b c : (a ++ b) ++ c = a ++ (b ++ c).
Proof. induction a as [|x r IH]; cbn; now rewrite ?IH. Qed.

Lemma ToString_int n z : isInt n z -> 0 <= z -> ToString n = integerToString z.
Proof.
  destruct n as [q| | |]; cbn [isInt]; try tauto. intros H Hz.
  assert (Hq : (0 <= q)%Q).
  { rewrite H. change 0%Q with (inject_Z 0). now rewrite <- Zle_Qle. }
  assert (Ha : Qabs q == inject_Z z) by (now rewrite Qabs_pos).
  assert (Hf : Qfloor (Qabs q) = z)
    by (rewrite (Qfloor_comp _ _ Ha); apply Qfloor_Z).
  unfold ToString. cbv zeta. rewrite Hf.
  apply Qle_bool_iff in Hq. rewrite Hq.
  apply Qeq_bool_iff in Ha. rewrite Ha.
  cbn [append]. apply append_empty.
Qed.

Lemma padStart_integer n :
  0 <= n ->
  padStart (integerToString n) 2 "0"
  = if n <? 10 then String "0" (integerToString n) else integerToString n.
Proof.
  intros Hn. unfold padStart, integerToString. rewrite decimal_S.
  destruct (Z.ltb_spec n 10) as [Hlt | Hge].
  - reflexivity.
  - assert (Hl : Z.to_nat (Z.log2 n) = S (Nat.pred (Z.to_nat (Z.log2 n)))).
    { pose proof (Z.log2_le_mono 10 n Hge) as H.
      change (Z.log2 10) with 3 in H. lia. }
    rewrite Hl.
    pose proof (decimal_length (S (Nat.pred (Z.to_nat (Z.log2 n)))) (n / 10)
                  (String (digitChar (n mod 10)) "")) as Hlen.
    rewrite decimal_S in *.
    destruct (n / 10 <? 10).
    + reflexivity.
    + pose proof (decimal_length (Nat.pred (Z.to_nat (Z.log2 n))) (n / 10 / 10)
                    (String (digitChar (n / 10 mod 10))
                       (String (digitChar (n mod 10)) ""))) as Hlen2.
      cbn [String.length] in Hlen2.
      destruct (Nat.leb_spec 2
                  (String.length
                     (decimal (Nat.pred (Z.to_nat (Z.log2 n))) (n / 10 / 10)
                        (String (digitChar (n / 10 mod 10))
                           (String (digitChar (n mod 10)) "")))));
        [reflexivity | lia].
Qed.

(** The two-character form of a non-negative integer: its digits, and
    what [Number] reads back. *)
Lemma pad2_spec n v :
  isInt v n -> 0 <= n ->
  padStart (ToString v) 2 "0" = padStart (integerToString n) 2 "0" /\
  allChars isDigitChar (padStart (integerToString n) 2 "0") = true /\
  Number (padStart (integerToString n) 2 "0") = ofZ n.
Proof.
  intros Hv Hn. rewrite (ToString_int v n Hv Hn). split; [reflexivity|].
  rewrite (padStart_integer n Hn).
  pose proof (integerToString_digits n Hn) as Hd.
  destruct (Number_integerToString n Hn) as [N1 N2].
  destruct (n <? 10); [|auto]. split; [|exact N2]. cbn [allChars]. now rewrite Hd.
Qed.

Lemma digits_free sep s :
  isDigitChar sep = false ->
  allChars isDigitChar s = true ->
  allChars (fun c => negb (Ascii.eqb c sep)) s = true.
Proof.
  intros Hsep. apply allChars_weaken. intros c Hc.
  destruct (Ascii.eqb_spec c sep) as [-> | _]; [congruence | reflexivity].
Qed.

Lemma dateString_parses Y M D :
  0 <= Y -> 0 <= M -> 0 <= D ->
  dateString Y M D
  = integerToString Y ++ String "-" (padStart (integerToString M) 2 "0"
      ++ String "-" (padStart (integerToString D) 2 "0")) /\
  parsesTo "-" (dateString Y M D) [Y; M; D].
Proof.
  intros HY HM HD.
  destruct (pad2_spec M (ofZ M) (isInt_ofZ M) HM) as (EM & AM & NM).
  destruct (pad2_spec D (ofZ D) (isInt_ofZ D) HD) as (ED & AD & ND).
  assert (E : dateString Y M D
              = integerToString Y ++ String "-" (padStart (integerToString M) 2 "0"
                  ++ String "-" (padStart (integerToString D) 2 "0"))).
  { unfold dateString. rewrite EM, ED, (ToString_int _ Y (isInt_ofZ Y) HY).
    reflexivity. }
  split; [exact E|]. unfold parsesTo. rewrite E.
  rewrite split_first
    by (apply digits_free; [reflexivity | now apply integerToString_digits]).
  rewrite split_first by (apply digits_free; [reflexivity | exact AM]).
  rewrite split_last by (apply digits_free; [reflexivity | exact AD]).
  cbn [map List.length firstn].
  rewrite (proj1 (Number_integerToString Y HY)), NM, ND.
  repeat constructor; apply isInt_ofZ.
Qed.

Lemma timeString_parses h m :
  0 <= h -> 0 <= m ->
  timeString h m
  = padStart (integerToString h) 2 "0"
    ++ String ":" (padStart (integerToString m) 2 "0") /\
  parsesTo ":" (timeString h m) [h; m].
Proof.
  intros Hh Hm.
  destruct (pad2_spec h (ofZ h) (isInt_ofZ h) Hh) as (Eh & Ah & Nh).
  destruct (pad2_spec m (ofZ m) (isInt_ofZ m) Hm) as (Em & Am & Nm).
  assert (E : timeString h m
              = padStart (integerToString h) 2 "0"
                ++ String ":" (padStart (integerToString m) 2 "0")).
  { unfold timeString. rewrite Eh, Em. reflexivity. }
  split; [exact E|]. unfold parsesTo. rewrite E.
  rewrite split_first by (apply digits_free; [reflexivity | exact Ah]).
  rewrite split_last by (apply digits_free; [reflexivity | exact Am]).
  cbn [map List.length firstn]. rewrite Nh, Nm.
  repeat constructor; apply isInt_ofZ.
Qed.

(** X15. What the dialog shows of a date built by [toDate] from a date
    string and a time string in the application's format is these two
    strings, a space between them, for every calendar date of a year from
    100 on and every time of day, in a zone with a fixed offset. *)
Theorem formatDateTime_of_toDate host Y M D h m :
  Z.abs (LocalTZA host) <= msPerDay ->
  isDate Y M D ->
  isTime h m ->
  formatDateTime host (Some (toDate host (dateString Y M D) (timeString h m)))
  = dateString Y M D ++ " " ++ timeString h m.
Proof.
  intros Hz Hdate Htime.
  pose proof Hdate as (HY & HM & HD). pose proof Htime as (Hh & Hm).
  destruct (dateString_parses Y M D ltac:(lia) ltac:(lia) ltac:(lia))
    as [Ed Pd].
  destruct (timeString_parses h m ltac:(lia) ltac:(lia)) as [Et Pt].
  rewrite (toDate_instant host Hz _ _ Y M D h m Pd Pt Hdate Htime).
  destruct (localInstant_fields host Y M D h m Hdate Htime)
    as (FY & FM & FD & Fh & Fm).
  unfold formatDateTime. rewrite FY, FM, FD, Fh, Fm.
  rewrite (ToString_int _ Y (isInt_ofZ Y)) by lia.
  assert (IM : isInt (add (ofZ (M - 1)) (ofZ 1)) M).
  { replace M with (M - 1 + 1) at 2 by lia. auto with ints. }
  rewrite (proj1 (pad2_spec M _ IM ltac:(lia))).
  rewrite (proj1 (pad2_spec D _ (isInt_ofZ D) ltac:(lia))).
  rewrite (proj1 (pad2_spec h _ (isInt_ofZ h) ltac:(lia))).
  rewrite (proj1 (pad2_spec m _ (isInt_ofZ m) ltac:(lia))).
  rewrite Ed, Et. cbn [append].
  rewrite !append_assoc'. cbn [append]. rewrite !append_assoc'. reflexivity.
Qed.

Lemma formatDateTime_of_toDate_witness :
  formatDateTime Scenario.seoul
    (Some (toDate Scenario.seoul (dateString 2024 6 1) (timeString 9 5)))
  = dateString 2024 6 1 ++ " " ++ timeString 9 5.
Proof.
  apply formatDateTime_of_toDate.
  - cbn. unfold msPerDay. lia.
  - unfold isDate. cbn. lia.
  - unfold isTime. lia.
Defined.
(** ** The hook under the dialog *)

Section Dialog.
Variable host : Host.
Variable event : option DialogEvent.
Variable onDragEnd : option DragEndCallback.

Lemma dialogMount_settled : settled (dialogMount host event).
Proof.
  unfold settled, dialogMount. split; [|split; reflexivity].
  apply (step_consistent host (dialogProps onDragEnd)
           (rebind (dialogEventLike event)) initial _ []
           consistent_initial eq_refl).
Qed.

Lemma step_settled_calls i s s' effects :
  isRebind i = false ->
  settled s ->
  step host (dialogProps onDragEnd) i s = Returns (s', effects) ->
  calls effects = 0%nat.
Proof.
  intros Hi (_ & Hps & Hpe) H.
  destruct i; try discriminate; cbn [step] in H.
  - unfold handleMouseDown in H.
    destruct (originalStartRef s); inversion H; reflexivity.
  - unfold handleTouchStart in H.
    destruct (originalStartRef s); inversion H; reflexivity.
  - unfold handleMouseMove in H. destruct (draggingRef s); cbn [negb] in H.
    + destruct (onMove host _ s _ _); inversion H; reflexivity.
    + inversion H; reflexivity.
  - unfold handleTouchMove in H. destruct (draggingRef s); cbn [negb] in H.
    + destruct (onMove host _ s _ _); inversion H; reflexivity.
    + inversion H; reflexivity.
  - unfold handleMouseUp, endDrag in H. rewrite Hps in H.
    destruct (draggingRef s); inversion H; reflexivity.
  - unfold handleTouchEnd, endDrag in H. rewrite Hps in H.
    destruct (draggingRef s); inversion H; reflexivity.
  - unfold handleTouchCancel, endDrag in H. rewrite Hps in H.
    destruct (draggingRef s); inversion H; reflexivity.
Qed.

(** After the renders have settled the preview is null again: cleared by
    the effect when the event has both keys, never set when it has not. *)
Lemma dialogStep_settled i s :
  isRebind i = false ->
  settled s ->
  (dialogEventLike event = None -> originalStartRef s = None) ->
  exists s' effects,
    dialogStep host event onDragEnd i s = Returns (s', effects) /\
    settled s' /\
    (dialogEventLike event = None -> originalStartRef s' = None) /\
    calls effects = 0%nat.
Proof.
  intros Hi Hs Hnone. pose proof Hs as (Hc & Hps & Hpe).
  destruct (step_returns host (dialogProps onDragEnd) i s Hc) as (s1 & e1 & E1).
  pose proof (step_consistent host _ _ _ _ _ Hc E1) as Hc1.
  pose proof (step_settled_calls i s s1 e1 Hi Hs E1) as Hcalls.
  unfold dialogStep. rewrite E1. exists (dialogEffect host event s1), e1.
  split; [reflexivity|]. unfold dialogEffect.
  destruct (dialogEventLike event) as [el|] eqn:Eel.
  - split; [|split; [discriminate | exact Hcalls]].
    unfold settled. split; [|split; reflexivity].
    apply (step_consistent host (dialogProps onDragEnd) (rebind (Some el))
             s1 _ [] Hc1 eq_refl).
  - specialize (Hnone eq_refl).
    assert (Hkeep : originalStartRef s1 = None /\ previewStart s1 = None
                    /\ previewEnd s1 = None).
    { destruct i; try discriminate; cbn [step] in E1.
      - unfold handleMouseDown in E1. rewrite Hnone in E1.
        inversion E1; subst; auto.
      - unfold handleTouchStart in E1. rewrite Hnone in E1.
        inversion E1; subst; auto.
      - unfold handleMouseMove, onMove in E1. rewrite Hnone in E1.
        destruct (draggingRef s); inversion E1; subst; auto.
      - unfold handleTouchMove, onMove in E1. rewrite Hnone in E1.
        destruct (draggingRef s); inversion E1; subst; auto.
      - unfold handleMouseUp, endDrag in E1.
        destruct (draggingRef s); inversion E1; subst; auto.
      - unfold handleTouchEnd, endDrag in E1.
        destruct (draggingRef s); inversion E1; subst; auto.
      - unfold handleTouchCancel, endDrag in E1.
        destruct (draggingRef s); inversion E1; subst; auto. }
    destruct Hkeep as (H1 & H2 & H3). unfold settled. auto 10.
Qed.

Lemma dialogRun_settled inputs : forall s,
  Forall (fun i => isRebind i = false) inputs ->
  settled s ->
  (dialogEventLike event = None -> originalStartRef s = None) ->
  exists s' effects,
    dialogRun host event onDragEnd inputs s = Returns (s', effects) /\
    settled s' /\
    calls effects = 0%nat.
Proof.
  induction inputs as [|i rest IH]; intros s Hall Hs Hnone; cbn [dialogRun].
  - exists s, []. auto.
  - inversion Hall as [|? ? Hi Hrest]; subst.
    destruct (dialogStep_settled i s Hi Hs Hnone)
      as (s1 & e1 & E1 & Hs1 & Hnone1 & Hc1).
    destruct (IH s1 Hrest Hs1 Hnone1) as (s2 & e2 & E2 & Hs2 & Hc2).
    rewrite E1, E2. exists s2, (e1 ++ e2)%list.
    split; [reflexivity|]. split; [exact Hs2|].
    rewrite calls_app. lia.
Qed.
End Dialog.

(** X16. Under [RecurringEventDialog] no release ever calls [onDragEnd]:
    when the event has the keys [start] and [end], [eventLike] is a new
    object on every render, so the hook's effect on [event] runs after every
    render and clears the preview a move has published; when it has not, the
    hook is bound to no event.  Whatever the listeners receive, once the
    renders have settled the preview is null and nothing is committed. *)
Theorem dialog_never_commits host event onDragEnd inputs :
  Forall (fun i => isRebind i = false) inputs ->
  exists s effects,
    dialogRun host event onDragEnd inputs (dialogMount host event)
    = Returns (s, effects) /\
    previewStart s = None /\
    previewEnd s = None /\
    calls effects = 0%nat.
Proof.
  intros Hall.
  destruct (dialogRun_settled host event onDragEnd inputs
              (dialogMount host event) Hall
              (dialogMount_settled host event onDragEnd))
    as (s & effects & Hrun & (_ & Hps & Hpe) & Hc).
  - unfold dialogMount. now intros ->.
  - exists s, effects. auto.
Qed.

Lemma dialog_never_commits_witness :
  exists s effects,
    dialogRun Scenario.seoul
      (Some {| startKey := Some (start Scenario.event);
               endKey := Some (end_ Scenario.event) |})
      (Some 0%nat)
      [mousedown (Scenario.at_ 100 100); mousemove (Scenario.at_ 100 140); mouseup]
      (dialogMount Scenario.seoul
         (Some {| startKey := Some (start Scenario.event);
                  endKey := Some (end_ Scenario.event) |}))
    = Returns (s, effects) /\
    calls effects = 0%nat.
Proof.
  destruct (dialog_never_commits Scenario.seoul
              (Some {| startKey := Some (start Scenario.event);
                       endKey := Some (end_ Scenario.event) |})
              (Some 0%nat)
              [mousedown (Scenario.at_ 100 100);
               mousemove (Scenario.at_ 100 140); mouseup]
              ltac:(repeat constructor))
    as (s & effects & Hrun & _ & _ & Hc).
  exists s, effects. auto.
Defined.
(** ** Touch and mouse *)

Lemma step_mouseOf host props i s :
  step host props (mouseOf i) s = step host props i s.
Proof. destruct i; reflexivity. Qed.

(** X17. The touch listeners do what the mouse listeners do at the first
    touch: replacing, in any history, every touch input by the pointer input
    at its first touch (a touch-end or touch-cancel by a pointer-up) gives the
    same cells and the same effects.  Further fingers are never read. *)
Theorem touch_as_mouse host inputs : forall s,
  run host (map (fun pi => (fst pi, mouseOf (snd pi))) inputs) s
  = run host inputs s.
Proof.
  induction inputs as [|[props i] rest IH]; intros s; cbn [map run fst snd].
  - reflexivity.
  - rewrite step_mouseOf.
    destruct (step host props i s) as [[s1 e1]|]; [|reflexivity].
    now rewrite IH.
Qed.

(** ** Duration under a marker *)

(** X18. The duration is preserved under a marker as well: on every move
    of an active session, whatever is under the pointer, a published end
    that is a valid date satisfies
    [previewEnd - previewStart === originalEnd - originalStart]. *)
Theorem duration_preserved_under_marker host props s cx cy s' os oe ps pe :
  draggingRef s = true ->
  originalStartRef s = Some os ->
  originalEndRef s = Some oe ->
  onMove host props s cx cy = Returns s' ->
  previewStart s' = Some ps ->
  previewEnd s' = Some pe ->
  DateValue pe <> None ->
  strictEq (sub (getTime pe) (getTime ps)) (sub (getTime oe) (getTime os))
  = true.
Proof.
  intros Hd Hs He Hm Hps Hpe Hv.
  destruct (onMove_preview _ _ _ _ _ _ _ _ Hm Hd Hs He)
    as (start & _ & Hps' & Hpe' & _).
  cbv zeta in Hps', Hpe'.
  rewrite Hps in Hps'. injection Hps' as Eps. rewrite <- Eps in Hpe'.
  rewrite Hpe in Hpe'. injection Hpe' as Epe.
  subst pe. cbn [DateValue] in Hv.
  destruct ps as [[a|]], oe as [[b|]], os as [[t0|]];
    unfold getTime in *; cbn [DateValue] in *;
    try (rewrite TimeClip_None in Hv; [congruence | reflexivity]).
  assert (Hi : isInt (add (ofZ a) (sub (ofZ b) (ofZ t0))) (a + (b - t0)))
    by auto with ints.
  rewrite (TimeClip_int _ _ Hi) in *.
  destruct (clip (a + (b - t0))) as [e|] eqn:Hc; [|congruence].
  apply clip_Some in Hc as [-> _].
  apply strictEq_int with (z := b - t0); auto with ints.
  replace (b - t0) with (a + (b - t0) - a) at 2 by lia. auto with ints.
Qed.

Lemma duration_preserved_under_marker_witness :
  strictEq
    (sub (getTime (mkDate (Some 1710466200000)))
       (getTime (mkDate (Some 1710462600000))))
    (sub (getTime (mkDate (Some 1717981200000)))
       (getTime (mkDate (Some 1717977600000))))
  = true.
Proof.
  refine (duration_preserved_under_marker (Scenario.calendar "2024-03-15")
            Scenario.defaults Scenario.pressed (ofZ 130) (ofZ 180)
            {| draggingRef := true;
               startPosRef := Some {| x := ofZ 100; y := ofZ 100 |};
               originalStartRef := Some (mkDate (Some 1717977600000));
               originalEndRef := Some (mkDate (Some 1717981200000));
               isDragging := true;
               previewStart := Some (mkDate (Some 1710462600000));
               previewEnd := Some (mkDate (Some 1710466200000)) |}
            _ _ _ _ eq_refl eq_refl eq_refl eq_refl eq_refl eq_refl _).
  discriminate.
Defined.

(** ** Duration across a clock change *)

Lemma end_after_duration ps os oe pe :
  pe = mkDate (TimeClip (add (getTime ps) (sub (getTime oe) (getTime os)))) ->
  DateValue pe <> None ->
  strictEq (sub (getTime pe) (getTime ps)) (sub (getTime oe) (getTime os))
  = true.
Proof.
  intros -> Hv. cbn [DateValue] in Hv.
  destruct ps as [[a|]], oe as [[b|]], os as [[t0|]];
    unfold getTime in *; cbn [DateValue] in *;
    try (rewrite TimeClip_None in Hv; [congruence | reflexivity]).
  assert (Hi : isInt (add (ofZ a) (sub (ofZ b) (ofZ t0))) (a + (b - t0)))
    by auto with ints.
  rewrite (TimeClip_int _ _ Hi) in *.
  destruct (clip (a + (b - t0))) as [e|] eqn:Hc; [|congruence].
  apply clip_Some in Hc as [-> _].
  apply strictEq_int with (z := b - t0); auto with ints.
  replace (b - t0) with (a + (b - t0) - a) at 2 by lia. auto with ints.
Qed.

(** X19. The duration in elapsed milliseconds is preserved in every zone,
    with or without daylight saving and whatever is under the pointer: on a
    move of an active session the published end is the published start plus
    [originalEnd - originalStart], so that
    [previewEnd - previewStart === originalEnd - originalStart] whenever the
    published end is a valid date.  (Across a clock change the hour shown of
    the end may differ from the original one; the elapsed time does not.) *)
Theorem duration_preserved_in_every_zone zone host props s cx cy s' os oe ps pe :
  draggingRef s = true ->
  originalStartRef s = Some os ->
  originalEndRef s = Some oe ->
  DaylightSaving.onMove zone host props s cx cy = Returns s' ->
  previewStart s' = Some ps ->
  previewEnd s' = Some pe ->
  pe = mkDate (TimeClip (add (getTime ps) (sub (getTime oe) (getTime os)))) /\
  (DateValue pe <> None ->
   strictEq (sub (getTime pe) (getTime ps)) (sub (getTime oe) (getTime os))
   = true).
Proof.
  intros Hd Hs He Hm Hps Hpe.
  assert (E : pe = mkDate (TimeClip (add (getTime ps)
                                       (sub (getTime oe) (getTime os))))).
  { unfold DaylightSaving.onMove in Hm. rewrite Hd, Hs, He in Hm.
    destruct (startPosRef s) as [anchor|]; [|discriminate].
    cbv zeta in Hm. inversion Hm as [Hs']. rewrite <- Hs' in Hps, Hpe.
    cbn [previewStart previewEnd] in Hps, Hpe.
    inversion Hps as [Eps]. inversion Hpe as [Epe]. reflexivity. }
  split; [exact E|]. now apply end_after_duration.
Qed.

Lemma duration_preserved_in_every_zone_witness :
  mkDate (Some 1710059400000)
  = mkDate (TimeClip (add (getTime (mkDate (Some 1710055800000)))
                        (sub (getTime (mkDate (Some 1709973000000)))
                           (getTime (mkDate (Some 1709969400000)))))) /\
  (DateValue (mkDate (Some 1710059400000)) <> None ->
   strictEq
     (sub (getTime (mkDate (Some 1710059400000)))
        (getTime (mkDate (Some 1710055800000))))
     (sub (getTime (mkDate (Some 1709973000000)))
        (getTime (mkDate (Some 1709969400000))))
   = true).
Proof.
  refine (duration_preserved_in_every_zone DaylightSaving.newYork
            DaylightSaving.manhattan Scenario.locked DaylightSaving.pressed
            (ofZ 400) (ofZ 140)
            {| draggingRef := true;
               startPosRef := Some {| x := ofZ 100; y := ofZ 100 |};
               originalStartRef := Some (mkDate (Some 1709969400000));
               originalEndRef := Some (mkDate (Some 1709973000000));
               isDragging := true;
               previewStart := Some (mkDate (Some 1710055800000));
               previewEnd := Some (mkDate (Some 1710059400000)) |}
            _ _ _ _ eq_refl eq_refl eq_refl _ eq_refl eq_refl).
  vm_compute. reflexivity.
Defined.
